(** * Gaussian-splat PLY loader: a shallow embedding and its specification

    The development embeds [gaussian-splat-loader.js] (class
    [GaussianSplatLoader]) and the spherical-harmonics evaluator of its
    vertex shader; the two scripts that write test files
    ([createPlyHeader], [writeFloatLE] and the assembly of the file); the
    name the server gives to a saved image; and [RobotController] with the
    commands of the socket.

    - JavaScript numbers are IEEE-754 binary64 values: Rocq's primitive
      [float].  [NaN], the infinities and the two zeros are the kernel's.
    - [Math.exp] is left to the implementation by ECMAScript, which fixes
      only its value at [NaN], [+0], [-0], [+Infinity] and [-Infinity].  The
      loader is therefore parametric in [Math_exp]; [exp_ref] is one
      admissible implementation, used where a closed computation is needed.
    - A property that is missing from an object reads as [undefined]:
      [None] in a [gmap] lookup.
    - A thrown exception is the [Thrown] outcome; the only exception the
      loader's own code can meet is the [RangeError] of a [DataView] read
      past the end of the buffer. *)

From Stdlib Require Import ZArith NArith List String Ascii Floats Bool Lia DecimalString.
From stdpp Require Import base gmap strings list.

Set Warnings "-inexact-float".

(* ===================================================================== *)
(** ** JavaScript values *)
(* ===================================================================== *)

Module JS.

(** The exceptions of the embedded code. *)
Inductive error : Type :=
| RangeError.

(** The result of a call: a value, or an exception that unwinds the call. *)
Inductive outcome (A : Type) : Type :=
| Returned (a : A)
| Thrown (e : error).

Arguments Returned {A} a.
Arguments Thrown {A} e.

Definition bind {A B : Type} (m : outcome A) (k : A -> outcome B) : outcome B :=
  match m with
  | Returned a => k a
  | Thrown e => Thrown e
  end.

(** [for (x of l) acc = body(acc, x)], stopping at the first exception. *)
Fixpoint foldM {A T : Type} (body : T -> A -> outcome T) (l : list A) (s : T) : outcome T :=
  match l with
  | [] => Returned s
  | x :: rest => bind (body s x) (foldM body rest)
  end.

(** [ToBoolean] on a number: [+0], [-0] and [NaN] are falsy. *)
Definition truthy (x : float) : bool :=
  negb (PrimFloat.eqb x 0%float || PrimFloat.is_nan x).

(** [ToNumber] on a property read: [undefined] becomes [NaN]. *)
Definition ToNumber (v : option float) : float :=
  match v with
  | Some x => x
  | None => nan
  end.

(** [v || d] where [v] is a property read (a number or [undefined]) and
    [d] a number. *)
Definition or_else (v : option float) (d : float) : float :=
  match v with
  | Some x => if truthy x then x else d
  | None => d
  end.

(** [Math.min(a, b)] and [Math.max(a, b)]: [NaN] if either is, and [-0]
    below [+0]. *)
Definition Math_min (a b : float) : float :=
  if PrimFloat.is_nan a || PrimFloat.is_nan b then nan
  else if PrimFloat.ltb a b then a
  else if PrimFloat.ltb b a then b
  else if PrimFloat.get_sign a then a else b.

Definition Math_max (a b : float) : float :=
  if PrimFloat.is_nan a || PrimFloat.is_nan b then nan
  else if PrimFloat.ltb a b then b
  else if PrimFloat.ltb b a then a
  else if PrimFloat.get_sign a then b else a.

(** The number with mathematical value [z], rounded to nearest-even. *)
Definition of_Z (z : Z) : float :=
  SF2Prim (binary_normalize 53 1024 z 0 false).

(** [Math.fround]: the nearest binary32 value, as a number.  It is the
    conversion a [Float32Array] store applies. *)
Definition fround (x : float) : float :=
  match Prim2SF x with
  | S754_finite s m e => SF2Prim (binary_round 24 128 s m e)
  | _ => x
  end.

(** An admissible [Math.exp]: ECMAScript's five fixed values, and for the
    other arguments the Taylor polynomial of degree 24 at [x / 2^10], squared
    ten times. *)
Fixpoint taylor_exp (n : nat) (k : float) (y term acc : float) : float :=
  match n with
  | O => acc
  | S n' =>
      let term' := (term * y / k)%float in
      taylor_exp n' (k + 1)%float y term' (acc + term')%float
  end.

Fixpoint square_times (n : nat) (x : float) : float :=
  match n with
  | O => x
  | S n' => square_times n' (x * x)%float
  end.

Definition exp_ref (x : float) : float :=
  if PrimFloat.is_nan x then nan
  else if PrimFloat.eqb x 0%float then 1%float
  else if PrimFloat.eqb x infinity then infinity
  else if PrimFloat.eqb x neg_infinity then 0%float
  else square_times 10 (taylor_exp 24 1%float (x / 1024)%float 1%float 1%float).

End JS.

Export JS.

Notation "'let!' x ':=' m 'in' k" := (JS.bind m (fun x => k))
  (at level 10, x name, m at level 100, k at level 200).

(* ===================================================================== *)
(** ** Text: [TextDecoder], [TextEncoder] and the [String] methods *)
(* ===================================================================== *)

Module Text.

Local Open Scope N_scope.

(** A string is the sequence of its code points.  The strings of the
    loader come out of [TextDecoder], so they hold no lone surrogate and
    the UTF-16 code units of the engine carry the same information. *)
Definition jsstring : Type := list N.

(** The code points of a literal. *)
Definition lit (s : string) : jsstring :=
  List.map N_of_ascii (list_ascii_of_string s).

Definition REPLACEMENT : N := 65533.

(** *** UTF-8, after the WHATWG Encoding standard *)

(** The decoder's state between the bytes of one sequence: the code point
    so far, the continuation bytes still needed, and the bounds of the next
    byte. *)
Record pending : Type := Pending {
  code_point : N;
  bytes_needed : nat;
  lower_boundary : N;
  upper_boundary : N
}.

(** A byte met with no sequence open: what it emits and the state it opens. *)
Definition utf8_lead (b : N) : list N * option pending :=
  if b <=? 127 then ([b], None)
  else if (194 <=? b) && (b <=? 223) then
    ([], Some (Pending (N.land b 31) 1 128 191))
  else if (224 <=? b) && (b <=? 239) then
    ([], Some (Pending (N.land b 15) 2
                 (if b =? 224 then 160 else 128)
                 (if b =? 237 then 159 else 191)))
  else if (240 <=? b) && (b <=? 244) then
    ([], Some (Pending (N.land b 7) 3
                 (if b =? 240 then 144 else 128)
                 (if b =? 244 then 143 else 191)))
  else ([REPLACEMENT], None).

Fixpoint utf8_decode_from (st : option pending) (bs : list N) : list N :=
  match bs with
  | [] =>
      match st with
      | None => []
      | Some _ => [REPLACEMENT]
      end
  | b :: rest =>
      match st with
      | None =>
          let '(out, st') := utf8_lead b in
          out ++ utf8_decode_from st' rest
      | Some p =>
          if (lower_boundary p <=? b) && (b <=? upper_boundary p) then
            let cp := N.lor (N.shiftl (code_point p) 6) (N.land b 63) in
            match bytes_needed p with
            | S (S k) => utf8_decode_from (Some (Pending cp (S k) 128 191)) rest
            | _ => cp :: utf8_decode_from None rest
            end
          else
            (* the sequence is broken: U+FFFD, and the byte is read again *)
            let '(out, st') := utf8_lead b in
            REPLACEMENT :: out ++ utf8_decode_from st' rest
      end
  end.

(** [new TextDecoder().decode(buffer)]: UTF-8, not fatal, a leading byte
    order mark dropped. *)
Definition TextDecoder_decode (buffer : list Byte.byte) : jsstring :=
  let bs := List.map Byte.to_N buffer in
  match bs with
  | b0 :: b1 :: b2 :: rest =>
      if (b0 =? 239) && (b1 =? 187) && (b2 =? 191) then utf8_decode_from None rest
      else utf8_decode_from None bs
  | _ => utf8_decode_from None bs
  end.

Definition utf8_encode_cp (c : N) : list N :=
  if c <=? 127 then [c]
  else if c <=? 2047 then
    [N.lor 192 (N.shiftr c 6); N.lor 128 (N.land c 63)]
  else if c <=? 65535 then
    [N.lor 224 (N.shiftr c 12);
     N.lor 128 (N.land (N.shiftr c 6) 63);
     N.lor 128 (N.land c 63)]
  else
    [N.lor 240 (N.shiftr c 18);
     N.lor 128 (N.land (N.shiftr c 12) 63);
     N.lor 128 (N.land (N.shiftr c 6) 63);
     N.lor 128 (N.land c 63)].

(** [new TextEncoder().encode(s)]. *)
Definition TextEncoder_encode (s : jsstring) : list N :=
  List.flat_map utf8_encode_cp s.

(** The key under which a string names an object's property: its UTF-8
    bytes, so that the names of the source read as literals. *)
Definition key_of (s : jsstring) : string :=
  string_of_list_ascii (List.map ascii_of_N (TextEncoder_encode s)).

(** *** [String.prototype] *)

(** [WhiteSpace] and [LineTerminator]: what [trim] strips and [\s] matches. *)
Definition is_space (c : N) : bool :=
  ((9 <=? c) && (c <=? 13)) || (c =? 32) || (c =? 160) || (c =? 5760)
  || ((8192 <=? c) && (c <=? 8202)) || (c =? 8232) || (c =? 8233)
  || (c =? 8239) || (c =? 8287) || (c =? 12288) || (c =? 65279).

Fixpoint trimStart (s : jsstring) : jsstring :=
  match s with
  | c :: rest => if is_space c then trimStart rest else s
  | [] => []
  end.

Definition trimEnd (s : jsstring) : jsstring :=
  List.rev (trimStart (List.rev s)).

Definition trim (s : jsstring) : jsstring :=
  trimEnd (trimStart s).

(** [s.split(sep)] for a separator of one character: the fields between
    the separators, of which there is always at least one. *)
Fixpoint split_from (sep : N) (field : jsstring) (s : jsstring) : list jsstring :=
  match s with
  | [] => [List.rev field]
  | c :: rest =>
      if c =? sep then List.rev field :: split_from sep [] rest
      else split_from sep (c :: field) rest
  end.

Definition split (sep : N) (s : jsstring) : list jsstring :=
  split_from sep [] s.

(** [s.split(/\s+/)]: the fields between the maximal runs of white space. *)
Fixpoint split_spaces_from (in_run : bool) (field : jsstring) (s : jsstring) : list jsstring :=
  match s with
  | [] => [List.rev field]
  | c :: rest =>
      if is_space c then
        if in_run then split_spaces_from true [] rest
        else List.rev field :: split_spaces_from true [] rest
      else split_spaces_from false (c :: field) rest
  end.

Definition split_spaces (s : jsstring) : list jsstring :=
  split_spaces_from false [] s.

(** [s === t] on strings. *)
Definition str_eqb (s t : jsstring) : bool :=
  bool_decide (s = t).

(** [a[i] === 'literal'] where the element may be [undefined]. *)
Definition is_lit (v : option jsstring) (s : string) : bool :=
  match v with
  | Some t => str_eqb t (lit s)
  | None => false
  end.

(** [ToString] on an array element: [undefined] reads "undefined". *)
Definition ToString (v : option jsstring) : jsstring :=
  match v with
  | Some s => s
  | None => lit "undefined"
  end.

(** *** [parseInt] and [parseFloat] *)

Definition digit_value (c : N) : option N :=
  if (48 <=? c) && (c <=? 57) then Some (c - 48)
  else if (97 <=? c) && (c <=? 122) then Some (c - 87)
  else if (65 <=? c) && (c <=? 90) then Some (c - 55)
  else None.

(** The longest prefix of digits of the radix, as (value, digit count, rest). *)
Fixpoint read_digits (radix : N) (acc : N) (count : nat) (s : jsstring) : N * nat * jsstring :=
  match s with
  | c :: rest =>
      match digit_value c with
      | Some d => if d <? radix then read_digits radix (acc * radix + d) (S count) rest
                  else (acc, count, s)
      | None => (acc, count, s)
      end
  | [] => (acc, count, [])
  end.

(** A sign, read off the front. *)
Definition read_sign (s : jsstring) : bool * jsstring :=
  match s with
  | 45 :: rest => (true, rest)
  | 43 :: rest => (false, rest)
  | _ => (false, s)
  end.

(** [parseInt(v)] with no radix given.  The result is the integer read,
    [None] standing for [NaN]; it is kept exact, which the engine does up
    to 2^53. *)
Definition parseInt (v : option jsstring) : option Z :=
  let '(negative, s) := read_sign (trimStart (ToString v)) in
  let '(radix, s) :=
    match s with
    | 48 :: 120 :: rest | 48 :: 88 :: rest => (16, rest)
    | _ => (10, s)
    end in
  let '(n, count, _) := read_digits radix 0 0 s in
  match count with
  | O => None
  | _ => Some (if negative then (- Z.of_N n)%Z else Z.of_N n)
  end.

(** The number [m * 10^e], rounded to nearest-even. *)
Definition decimal_value (negative : bool) (m : N) (e : Z) : float :=
  match m with
  | 0 => if negative then neg_zero else zero
  | Npos p =>
      match e with
      | Zneg k =>
          SF2Prim (SFdiv 53 1024 (S754_finite negative p 0)
                     (S754_finite false (Pos.pow 10 k) 0))
      | _ => SF2Prim (binary_normalize 53 1024
                        ((if negative then Zneg p else Zpos p) * 10 ^ e)%Z 0%Z negative)
      end
  end.

(** The exponent part of a literal: [e] or [E], a sign, and at least one
    digit; without the digit there is no exponent part. *)
Definition read_exponent (s : jsstring) : Z :=
  match s with
  | 101 :: rest | 69 :: rest =>
      let '(negative, rest') := read_sign rest in
      let '(n, count, _) := read_digits 10 0 0 rest' in
      match count with
      | O => 0%Z
      | _ => if negative then (- Z.of_N n)%Z else Z.of_N n
      end
  | _ => 0%Z
  end.

(** [parseFloat(s)]: the longest prefix that is a [StrDecimalLiteral],
    after leading white space; [NaN] when there is none. *)
Definition parseFloat (s : jsstring) : float :=
  let '(negative, s) := read_sign (trimStart s) in
  if bool_decide (List.firstn 8 s = lit "Infinity") then
    if negative then neg_infinity else infinity
  else
    let '(int_part, int_count, s) := read_digits 10 0 0 s in
    match s with
    | 46 :: frac =>
        let '(m, frac_count, s') := read_digits 10 int_part 0 frac in
        match int_count, frac_count with
        | O, O => nan
        | _, _ => decimal_value negative m (read_exponent s' - Z.of_nat frac_count)
        end
    | _ =>
        match int_count with
        | O => nan
        | _ => decimal_value negative int_part (read_exponent s)
        end
    end.

End Text.

Export Text.

(* ===================================================================== *)
(** ** [DataView]: typed reads from a byte buffer *)
(* ===================================================================== *)

Module DataView.

Local Open Scope Z_scope.

(** [new DataView(buffer)]: a view of the whole buffer. *)
Record t : Type := Make { buffer : list Byte.byte }.

Definition byteLength (dv : t) : Z := Z.of_nat (List.length (buffer dv)).

(** The [n] bytes at [byteOffset], in buffer order; a [RangeError] when
    they are not all inside the view. *)
Definition bytes_at (dv : t) (byteOffset : Z) (n : nat) : outcome (list Z) :=
  if (0 <=? byteOffset) && (byteOffset + Z.of_nat n <=? byteLength dv) then
    Returned (List.map (fun b => Z.of_N (Byte.to_N b))
                (List.firstn n (List.skipn (Z.to_nat byteOffset) (buffer dv))))
  else Thrown RangeError.

(** The unsigned integer of a byte sequence, least significant first. *)
Fixpoint unsigned_le (bs : list Z) : Z :=
  match bs with
  | [] => 0
  | b :: rest => b + 256 * unsigned_le rest
  end.

Definition bits_at (dv : t) (byteOffset : Z) (n : nat) (littleEndian : bool) : outcome Z :=
  let! bs := bytes_at dv byteOffset n in
  Returned (unsigned_le (if littleEndian then bs else List.rev bs)).

(** Two's complement on [w] bits. *)
Definition signed (w : Z) (u : Z) : Z :=
  if u <? 2 ^ (w - 1) then u else u - 2 ^ w.

(** The binary32 and binary64 values of a bit pattern. *)
Definition float_of_bits (mantissa_bits exponent_bits : Z) (u : Z) : float :=
  let m := Z.land u (2 ^ mantissa_bits - 1) in
  let e := Z.land (Z.shiftr u mantissa_bits) (2 ^ exponent_bits - 1) in
  let s := Z.testbit u (mantissa_bits + exponent_bits) in
  let bias := 2 ^ (exponent_bits - 1) - 1 in
  if e =? 2 ^ exponent_bits - 1 then
    if m =? 0 then (if s then neg_infinity else infinity) else nan
  else
    let '(m', e') := if e =? 0 then (m, 1 - bias - mantissa_bits)
                     else (m + 2 ^ mantissa_bits, e - bias - mantissa_bits) in
    match m' with
    | Zpos p => SF2Prim (S754_finite s p e')
    | _ => if s then neg_zero else zero
    end.

Definition getUint8 (dv : t) (byteOffset : Z) : outcome float :=
  let! u := bits_at dv byteOffset 1 true in Returned (of_Z u).

Definition getInt8 (dv : t) (byteOffset : Z) : outcome float :=
  let! u := bits_at dv byteOffset 1 true in Returned (of_Z (signed 8 u)).

Definition getUint16 (dv : t) (byteOffset : Z) (littleEndian : bool) : outcome float :=
  let! u := bits_at dv byteOffset 2 littleEndian in Returned (of_Z u).

Definition getInt16 (dv : t) (byteOffset : Z) (littleEndian : bool) : outcome float :=
  let! u := bits_at dv byteOffset 2 littleEndian in Returned (of_Z (signed 16 u)).

Definition getUint32 (dv : t) (byteOffset : Z) (littleEndian : bool) : outcome float :=
  let! u := bits_at dv byteOffset 4 littleEndian in Returned (of_Z u).

Definition getInt32 (dv : t) (byteOffset : Z) (littleEndian : bool) : outcome float :=
  let! u := bits_at dv byteOffset 4 littleEndian in Returned (of_Z (signed 32 u)).

Definition getFloat32 (dv : t) (byteOffset : Z) (littleEndian : bool) : outcome float :=
  let! u := bits_at dv byteOffset 4 littleEndian in Returned (float_of_bits 23 8 u).

Definition getFloat64 (dv : t) (byteOffset : Z) (littleEndian : bool) : outcome float :=
  let! u := bits_at dv byteOffset 8 littleEndian in Returned (float_of_bits 52 11 u).

End DataView.

(** A [Float32Array]: zero-filled when made; a store rounds to binary32
    and does nothing outside the array. *)
Module Float32Array.

Abbreviation t := (list float) (only parsing).

Definition make (n : nat) : t := replicate n 0%float.

Definition set (a : t) (i : nat) (v : option float) : t :=
  <[i := fround (ToNumber v)]> a.

(** Three consecutive stores, as the assembler writes a [vec3]. *)
Definition set3 (a : t) (i : nat) (v0 v1 v2 : option float) : t :=
  set (set (set a i v0) (i + 1) v1) (i + 2) v2.

End Float32Array.

(* ===================================================================== *)
(** ** [GaussianSplatLoader] *)
(* ===================================================================== *)

Module GaussianSplatLoader.

Local Open Scope Z_scope.
Local Open Scope string_scope.
Local Open Scope list_scope.

(** The loader object: its one field. *)
Record loader : Type := Loader { littleEndian : bool }.

(** [constructor()]. *)
Definition constructor : loader := Loader true.

(** A [property] line of the header.  Either part is [undefined] when the
    line is too short. *)
Record property : Type := Property {
  type : option jsstring;
  name : option jsstring
}.

(** [o[prop.name]]: the key a property's name makes. *)
Definition property_key (prop : property) : string :=
  key_of (ToString (name prop)).

(** [vertexCount] is what [parseInt] returned ([None] for [NaN]), or the
    initial [0]. *)
Record header : Type := Header {
  format : option jsstring;
  vertexCount : option Z;
  properties : list property;
  headerLength : Z
}.

(** The state of the loop of [parseHeader]. *)
Record header_scan : Type := Scan {
  scan_header : header;
  inHeader : bool;
  headerText : jsstring;
  scan_this : loader
}.

Definition set_format (h : header) (v : option jsstring) : header :=
  Header v (vertexCount h) (properties h) (headerLength h).

Definition set_vertexCount (h : header) (v : option Z) : header :=
  Header (format h) v (properties h) (headerLength h).

Definition push_property (h : header) (p : property) : header :=
  Header (format h) (vertexCount h) (properties h ++ [p]) (headerLength h).

Definition set_headerLength (h : header) (v : Z) : header :=
  Header (format h) (vertexCount h) (properties h) v.

(** The body of the loop for a line that is neither [ply] nor
    [end_header], once inside the header. *)
Definition header_line (line : jsstring) (h : header) (this : loader) : header * loader :=
  let parts := split 32 line in
  if is_lit (parts !! 0%nat) "format" then
    (set_format h (parts !! 1%nat),
     Loader (is_lit (parts !! 1%nat) "binary_little_endian"))
  else if is_lit (parts !! 0%nat) "element" && is_lit (parts !! 1%nat) "vertex" then
    (set_vertexCount h (parseInt (parts !! 2%nat)), this)
  else if is_lit (parts !! 0%nat) "property" then
    (push_property h (Property (parts !! 1%nat) (parts !! 2%nat)), this)
  else (h, this).

(** The loop of [parseHeader] over the lines that remain. *)
Fixpoint parseHeader_loop (lines : list jsstring) (s : header_scan) : header * loader :=
  match lines with
  | [] => (scan_header s, scan_this s)
  | l :: rest =>
      let line := trim l in
      let headerText := headerText s ++ line ++ [10%N] in
      if str_eqb line (lit "ply") then
        parseHeader_loop rest (Scan (scan_header s) true headerText (scan_this s))
      else if str_eqb line (lit "end_header") then
        (set_headerLength (scan_header s)
           (Z.of_nat (List.length (TextEncoder_encode headerText))),
         scan_this s)
      else if negb (inHeader s) then
        parseHeader_loop rest (Scan (scan_header s) (inHeader s) headerText (scan_this s))
      else
        let '(h, this) := header_line line (scan_header s) (scan_this s) in
        parseHeader_loop rest (Scan h (inHeader s) headerText this)
  end.

Definition initial_header : header :=
  Header (Some (lit "ascii")) (Some 0) [] 0.

(** [parseHeader(buffer)]: the header, and the loader as the call leaves it. *)
Definition parseHeader (this : loader) (buffer : list Byte.byte) : outcome (header * loader) :=
  let text := TextDecoder_decode buffer in
  let lines := split 10 text in
  Returned (parseHeader_loop lines (Scan initial_header false [] this)).

(** [getTypeSize(type)]. *)
Definition getTypeSize (type : option jsstring) : Z :=
  if is_lit type "float" then 4
  else if is_lit type "double" then 8
  else if is_lit type "int" || is_lit type "uint" then 4
  else if is_lit type "short" || is_lit type "ushort" then 2
  else if is_lit type "char" || is_lit type "uchar" then 1
  else 4.

(** One entry of the property map. *)
Record entry : Type := Entry {
  offset : Z;
  entry_type : option jsstring;
  size : Z
}.

(** [o[k] = v] on an object kept as the list of its own properties in
    insertion order.  A store to [__proto__] makes no own property. *)
Definition obj_set {V : Type} (k : string) (v : V) (o : list (string * V)) : list (string * V) :=
  if String.eqb k "__proto__" then o
  else if existsb (fun kv => String.eqb (fst kv) k) o then
    List.map (fun kv => if String.eqb (fst kv) k then (k, v) else kv) o
  else o ++ [(k, v)].

(** The property map: its entries as [Object.entries] lists them, without
    the key [vertexSize] (a property of that name is overwritten by the
    number, and the decoder's loop skips the key), and the number stored
    under [vertexSize].  Keys that are array indices would be listed first
    by the engine; the order only decides which of several failing reads
    throws, and they all throw the same. *)
Record propertyMap : Type := PropertyMap {
  entries : list (string * entry);
  vertexSize : Z
}.

(** The body of the loop of [createPropertyMap], on the pair of its [map]
    and [offset]. *)
Definition layout_step (acc : list (string * entry) * Z) (prop : property)
    : list (string * entry) * Z :=
  let '(map, offset) := acc in
  (obj_set (property_key prop) (Entry offset (type prop) (getTypeSize (type prop))) map,
   offset + getTypeSize (type prop)).

(** [createPropertyMap(properties)]. *)
Definition createPropertyMap (properties : list property) : propertyMap :=
  let '(map, offset) := fold_left layout_step properties ([], 0) in
  PropertyMap (List.filter (fun kv => negb (String.eqb (fst kv) "vertexSize")) map) offset.

(** [readBinaryValue(dataView, offset, type)]. *)
Definition readBinaryValue (this : loader) (dataView : DataView.t) (offset : Z)
    (type : option jsstring) : outcome float :=
  if is_lit type "float" then DataView.getFloat32 dataView offset (littleEndian this)
  else if is_lit type "double" then DataView.getFloat64 dataView offset (littleEndian this)
  else if is_lit type "int" then DataView.getInt32 dataView offset (littleEndian this)
  else if is_lit type "uint" then DataView.getUint32 dataView offset (littleEndian this)
  else if is_lit type "short" then DataView.getInt16 dataView offset (littleEndian this)
  else if is_lit type "ushort" then DataView.getUint16 dataView offset (littleEndian this)
  else if is_lit type "char" then DataView.getInt8 dataView offset
  else if is_lit type "uchar" then DataView.getUint8 dataView offset
  else DataView.getFloat32 dataView offset (littleEndian this).

(** [vertex[k] = v] on a raw vertex, the object [vertex] of the decoders,
    from property name to number.  A number stored to [__proto__] is
    dropped. *)
Definition set_field (k : string) (v : float) (vertex : gmap string float) : gmap string float :=
  if String.eqb k "__proto__" then vertex else <[k := v]> vertex.

(** The record [processVertex] returns. *)
Record splat : Type := Splat {
  position : list float;
  scale : list float;
  rotation : list (option float);
  opacity : float;
  sh_dc : list float;
  sh_rest : list float
}.

Section WithMathExp.

(** The engine's [Math.exp]. *)
Variable Math_exp : float -> float.

(** [processVertex(vertex)]. *)
Definition processVertex (vertex : gmap string float) : splat :=
  let position :=
    [ or_else (vertex !! "x") 0;
      or_else (vertex !! "y") 0;
      or_else (vertex !! "z") 0 ]%float in
  let scale :=
    [ or_else (vertex !! "scale_0") (or_else (vertex !! "scale_x") 0.01);
      or_else (vertex !! "scale_1") (or_else (vertex !! "scale_y") 0.01);
      or_else (vertex !! "scale_2") (or_else (vertex !! "scale_z") 0.01) ]%float in
  let scale := List.map (fun s => Math_exp s) scale in
  let rotation :=
    [ vertex !! "rot_0"; vertex !! "rot_1"; vertex !! "rot_2"; vertex !! "rot_3" ] in
  let opacity := (1.0 / (1.0 + Math_exp (- ToNumber (vertex !! "opacity"))))%float in
  let opacity :=
    Math_max 0 (Math_min 1 (or_else (Some opacity) (or_else (vertex !! "alpha") 0.8)))%float in
  let sh_dc :=
    [ or_else (vertex !! "f_dc_0") 0.0;
      or_else (vertex !! "f_dc_1") 0.0;
      or_else (vertex !! "f_dc_2") 0.0 ]%float in
  let sh_rest :=
    List.map
      (fun i => or_else (vertex !! ("f_rest_" +:+ NilZero.string_of_uint (Nat.to_uint i))) 0.0%float)
      (seq 0 45) in
  let sh_dc :=
    match sh_dc with
    | [dc0; dc1; dc2] =>
        if PrimFloat.eqb dc0 0 && PrimFloat.eqb dc1 0 && PrimFloat.eqb dc2 0 then
          match vertex !! "red", vertex !! "green", vertex !! "blue" with
          | Some red, Some green, Some blue =>
              [ (red / 255.0 - 0.5) / 0.28209479177387814;
                (green / 255.0 - 0.5) / 0.28209479177387814;
                (blue / 255.0 - 0.5) / 0.28209479177387814 ]%float
          | _, _, _ =>
              match vertex !! "r", vertex !! "g", vertex !! "b" with
              | Some r, Some g, Some b =>
                  [ (r - 0.5) / 0.28209479177387814;
                    (g - 0.5) / 0.28209479177387814;
                    (b - 0.5) / 0.28209479177387814 ]%float
              | _, _, _ => [0.5; 0.0; -0.5]%float
              end
          end
        else sh_dc
    | _ => sh_dc
    end in
  Splat position scale rotation opacity sh_dc sh_rest.

(** The loop of [createVertex], from the [vertex] it has reached. *)
Definition fill (properties : list property) (values : list float)
    (vertex : gmap string float) : gmap string float :=
  fold_left
    (fun vertex '(prop, value) => set_field (property_key prop) value vertex)
    (List.combine properties values) vertex.

(** The object [vertex] that [createVertex] fills. *)
Definition createVertex_fields (values : list float) (properties : list property)
    : gmap string float :=
  fill properties values ∅.

(** [createVertex(values, properties)]. *)
Definition createVertex (values : list float) (properties : list property) : splat :=
  processVertex (createVertex_fields values properties).

(** [parseAsciiVertices(buffer, offset, header, propertyMap)]. *)
Definition parseAsciiVertices (buffer : list Byte.byte) (offset : Z) (header : header)
    (propertyMap : propertyMap) : list splat :=
  let text := TextDecoder_decode (List.skipn (Z.to_nat offset) buffer) in
  let lines :=
    List.filter (fun line => negb (bool_decide (trim line = []))) (split 10 text) in
  let count :=
    match vertexCount header with
    | Some n => Nat.min (List.length lines) (Z.to_nat n)
    | None => O
    end in
  fold_left
    (fun vertices line =>
       let values := List.map parseFloat (split_spaces (trim line)) in
       if (3 <=? List.length values)%nat then
         vertices ++ [createVertex values (properties header)]
       else vertices)
    (List.firstn count lines) [].

(** The inner loop of [parseBinaryVertices]: one record read into a fresh
    [vertex]. *)
Definition readVertex (this : loader) (dataView : DataView.t) (vertexOffset : Z)
    (propertyMap : propertyMap) : outcome (gmap string float) :=
  foldM
    (fun vertex '(name, prop) =>
       let! value := readBinaryValue this dataView (vertexOffset + offset prop) (entry_type prop) in
       Returned (set_field name value vertex))
    (entries propertyMap) ∅.

(** The values [i] takes in [for (let i = 0; i < n; i++)]. *)
Definition loop_indices (n : option Z) : list Z :=
  match n with
  | Some n => List.map Z.of_nat (seq 0 (Z.to_nat n))
  | None => []
  end.

(** The body of the outer loop of [parseBinaryVertices], on the array
    [vertices]. *)
Definition decode_record (this : loader) (dataView : DataView.t) (offset : Z)
    (propertyMap : propertyMap) (vertices : list splat) (i : Z) : outcome (list splat) :=
  let vertexOffset := offset + i * vertexSize propertyMap in
  let! vertex := readVertex this dataView vertexOffset propertyMap in
  Returned (vertices ++ [processVertex vertex]).

(** [parseBinaryVertices(dataView, offset, header, propertyMap)]. *)
Definition parseBinaryVertices (this : loader) (dataView : DataView.t) (offset : Z)
    (header : header) (propertyMap : propertyMap) : outcome (list splat) :=
  foldM (decode_record this dataView offset propertyMap)
    (loop_indices (vertexCount header)) [].

(** [parseVertices(dataView, offset, header)]. *)
Definition parseVertices (this : loader) (dataView : DataView.t) (offset : Z)
    (header : header) : outcome (list splat) :=
  let propertyMap := createPropertyMap (properties header) in
  if is_lit (format header) "ascii" then
    Returned (parseAsciiVertices (DataView.buffer dataView) offset header propertyMap)
  else parseBinaryVertices this dataView offset header propertyMap.

(** The attribute arrays [createGaussianSplatMesh] fills, under the names
    of its local variables ([sh_dc_array] is its [sh_dc]). *)
Record columns : Type := Columns {
  positions : Float32Array.t;
  scales : Float32Array.t;
  rotations : Float32Array.t;
  opacities : Float32Array.t;
  sh_dc_array : Float32Array.t;
  sh_rest_0_2 : Float32Array.t;
  sh_rest_3_5 : Float32Array.t;
  sh_rest_6_8 : Float32Array.t;
  sh_rest_9_11 : Float32Array.t;
  sh_rest_12_14 : Float32Array.t;
  sh_rest_15_17 : Float32Array.t;
  sh_rest_18_20 : Float32Array.t;
  sh_rest_21_23 : Float32Array.t;
  sh_rest_24_26 : Float32Array.t
}.

(** [mesh.userData], without the reference back to the loader. *)
Record userData : Type := UserData {
  ud_vertexCount : nat;
  ud_format : option jsstring;
  ud_properties : list property
}.

(** The mesh: the geometry's attributes ([rgbcolor] is the attribute
    [color]) and the user data.  The material is not part of the model. *)
Record mesh : Type := Mesh {
  geometry : columns;
  rgbcolor : Float32Array.t;
  mesh_userData : userData
}.

(** [for (let i = start; i < start + vertices.length; i++)
      s = body(i, vertices[i - start], s)]. *)
Definition for_vertices_from {T : Type} (start : nat) (vertices : list splat)
    (body : nat -> splat -> T -> T) (s : T) : T :=
  fold_left (fun s '(i, vertex) => body i vertex s)
    (List.combine (seq start (List.length vertices)) vertices) s.

(** [for (let i = 0; i < vertices.length; i++) s = body(i, vertices[i], s)]. *)
Definition for_vertices {T : Type} (vertices : list splat) (body : nat -> splat -> T -> T)
    (s : T) : T :=
  for_vertices_from 0 vertices body s.

(** [a[i]] on an array of numbers or [undefined]. *)
Definition element (a : list (option float)) (i : nat) : option float :=
  match a !! i with
  | Some v => v
  | None => None
  end.

(** [vertex.sh_rest[k] || 0.0]. *)
Definition rest_or_zero (vertex : splat) (k : nat) : option float :=
  Some (or_else (sh_rest vertex !! k) 0.0%float).

(** The body of the first loop of [createGaussianSplatMesh]. *)
Definition store_vertex (i : nat) (vertex : splat) (c : columns) : columns :=
  let i3 := (i * 3)%nat in
  let i4 := (i * 4)%nat in
  let rest (a : Float32Array.t) (k : nat) :=
    Float32Array.set3 a i3 (rest_or_zero vertex k) (rest_or_zero vertex (k + 1))
      (rest_or_zero vertex (k + 2)) in
  Columns
    (Float32Array.set3 (positions c) i3
       (position vertex !! 0%nat) (position vertex !! 1%nat) (position vertex !! 2%nat))
    (Float32Array.set3 (scales c) i3
       (scale vertex !! 0%nat) (scale vertex !! 1%nat) (scale vertex !! 2%nat))
    (Float32Array.set
       (Float32Array.set3 (rotations c) i4
          (element (rotation vertex) 0) (element (rotation vertex) 1)
          (element (rotation vertex) 2))
       (i4 + 3) (element (rotation vertex) 3))
    (Float32Array.set (opacities c) i (Some (opacity vertex)))
    (Float32Array.set3 (sh_dc_array c) i3
       (sh_dc vertex !! 0%nat) (sh_dc vertex !! 1%nat) (sh_dc vertex !! 2%nat))
    (rest (sh_rest_0_2 c) 0%nat)
    (rest (sh_rest_3_5 c) 3%nat)
    (rest (sh_rest_6_8 c) 6%nat)
    (rest (sh_rest_9_11 c) 9%nat)
    (rest (sh_rest_12_14 c) 12%nat)
    (rest (sh_rest_15_17 c) 15%nat)
    (rest (sh_rest_18_20 c) 18%nat)
    (rest (sh_rest_21_23 c) 21%nat)
    (rest (sh_rest_24_26 c) 24%nat).

(** The forward SH-DC-to-RGB formula of the second loop. *)
Definition dc_to_rgb (dc : option float) : option float :=
  Some (0.5 + 0.28209479177387814 * ToNumber dc)%float.

(** The body of the second loop. *)
Definition store_rgb (i : nat) (vertex : splat) (rgbcolor : Float32Array.t) : Float32Array.t :=
  Float32Array.set
    (Float32Array.set
       (Float32Array.set rgbcolor (i * 3)%nat (dc_to_rgb (sh_dc vertex !! 0%nat)))
       (i * 3 + 1)%nat (dc_to_rgb (sh_dc vertex !! 1%nat)))
    (i * 3 + 2)%nat (dc_to_rgb (sh_dc vertex !! 2%nat)).

(** [createGaussianSplatMesh(vertices, header)]. *)
Definition createGaussianSplatMesh (vertices : list splat) (header : header) : mesh :=
  let n := List.length vertices in
  let n3 := Float32Array.make (n * 3) in
  let columns :=
    for_vertices vertices store_vertex
      (Columns n3 n3 (Float32Array.make (n * 4)) (Float32Array.make n)
         n3 n3 n3 n3 n3 n3 n3 n3 n3 n3) in
  let rgbcolor := for_vertices vertices store_rgb (Float32Array.make (n * 3)) in
  Mesh columns rgbcolor (UserData n (format header) (properties header)).

(** [parse(buffer)]: the mesh or the exception, and the loader as the call
    leaves it. *)
Definition parse (this : loader) (buffer : list Byte.byte) : outcome mesh * loader :=
  let dataView := DataView.Make buffer in
  match parseHeader this buffer with
  | Thrown e => (Thrown e, this)
  | Returned (header, this) =>
      let offset := headerLength header in
      (let! vertices := parseVertices this dataView offset header in
       Returned (createGaussianSplatMesh vertices header),
       this)
  end.

End WithMathExp.

End GaussianSplatLoader.

(* ===================================================================== *)
(** ** The vertex shader's colour evaluator *)
(* ===================================================================== *)

(** The shader computes in GLSL [float]: binary32, here with IEEE
    round-to-nearest after each operation. *)
Module Shader.

Definition f32 (x : float) : float := fround x.
Definition add (a b : float) : float := fround (a + b)%float.
Definition sub (a b : float) : float := fround (a - b)%float.
Definition mul (a b : float) : float := fround (a * b)%float.
Definition neg (a : float) : float := (- a)%float.

Arguments f32 x%_float.

Declare Scope f32_scope.
Delimit Scope f32_scope with f32.
Notation "a + b" := (add a b) : f32_scope.
Notation "a - b" := (sub a b) : f32_scope.
Notation "a * b" := (mul a b) : f32_scope.
Notation "- a" := (neg a) : f32_scope.

(** GLSL [min], [max] and [clamp] on a [float]. *)
Definition min (x y : float) : float := if PrimFloat.ltb y x then y else x.
Definition max (x y : float) : float := if PrimFloat.ltb x y then y else x.
Definition clamp (x minVal maxVal : float) : float := min (max x minVal) maxVal.

Record vec3 : Type := Vec3 { x : float; y : float; z : float }.

(** [clamp(color, 0.0, 1.0)] on a [vec3]. *)
Definition clamp3 (v : vec3) : vec3 :=
  Vec3 (clamp (x v) (f32 0.0) (f32 1.0))
       (clamp (y v) (f32 0.0) (f32 1.0))
       (clamp (z v) (f32 0.0) (f32 1.0)).

(** The vertex attributes the evaluator reads besides its arguments. *)
Record attributes : Type := Attributes {
  sh_rest_0_2 : vec3;
  sh_rest_3_5 : vec3;
  sh_rest_6_8 : vec3;
  sh_rest_9_11 : vec3;
  sh_rest_12_14 : vec3;
  sh_rest_15_17 : vec3;
  sh_rest_18_20 : vec3;
  sh_rest_21_23 : vec3;
  sh_rest_24_26 : vec3
}.

Local Open Scope f32_scope.

(** The DC term: [0.5 + 0.28209479177387814 * sh_dc]. *)
Definition dc_color (sh_dc : vec3) : vec3 :=
  Vec3 (f32 0.5 + f32 0.28209479177387814 * x sh_dc)
       (f32 0.5 + f32 0.28209479177387814 * y sh_dc)
       (f32 0.5 + f32 0.28209479177387814 * z sh_dc).

(** The three [+=] of degree 1 on one channel, [pick] choosing the
    channel's component of each attribute. *)
Definition add_degree1 (a : attributes) (dir : vec3) (pick : vec3 -> float) (c : float) : float :=
  let c := c + (- f32 0.48860251190291987) * y dir * pick (sh_rest_0_2 a) in
  let c := c + f32 0.48860251190291987 * z dir * pick (sh_rest_3_5 a) in
  let c := c + (- f32 0.48860251190291987) * x dir * pick (sh_rest_6_8 a) in
  c.

(** The five [+=] of degree 2 on one channel. *)
Definition add_degree2 (a : attributes) (dir : vec3) (pick : vec3 -> float) (c : float) : float :=
  let xx := x dir * x dir in
  let yy := y dir * y dir in
  let zz := z dir * z dir in
  let xy := x dir * y dir in
  let yz := y dir * z dir in
  let xz := x dir * z dir in
  let c := c + f32 1.0925484305920792 * xy * pick (sh_rest_9_11 a) in
  let c := c + (- f32 1.0925484305920792) * yz * pick (sh_rest_12_14 a) in
  let c := c + f32 0.94617469575755997 * (f32 2.0 * zz - xx - yy) * pick (sh_rest_15_17 a) in
  let c := c + (- f32 1.0925484305920792) * xz * pick (sh_rest_18_20 a) in
  let c := c + f32 0.54627421529603959 * (xx - yy) * pick (sh_rest_21_23 a) in
  c.

(** [evaluateSphericalHarmonics(dir, sh_dc, degree)]. *)
Definition evaluateSphericalHarmonics (a : attributes) (dir : vec3) (sh_dc : vec3)
    (degree : Z) : vec3 :=
  let color := dc_color sh_dc in
  if (degree <? 1)%Z then clamp3 color
  else
    let color :=
      Vec3 (add_degree1 a dir x (x color))
           (add_degree1 a dir y (y color))
           (add_degree1 a dir z (z color)) in
    if (degree <? 2)%Z then clamp3 color
    else
      Vec3 (add_degree2 a dir x (x color))
           (add_degree2 a dir y (y color))
           (add_degree2 a dir z (z color)).

End Shader.

(* ===================================================================== *)
(** ** Vocabulary of the statements *)
(* ===================================================================== *)

Module Spec.

Import GaussianSplatLoader.

Local Open Scope string_scope.
Local Open Scope list_scope.

(** A property read that [||] passes over: [undefined], a zero or [NaN]. *)
Definition passed_over (v : option float) : bool :=
  match v with
  | Some x => negb (truthy x)
  | None => true
  end.

(** The two names under which the component [i] of the scale is looked
    up, in the order of the look-up. *)
Definition scale_names : list (string * string) :=
  [("scale_0", "scale_x"); ("scale_1", "scale_y"); ("scale_2", "scale_z")].

(** A number of the interval [0, 1]. *)
Definition in_unit_interval (x : float) : bool :=
  PrimFloat.leb 0 x && PrimFloat.leb x 1.

(** A colour value outside [0, 1]. *)
Definition overshoots (x : float) : bool :=
  PrimFloat.ltb x 0 || PrimFloat.ltb 1 x.

(** The colour after the terms of degree 1. *)
Definition color_degree1 (a : Shader.attributes) (dir sh_dc : Shader.vec3) : Shader.vec3 :=
  Shader.Vec3 (Shader.add_degree1 a dir Shader.x (Shader.x (Shader.dc_color sh_dc)))
       (Shader.add_degree1 a dir Shader.y (Shader.y (Shader.dc_color sh_dc)))
       (Shader.add_degree1 a dir Shader.z (Shader.z (Shader.dc_color sh_dc))).

(** The colour after the terms of degree 2. *)
Definition color_degree2 (a : Shader.attributes) (dir sh_dc : Shader.vec3) : Shader.vec3 :=
  Shader.Vec3 (Shader.add_degree2 a dir Shader.x (Shader.x (color_degree1 a dir sh_dc)))
       (Shader.add_degree2 a dir Shader.y (Shader.y (color_degree1 a dir sh_dc)))
       (Shader.add_degree2 a dir Shader.z (Shader.z (color_degree1 a dir sh_dc))).

(** The lines the loop of [parseHeader] goes through: those before the
    first one that reads [end_header]. *)
Fixpoint lines_before_end (lines : list jsstring) : list jsstring :=
  match lines with
  | [] => []
  | l :: rest =>
      if str_eqb (trim l) (lit "end_header") then []
      else l :: lines_before_end rest
  end.

(** There is a line that reads [end_header]. *)
Definition has_end_header (lines : list jsstring) : bool :=
  existsb (fun l => str_eqb (trim l) (lit "end_header")) lines.

(** The line reads [element vertex ...]. *)
Definition is_element_vertex (l : jsstring) : bool :=
  is_lit (split 32 (trim l) !! 0%nat) "element"
  && is_lit (split 32 (trim l) !! 1%nat) "vertex".

(** After the specification: the byte offset where the vertex data begin,
    that is the byte length of all header lines up to and including the
    line feed that ends the first line reading [end_header], counted on the
    bytes of the buffer.  [None] when no line reads [end_header]. *)
Fixpoint data_offset_from (raw_lines : list (list N)) (consumed : nat) : option nat :=
  match raw_lines with
  | [] => None
  | l :: rest =>
      if str_eqb (trim (utf8_decode_from None l)) (lit "end_header") then
        Some (consumed + List.length l + 1)%nat
      else data_offset_from rest (consumed + List.length l + 1)%nat
  end.

Definition data_offset (buffer : list Byte.byte) : option nat :=
  data_offset_from (split 10 (List.map Byte.to_N buffer)) 0.

(** The numbers on a vertex line. *)
Definition line_values (line : jsstring) : list float :=
  List.map parseFloat (split_spaces (trim line)).

(** The vertex lines the ascii decoder goes through: the first
    [vertexCount] of the lines after the header that are not blank. *)
Definition ascii_lines (buffer : list Byte.byte) (offset : Z)
    (header : GaussianSplatLoader.header) : list jsstring :=
  let lines :=
    List.filter (fun line => negb (bool_decide (trim line = [])))
      (split 10 (TextDecoder_decode (List.skipn (Z.to_nat offset) buffer))) in
  match GaussianSplatLoader.vertexCount header with
  | Some n => List.firstn (Z.to_nat n) lines
  | None => []
  end.

(** Every entry of a property map lies inside the record. *)
Definition inside (map : list (string * GaussianSplatLoader.entry)) (bound : Z) : Prop :=
  forall k e, In (k, e) map ->
    (0 <= GaussianSplatLoader.offset e
     /\ GaussianSplatLoader.offset e
        + GaussianSplatLoader.getTypeSize (GaussianSplatLoader.entry_type e) <= bound)%Z.

(** A header line as the writer of a file produces it: ASCII, without a
    line feed inside, and with no white space at either end. *)
Definition plain_line (l : jsstring) : Prop :=
  Forall (fun c => (c <= 127)%N /\ c <> 10%N) l /\ trim l = l.

(** The text of lines, each ended by a line feed. *)
Definition join_lines (lines : list jsstring) : jsstring :=
  List.flat_map (fun l => l ++ [10%N]) lines.

(** The bytes of a buffer as character codes. *)
Definition text_of (bs : list Byte.byte) : jsstring := List.map Byte.to_N bs.

(** A plain line of bytes that does not read [end_header]. *)
Definition plain (l : list Byte.byte) : Prop :=
  plain_line (text_of l) /\ text_of l <> lit "end_header".

(** The bytes of a header: its lines and the closing [end_header], each
    ended by a line feed. *)
Definition header_bytes (lines : list (list Byte.byte)) : list Byte.byte :=
  List.flat_map (fun l => l ++ [Byte.x0a]) lines
  ++ list_byte_of_string "end_header" ++ [Byte.x0a].

(** The logistic function as [processVertex] writes it. *)
Definition sigmoid (Math_exp : float -> float) (x : float) : float :=
  (1.0 / (1.0 + Math_exp (- x)))%float.

End Spec.

(* ===================================================================== *)
(** ** Concrete inputs *)
(* ===================================================================== *)

Module Inputs.

Import GaussianSplatLoader.

Local Open Scope string_scope.
Local Open Scope list_scope.

(** Raw vertices, as the decoders hand them to [processVertex]. *)
Definition vertex_without_fields : gmap string float := ∅.

Definition vertex_rgb_255_0_0 : gmap string float :=
  <["red" := 255%float]> (<["green" := 0%float]> (<["blue" := 0%float]> ∅)).


Definition vertex_scale_0_zero : gmap string float :=
  <["scale_0" := 0%float]> ∅.

Definition vertex_scale_0_minus_infinity : gmap string float :=
  <["scale_0" := neg_infinity]> ∅.

Definition vertex_scale_0_zero_scale_x_two : gmap string float :=
  <["scale_0" := 0%float]> (<["scale_x" := 2%float]> ∅).

Definition vertex_scale_1 : gmap string float :=
  <["scale_1" := 0.1%float]> ∅.

Definition vertex_opacity_zero : gmap string float :=
  <["opacity" := 0%float]> ∅.

Definition vertex_opacity_minus_1000 : gmap string float :=
  <["opacity" := (-1000)%float]> ∅.

Definition vertex_opacity_minus_infinity : gmap string float :=
  <["opacity" := neg_infinity]> ∅.

(** Buffers.  A header is given by its lines and the line ending. *)
Definition LF : list Byte.byte := [Byte.x0a].

Definition CRLF : list Byte.byte := [Byte.x0d; Byte.x0a].

Definition lines_with (eol : list Byte.byte) (lines : list string) : list Byte.byte :=
  List.flat_map (fun l => list_byte_of_string l ++ eol) lines.

(** The binary32 number 1.0, little-endian. *)
Definition one_f32_le : list Byte.byte := [Byte.x00; Byte.x00; Byte.x80; Byte.x3f].

Definition header_one_float : list string :=
  ["ply"; "format binary_little_endian 1.0"; "element vertex 1";
   "property float x"; "end_header"].

(** One vertex with [x = 1.0], lines ended by a line feed. *)
Definition buffer_lf : list Byte.byte :=
  lines_with LF header_one_float ++ one_f32_le.

(** The same file with lines ended by carriage return and line feed. *)
Definition buffer_crlf : list Byte.byte :=
  lines_with CRLF header_one_float ++ one_f32_le.

(** The same file with one more byte after the record. *)
Definition buffer_trailing_byte : list Byte.byte :=
  buffer_lf ++ [Byte.x00].

(** The same file cut one byte short. *)
Definition buffer_truncated : list Byte.byte :=
  lines_with LF header_one_float ++ [Byte.x00; Byte.x00; Byte.x80].

(** A header that is never closed. *)
Definition buffer_no_end_header : list Byte.byte :=
  lines_with LF ["ply"; "format binary_little_endian 1.0"; "element vertex 1";
                 "property float x"]
  ++ one_f32_le.

(** A header that never gives the vertex count. *)
Definition buffer_no_vertex_count : list Byte.byte :=
  lines_with LF ["ply"; "format binary_little_endian 1.0"; "property float x";
                 "end_header"]
  ++ one_f32_le.

(** An ascii file: three properties, and two vertex lines of which the
    first has two tokens. *)
Definition buffer_ascii_short_line : list Byte.byte :=
  lines_with LF ["ply"; "format ascii 1.0"; "element vertex 2";
                 "property float x"; "property float y"; "property float z";
                 "end_header"; "1 2"; ""; "4 5 6"].

(** An ascii file: five properties, and one vertex line of four tokens. *)
Definition buffer_ascii_four_of_five : list Byte.byte :=
  lines_with LF ["ply"; "format ascii 1.0"; "element vertex 1";
                 "property float x"; "property float y"; "property float z";
                 "property float opacity"; "property float scale_0";
                 "end_header"; "1 2 3 0"].

(** Inputs of the shader: a bright DC coefficient, a direction along [z],
    and attributes that are zero but for one degree-1 and one degree-2
    coefficient of the red channel. *)
Definition bright_dc : Shader.vec3 := Shader.Vec3 10 10 10.

Definition dir_z : Shader.vec3 := Shader.Vec3 0 0 1.

Definition zero3 : Shader.vec3 := Shader.Vec3 0 0 0.

Definition no_rest : Shader.attributes :=
  Shader.Attributes zero3 zero3 zero3 zero3 zero3 zero3 zero3 zero3 zero3.

Definition some_rest : Shader.attributes :=
  Shader.Attributes zero3 (Shader.Vec3 1 0 0) zero3 zero3 zero3
    (Shader.Vec3 1 0 0) zero3 zero3 zero3.

End Inputs.

(* ===================================================================== *)
(** ** Vocabulary on the record layout *)
(* ===================================================================== *)

Module Layout.

Import GaussianSplatLoader.

Local Open Scope string_scope.
Local Open Scope list_scope.
Local Open Scope Z_scope.

(** The declared properties laid one after the other from [offset] on. *)
Fixpoint layout_from (offset : Z) (properties : list property) : list (string * entry) :=
  match properties with
  | [] => []
  | p :: rest =>
      (property_key p, Entry offset (type p) (getTypeSize (type p)))
      :: layout_from (offset + getTypeSize (type p)) rest
  end.

(** The sum of the sizes of the declared properties. *)
Fixpoint record_size (properties : list property) : Z :=
  match properties with
  | [] => 0
  | p :: rest => getTypeSize (type p) + record_size rest
  end.

(** Property names that are distinct and are neither [__proto__] nor
    [vertexSize]. *)
Definition ordinary (properties : list property) : Prop :=
  NoDup (List.map property_key properties)
  /\ Forall (fun p => property_key p <> "__proto__" /\ property_key p <> "vertexSize")
       properties.

(** The nine arrays of rest coefficients of the assembler, in order. *)
Definition rest_arrays (c : columns) : list (list float) :=
  [ sh_rest_0_2 c; sh_rest_3_5 c; sh_rest_6_8 c; sh_rest_9_11 c; sh_rest_12_14 c;
    sh_rest_15_17 c; sh_rest_18_20 c; sh_rest_21_23 c; sh_rest_24_26 c ].

(** The rows of three, of four and of one that [store_vertex] writes. *)
Definition row3 (v0 v1 v2 : splat -> option float) (i : nat) (vertex : splat)
    (a : list float) : list float :=
  Float32Array.set3 a (i * 3) (v0 vertex) (v1 vertex) (v2 vertex).

Definition pick3 (v0 v1 v2 : splat -> option float) (vertex : splat) (k : nat)
    : option float :=
  match k with
  | O => v0 vertex
  | S O => v1 vertex
  | _ => v2 vertex
  end.

Definition row4 (i : nat) (vertex : splat) (a : list float) : list float :=
  Float32Array.set
    (Float32Array.set3 a (i * 4)
       (element (rotation vertex) 0) (element (rotation vertex) 1)
       (element (rotation vertex) 2))
    (i * 4 + 3) (element (rotation vertex) 3).

Definition row1 (i : nat) (vertex : splat) (a : list float) : list float :=
  Float32Array.set a i (Some (opacity vertex)).

(** Two runs of the header loop agree on the byte order they will use:
    either the loaders are the same, or no [format] line has been read and
    the format is still the initial [ascii], which reads no binary number. *)
Definition agree (h : header) (this this' : loader) : Prop :=
  this = this' \/ is_lit (format h) "ascii" = true.

End Layout.

(* ===================================================================== *)
(** ** Further inputs *)
(* ===================================================================== *)

Module Cases.

Import GaussianSplatLoader Inputs.

Local Open Scope string_scope.
Local Open Scope list_scope.

(** One coefficient of degree 0 beside a full 8-bit colour. *)
Definition vertex_dc_and_rgb : gmap string float :=
  <["f_dc_1" := 0.3%float]> (<["red" := 255%float]> (<["green" := 0%float]>
    (<["blue" := 0%float]> ∅))).

(** The name of the rest coefficient [i], as the template literal
    [`f_rest_${i}`] builds it. *)
Definition f_rest (i : nat) : string :=
  "f_rest_" +:+ NilZero.string_of_uint (Nat.to_uint i).

(** The header of [buffer_lf], as [parseHeader] returns it. *)
Definition header_of_buffer_lf : header :=
  Header (Some (lit "binary_little_endian")) (Some 1%Z)
    [Property (Some (lit "float")) (Some (lit "x"))] 81%Z.


(** One vertex with [x = 1.0], and a [face] element declared after it. *)
Definition buffer_with_faces : list Byte.byte :=
  lines_with LF ["ply"; "format binary_little_endian 1.0"; "element vertex 1";
                 "property float x"; "element face 0";
                 "property list uchar int vertex_indices"; "end_header"]
  ++ one_f32_le.

End Cases.

(* ===================================================================== *)
(** ** The scripts that write test files *)
(* ===================================================================== *)

Module PlyWriter.

Import GaussianSplatLoader.

Local Open Scope string_scope.
Local Open Scope list_scope.
Local Open Scope Z_scope.

(** The decimal digits of a whole number before [tail], the way a template
    literal prints a whole number below 10^21. *)
Fixpoint digits_before (fuel : nat) (n : N) (tail : jsstring) : jsstring :=
  match fuel with
  | O => tail
  | S fuel =>
      if (n <? 10)%N then (48 + n)%N :: tail
      else digits_before fuel (n / 10)%N ((48 + n mod 10)%N :: tail)
  end.

Definition Number_toString (n : N) : jsstring :=
  digits_before (S (N.to_nat (N.log2 n))) n [].

(** [createPlyHeader(vertexCount)]. *)
Definition createPlyHeader (vertexCount : N) : jsstring :=
  lit "ply
format binary_little_endian 1.0
element vertex " ++ Number_toString vertexCount ++ lit "
property float x
property float y
property float z
property float nx
property float ny
property float nz
property float f_dc_0
property float f_dc_1
property float f_dc_2
property float opacity
property float scale_0
property float scale_1
property float scale_2
property float rot_0
property float rot_1
property float rot_2
property float rot_3
end_header
".

(** A byte of a [Buffer]. *)
Definition byte_of (c : N) : Byte.byte :=
  match Byte.of_N c with
  | Some b => b
  | None => Byte.x00
  end.

(** [Buffer.from(s, 'utf8')] and [Buffer.alloc(size)]. *)
Definition Buffer_from (s : jsstring) : list Byte.byte :=
  List.map byte_of (TextEncoder_encode s).

Definition Buffer_alloc (size : Z) : list Byte.byte :=
  List.repeat Byte.x00 (Z.to_nat size).

(** The bit pattern of the binary32 number nearest to [value]. *)
Definition binary32_bits (value : float) : Z :=
  let sign (s : bool) := if s then 2 ^ 31 else 0 in
  match Prim2SF value with
  | S754_zero s => sign s
  | S754_infinity s => sign s + 255 * 2 ^ 23
  | S754_nan => 255 * 2 ^ 23 + 2 ^ 22
  | S754_finite s m e =>
      match binary_round 24 128 s m e with
      | S754_zero s' => sign s'
      | S754_infinity s' => sign s' + 255 * 2 ^ 23
      | S754_nan => 255 * 2 ^ 23 + 2 ^ 22
      | S754_finite s' m' e' =>
          if Z.pos m' <? 2 ^ 23 then sign s' + Z.pos m'
          else sign s' + (e' + 150) * 2 ^ 23 + (Z.pos m' - 2 ^ 23)
      end
  end.

(** The four bytes of a bit pattern, least significant first. *)
Definition bytes_le (u : Z) : list Byte.byte :=
  List.map (fun k => byte_of (Z.to_N ((u / 256 ^ k) mod 256))) [0; 1; 2; 3].

(** [buffer.writeFloatLE(value, offset)], with the buffer it leaves. *)
Definition writeFloatLE (buffer : list Byte.byte) (value : float) (offset : Z)
    : outcome (list Byte.byte) :=
  if (0 <=? offset) && (offset + 4 <=? Z.of_nat (List.length buffer)) then
    Returned (List.firstn (Z.to_nat offset) buffer
              ++ bytes_le (binary32_bits value)
              ++ List.skipn (Z.to_nat offset + 4) buffer)
  else Thrown RangeError.

Definition BYTES_PER_VERTEX : Z := 17 * 4.

(** The inner loop of the writer, on [buffer] and [offset]. *)
Definition write_values (state : list Byte.byte * Z) (gaussian : list float)
    : outcome (list Byte.byte * Z) :=
  foldM
    (fun '(buffer, offset) value =>
       let! buffer := writeFloatLE buffer value offset in
       Returned (buffer, offset + 4))
    gaussian state.

(** The [fileContent] that [generatePlyFile] and
    [generateOrthogonalPlyFile] hand to [fs.writeFileSync], from their
    [NUM_GAUSSIANS] and [gaussianData]. *)
Definition fileContent (NUM_GAUSSIANS : N) (gaussianData : list (list float))
    : outcome (list Byte.byte) :=
  let header := createPlyHeader NUM_GAUSSIANS in
  let totalBinarySize := Z.of_N NUM_GAUSSIANS * BYTES_PER_VERTEX in
  let buffer := Buffer_alloc totalBinarySize in
  let! written := foldM write_values gaussianData (buffer, 0) in
  Returned (Buffer_from header ++ fst written).

(** [createOrthogonalGaussianData()]. *)
Definition createOrthogonalGaussianData : list (list float) :=
  [ [ 0.5; 0; 0.5;
      0.0; 0.0; 1.0;
      1.0; 0.0; 0.0;
      0.9;
      0.8; 0.05; 0.05;
      1.0; 0.0; 0.0; 0.0 ];
    [ -0.5; 0; 0.5;
      0.0; 0.0; 1.0;
      0.0; 0.1; 0.0;
      0.9;
      0.05; 0.8; 0.05;
      1.0; 0.0; 0.0; 0.0 ];
    [ 0; 0.5; 0;
      0.0; 0.0; 1.0;
      0.0; 0.0; 1.0;
      0.9;
      0.05; 0.05; 0.8;
      1.0; 0.0; 0.0; 0.0 ] ]%float.

(** [generateOrthogonalPlyFile()], up to the write to disk. *)
Definition generateOrthogonalPlyFile : outcome (list Byte.byte) :=
  fileContent 3 createOrthogonalGaussianData.

Section WithTrigonometry.

(** The engine's [Math.cos] and [Math.sin]. *)
Variable Math_cos Math_sin : float -> float.

Definition Math_PI : float := 3.141592653589793%float.

(** The helper [generateRing] of [createGaussianData], on the array [data]. *)
Definition generateRing (data : list (list float)) (radius z : float)
    (baseColor : list float) (count : nat) (offsetAngle : float) : list (list float) :=
  fold_left
    (fun data i =>
       let angle := (of_Z (Z.of_nat i) * (2 * Math_PI) / of_Z (Z.of_nat count)
                     + offsetAngle)%float in
       let x := (radius * Math_cos angle)%float in
       let y := (radius * Math_sin angle)%float in
       let r := ToNumber (baseColor !! 0%nat) in
       let g := ToNumber (baseColor !! 1%nat) in
       let b := ToNumber (baseColor !! 2%nat) in
       let gaussian :=
         [ x; y; z;
           0.0; 0.0; 1.0;
           r; g; b;
           0.9;
           0.1; 0.1; 0.1;
           1.0; 0.0; 0.0; 0.0 ]%float in
       data ++ [gaussian])
    (seq 0 count) data.

(** [createGaussianData()]. *)
Definition createGaussianData : list (list float) :=
  let data := [] in
  let data := generateRing data 1.5 1.0 [0.8; 0.1; 0.1]%float 6 0 in
  let data := generateRing data 0.8 (-1.0) [0.1; 0.1; 0.8]%float 6 (Math_PI / 6)%float in
  data.

(** [generatePlyFile()], up to the write to disk. *)
Definition generatePlyFile : outcome (list Byte.byte) :=
  fileContent 12 createGaussianData.

End WithTrigonometry.

End PlyWriter.

(* ===================================================================== *)
(** ** What a reader should find in a written file *)
(* ===================================================================== *)

Module WriterSpec.

Import GaussianSplatLoader PlyWriter.

Local Open Scope string_scope.
Local Open Scope list_scope.
Local Open Scope Z_scope.

(** The names of the seventeen properties, in the order of the header. *)
Definition property_names : list string :=
  [ "x"; "y"; "z"; "nx"; "ny"; "nz"; "f_dc_0"; "f_dc_1"; "f_dc_2"; "opacity";
    "scale_0"; "scale_1"; "scale_2"; "rot_0"; "rot_1"; "rot_2"; "rot_3" ].

Definition float_properties : list property :=
  List.map (fun name => Property (Some (lit "float")) (Some (lit name))) property_names.

(** The header of a file written for [vertexCount] vertices. *)
Definition header_of (vertexCount : N) : header :=
  Header (Some (lit "binary_little_endian")) (Some (Z.of_N vertexCount)) float_properties
    (Z.of_nat (List.length (Buffer_from (createPlyHeader vertexCount)))).

(** The bytes [writeFloatLE] stores for a number, and the number they read
    back as. *)
Definition float_bytes (value : float) : list Byte.byte :=
  bytes_le (binary32_bits value).

Definition read_back (value : float) : float :=
  DataView.float_of_bits 23 8 (binary32_bits value mod 2 ^ 32).

(** The lines of the header before [end_header], with the digits of the
    vertex count in the third. *)
Definition header_lines (digits : jsstring) : list jsstring :=
  [ lit "ply"; lit "format binary_little_endian 1.0"; lit "element vertex " ++ digits ]
  ++ List.map (fun name => lit ("property float " ++ name)) property_names.

(** A decimal digit. *)
Definition is_digit (c : N) : Prop := (48 <= c <= 57)%N.

End WriterSpec.

(* ===================================================================== *)
(** ** The server: the name of a saved image *)
(* ===================================================================== *)

Module Server.

Local Open Scope string_scope.
Local Open Scope list_scope.

(** [s.replace(/[:.]/g, '-')]. *)
Definition replace_colon_dot (s : jsstring) : jsstring :=
  List.map (fun c => if (c =? 58)%N || (c =? 46)%N then 45%N else c) s.

(** The [filename] of the handler of [POST /api/save-image], from the
    [timestamp] of the request body when that is a string (on any other
    value [timestamp.replace] throws and the handler answers 500). *)
Definition filename (timestamp : jsstring) : jsstring :=
  lit "manual_export_" ++ replace_colon_dot timestamp ++ lit ".png".

End Server.

(* ===================================================================== *)
(** ** The robot: [RobotController] and the commands of the socket *)
(* ===================================================================== *)

Module Robot.

Local Open Scope string_scope.
Local Open Scope list_scope.
Local Open Scope float_scope.

(** [THREE.Vector3]. *)
Record Vector3 : Type := Vector3_new {
  x : float;
  y : float;
  z : float
}.

Record RobotController : Type := RobotController_new {
  position : Vector3;
  rotation : float;
  moveSpeed : float;
  turnSpeed : float
}.

Definition set_position (this : RobotController) (p : Vector3) : RobotController :=
  RobotController_new p (rotation this) (moveSpeed this) (turnSpeed this).

Definition set_rotation (this : RobotController) (r : float) : RobotController :=
  RobotController_new (position this) r (moveSpeed this) (turnSpeed this).

(** [new RobotController(position, rotation)]; an argument left out is
    [None]. *)
Definition constructor (position : option Vector3) (rotation : option float)
    : RobotController :=
  let position := default (Vector3_new 0 0 0) position in
  let rotation := default 0 rotation in
  RobotController_new (Vector3_new (x position) (y position) (z position)) rotation
    0.3 (PlyWriter.Math_PI / 16).

Section WithTrigonometry.

(** The engine's [Math.cos] and [Math.sin]. *)
Variable Math_cos Math_sin : float -> float.

(** [moveForward(distance = this.moveSpeed)]. *)
Definition moveForward (distance : option float) (this : RobotController)
    : RobotController :=
  let distance := default (moveSpeed this) distance in
  let this :=
    set_position this
      (Vector3_new (x (position this)) (y (position this))
         (z (position this) - distance * Math_cos (rotation this))) in
  set_position this
    (Vector3_new (x (position this) - distance * Math_sin (rotation this))
       (y (position this)) (z (position this))).

(** [moveBackward(distance = this.moveSpeed)]. *)
Definition moveBackward (distance : option float) (this : RobotController)
    : RobotController :=
  let distance := default (moveSpeed this) distance in
  let this :=
    set_position this
      (Vector3_new (x (position this)) (y (position this))
         (z (position this) + distance * Math_cos (rotation this))) in
  set_position this
    (Vector3_new (x (position this) + distance * Math_sin (rotation this))
       (y (position this)) (z (position this))).

(** [turnLeft(angle = this.turnSpeed)] and [turnRight(angle = this.turnSpeed)]. *)
Definition turnLeft (angle : option float) (this : RobotController) : RobotController :=
  set_rotation this (rotation this + default (turnSpeed this) angle).

Definition turnRight (angle : option float) (this : RobotController) : RobotController :=
  set_rotation this (rotation this - default (turnSpeed this) angle).

(** A command as [JSON.parse] gives it: the string [type] and the number
    [value], either of which may be missing. *)
Record command : Type := Command {
  cmd_type : option jsstring;
  cmd_value : option float
}.

(** What the [onmessage] handler of the socket does to the robot. *)
Definition onmessage (cmd : command) (robot : RobotController) : RobotController :=
  if is_lit (cmd_type cmd) "forward" then moveForward None robot
  else if is_lit (cmd_type cmd) "turn" then
    if PrimFloat.ltb 0 (ToNumber (cmd_value cmd)) then
      turnLeft (Some (abs (ToNumber (cmd_value cmd)))) robot
    else turnRight (Some (abs (ToNumber (cmd_value cmd)))) robot
  else robot.

End WithTrigonometry.

(** A turn of an eighth of a half-turn to the right, as the server sends it. *)
Definition turn_right_command : command :=
  Command (Some (lit "turn")) (Some (- PlyWriter.Math_PI / 8)).

End Robot.

(* ===================================================================== *)
(** ** The header, line by line *)
(* ===================================================================== *)

Module HeaderSpec.

Import GaussianSplatLoader Spec.

Local Open Scope string_scope.
Local Open Scope list_scope.

(** The lines after the first one that reads [ply]. *)
Fixpoint after_ply (lines : list jsstring) : list jsstring :=
  match lines with
  | [] => []
  | l :: rest => if str_eqb (trim l) (lit "ply") then rest else after_ply rest
  end.

(** The lines the loop of [parseHeader] takes apart: after the first
    [ply], before the first [end_header]. *)
Definition header_body (lines : list jsstring) : list jsstring :=
  after_ply (lines_before_end lines).

(** What a line gives when its first word is [format], when its first
    words are [element vertex], and when its first word is [property]. *)
Definition formatted (l : jsstring) : list (option jsstring) :=
  if is_lit (split 32 (trim l) !! 0%nat) "format" then [split 32 (trim l) !! 1%nat] else [].

Definition counted (l : jsstring) : list (option Z) :=
  if is_element_vertex l then [parseInt (split 32 (trim l) !! 2%nat)] else [].

Definition declared (l : jsstring) : list property :=
  if is_lit (split 32 (trim l) !! 0%nat) "property" then
    [Property (split 32 (trim l) !! 1%nat) (split 32 (trim l) !! 2%nat)]
  else [].

End HeaderSpec.

(* ===================================================================== *)
(** ** What of a splat reaches the mesh *)
(* ===================================================================== *)

Module MeshSpec.

Import GaussianSplatLoader Cases.

Local Open Scope string_scope.
Local Open Scope list_scope.

(** The name is one of [f_rest_27] to [f_rest_44]. *)
Definition high_restb (name : string) : bool :=
  existsb (fun j => String.eqb name (f_rest j)) (seq 27 18).

(** Two raw vertices with the same fields, but for those. *)
Definition same_but_high_rest (raw raw' : gmap string float) : Prop :=
  forall name, high_restb name = false -> raw !! name = raw' !! name.

(** What the assembler reads of a splat. *)
Definition visible (vertex : splat)
    : list float * list float * list (option float) * float * list float * list float :=
  (position vertex, scale vertex, rotation vertex, opacity vertex, sh_dc vertex,
   take 27 (sh_rest vertex)).

(** A vertex with one of the high coefficients. *)
Definition vertex_with_f_rest_30 : gmap string float := <["f_rest_30" := 1%float]> ∅.

End MeshSpec.

(* ===================================================================== *)
(** ** The order of binary64 numbers *)
(* ===================================================================== *)

(** Facts on [<?], [<=?] and [=?] of the primitive numbers, from their
    specification over [spec_float]. *)
Module FloatOrder.

Lemma SFcompare_antisym (f g : spec_float) :
  SFcompare g f = option_map CompOpp (SFcompare f g).
Proof.
  destruct f as [s|s| |s m e], g as [s'|s'| |s' m' e']; simpl; try reflexivity;
    try (destruct s; reflexivity); try (destruct s'; reflexivity);
    try (destruct s, s'; reflexivity).
  rewrite (Z.compare_antisym e e').
  change (PosDef.Pos.compare_cont Eq m' m) with (Pos.compare_cont (CompOpp Eq) m' m).
  rewrite <- (Pos.compare_cont_antisym m m' Eq).
  change (PosDef.Pos.compare_cont Eq m m') with (Pos.compare_cont Eq m m').
  destruct s, s'; simpl; try reflexivity;
    destruct (e ?= e')%Z; simpl; try reflexivity;
    now rewrite ?CompOpp_involutive.
Qed.

Lemma SFcompare_refl (f : spec_float) :
  f <> S754_nan -> SFcompare f f = Some Eq.
Proof.
  destruct f as [s|s| |s m e]; simpl; intros H; try reflexivity.
  - now destruct s.
  - congruence.
  - rewrite Z.compare_refl.
    change (PosDef.Pos.compare_cont Eq m m) with (Pos.compare_cont Eq m m).
    rewrite Pos.compare_cont_refl. now destruct s.
Qed.

Lemma is_nan_spec (x : float) :
  PrimFloat.is_nan x = false <-> Prim2SF x <> S754_nan.
Proof.
  unfold PrimFloat.is_nan. rewrite FloatAxioms.eqb_spec. unfold SFeqb.
  split.
  - intros H E. rewrite E in H. discriminate.
  - intros H. now rewrite (SFcompare_refl _ H).
Qed.

Lemma ltb_asym (x y : float) :
  PrimFloat.ltb x y = true -> PrimFloat.ltb y x = false.
Proof.
  rewrite !ltb_spec. unfold SFltb. rewrite (SFcompare_antisym (Prim2SF x) (Prim2SF y)).
  destruct (SFcompare (Prim2SF x) (Prim2SF y)) as [[]|]; simpl; congruence.
Qed.

Lemma ltb_leb (x y : float) :
  PrimFloat.ltb x y = true -> PrimFloat.leb x y = true.
Proof.
  rewrite ltb_spec, leb_spec. unfold SFltb, SFleb.
  destruct (SFcompare (Prim2SF x) (Prim2SF y)) as [[]|]; simpl; congruence.
Qed.

Lemma SFcompare_some (f g : spec_float) :
  f <> S754_nan -> g <> S754_nan -> exists c, SFcompare f g = Some c.
Proof.
  destruct f, g; simpl; intros; try congruence; eauto.
Qed.

Lemma not_ltb_leb (x y : float) :
  PrimFloat.is_nan x = false -> PrimFloat.is_nan y = false ->
  PrimFloat.ltb y x = false -> PrimFloat.leb x y = true.
Proof.
  rewrite !is_nan_spec, ltb_spec, leb_spec. unfold SFltb, SFleb.
  intros Hx Hy. rewrite (SFcompare_antisym (Prim2SF x) (Prim2SF y)).
  destruct (SFcompare_some _ _ Hx Hy) as [c ->].
  destruct c; simpl; congruence.
Qed.

Lemma leb_not_ltb (x y : float) :
  PrimFloat.leb x y = true -> PrimFloat.ltb y x = false.
Proof.
  rewrite ltb_spec, leb_spec. unfold SFltb, SFleb.
  rewrite (SFcompare_antisym (Prim2SF x) (Prim2SF y)).
  destruct (SFcompare (Prim2SF x) (Prim2SF y)) as [[]|]; simpl; congruence.
Qed.

Lemma leb_neq_ltb (x y : float) :
  PrimFloat.leb x y = true -> PrimFloat.eqb x y = false -> PrimFloat.ltb x y = true.
Proof.
  rewrite ltb_spec, leb_spec, FloatAxioms.eqb_spec. unfold SFltb, SFleb, SFeqb.
  destruct (SFcompare (Prim2SF x) (Prim2SF y)) as [[]|]; simpl; congruence.
Qed.

Lemma leb_not_nan (x y : float) :
  PrimFloat.leb x y = true -> PrimFloat.is_nan x = false /\ PrimFloat.is_nan y = false.
Proof.
  rewrite leb_spec, !is_nan_spec. unfold SFleb.
  destruct (Prim2SF x), (Prim2SF y); simpl; intros; split; congruence.
Qed.

End FloatOrder.

(* ===================================================================== *)
(** ** The post-processor: [processVertex] *)
(* ===================================================================== *)

Module ProcessVertexFacts.

Import GaussianSplatLoader Spec FloatOrder.

Local Open Scope string_scope.
Local Open Scope list_scope.

Lemma or_else_passed_over (v : option float) (d : float) :
  passed_over v = true -> or_else v d = d.
Proof.
  destruct v as [x|]; simpl; [|reflexivity].
  intros H. apply negb_true_iff in H. now rewrite H.
Qed.

Lemma or_else_truthy (x d : float) :
  truthy x = true -> or_else (Some x) d = x.
Proof. intros H. simpl. now rewrite H. Qed.

Lemma truthy_not_zero (x : float) :
  truthy x = true -> PrimFloat.eqb x 0 = false.
Proof.
  unfold truthy. intros H. apply negb_true_iff, orb_false_iff in H. tauto.
Qed.

Lemma truthy_not_nan (x : float) :
  truthy x = true -> PrimFloat.is_nan x = false.
Proof.
  unfold truthy. intros H. apply negb_true_iff, orb_false_iff in H. tauto.
Qed.

(** [Math.max(0, Math.min(1, x))] is in [0, 1] unless [x] is [NaN]. *)
Lemma clamp_in_unit_interval (x : float) :
  PrimFloat.is_nan x = false ->
  in_unit_interval (Math_max 0 (Math_min 1 x)) = true.
Proof.
  intros Hx. unfold Math_min. rewrite Hx.
  change (PrimFloat.is_nan 1 || false) with false. cbv iota.
  change (PrimFloat.get_sign 1) with false. cbv iota.
  assert (Hmin : forall m, PrimFloat.is_nan m = false -> PrimFloat.leb m 1 = true ->
                   in_unit_interval (Math_max 0 m) = true).
  { intros m Hm Hle. unfold Math_max. rewrite Hm.
    change (PrimFloat.is_nan 0 || false) with false. cbv iota.
    change (PrimFloat.get_sign 0) with false. cbv iota.
    destruct (PrimFloat.ltb 0 m) eqn:Hpos.
    - unfold in_unit_interval. now rewrite (ltb_leb _ _ Hpos), Hle.
    - now destruct (PrimFloat.ltb m 0). }
  destruct (PrimFloat.ltb 1 x) eqn:H1; [now apply Hmin|].
  destruct (PrimFloat.ltb x 1) eqn:H2.
  - apply Hmin; [exact Hx|]. now apply ltb_leb.
  - apply Hmin; [exact Hx|]. now apply not_ltb_leb.
Qed.

(** The clamp leaves a number of [0, 1] that is not a zero as it is. *)
Lemma clamp_unit_interval_id (x : float) :
  in_unit_interval x = true -> PrimFloat.eqb x 0 = false ->
  Math_max 0 (Math_min 1 x) = x.
Proof.
  unfold in_unit_interval. intros H Hnz. apply andb_true_iff in H as [H0 H1].
  destruct (leb_not_nan _ _ H0) as [_ Hx].
  unfold Math_min. rewrite Hx.
  change (PrimFloat.is_nan 1 || false) with false. cbv iota.
  change (PrimFloat.get_sign 1) with false. cbv iota.
  rewrite (leb_not_ltb _ _ H1).
  assert (Hpos : PrimFloat.ltb 0 x = true).
  { apply leb_neq_ltb; [exact H0|].
    rewrite FloatAxioms.eqb_spec in Hnz |- *. unfold SFeqb in *.
    rewrite (SFcompare_antisym (Prim2SF x) (Prim2SF 0)).
    destruct (SFcompare (Prim2SF x) (Prim2SF 0)) as [[]|]; simpl in *; congruence. }
  assert (Hmax : Math_max 0 x = x).
  { unfold Math_max. rewrite Hx.
    change (PrimFloat.is_nan 0 || false) with false. cbv iota. now rewrite Hpos. }
  now destruct (PrimFloat.ltb x 1).
Qed.

Section WithMathExp.

Variable Math_exp : float -> float.


(** The component [i] of the scale is [Math.exp] of the first value that
    [||] does not pass over among the two names and [0.01]. *)
Lemma scale_component (vertex : gmap string float) (i : nat) (primary alias : string) :
  scale_names !! i = Some (primary, alias) ->
  scale (processVertex Math_exp vertex) !! i =
    Some (Math_exp (or_else (vertex !! primary) (or_else (vertex !! alias) 0.01%float))).
Proof.
  intros H.
  destruct i as [|[|[|i]]]; cbn in H; inversion H; subst; reflexivity.
Qed.

(** C4, amended.  A scale component is [Math.exp] of its raw field when
    that field is there and is neither zero nor [NaN]; otherwise of the
    field of the other name under the same condition; otherwise of the
    literal [0.01], so that the default is [Math.exp(0.01)]. *)
Theorem C4_scale_is_exp_of_first_usable (vertex : gmap string float) (i : nat)
    (primary alias : string) :
  scale_names !! i = Some (primary, alias) ->
  (forall raw, vertex !! primary = Some raw -> truthy raw = true ->
     scale (processVertex Math_exp vertex) !! i = Some (Math_exp raw))
  /\ (forall raw, passed_over (vertex !! primary) = true ->
        vertex !! alias = Some raw -> truthy raw = true ->
        scale (processVertex Math_exp vertex) !! i = Some (Math_exp raw))
  /\ (passed_over (vertex !! primary) = true ->
      passed_over (vertex !! alias) = true ->
      scale (processVertex Math_exp vertex) !! i = Some (Math_exp 0.01%float)).
Proof.
  intros Hnames. rewrite (scale_component _ _ _ _ Hnames).
  repeat split.
  - intros raw -> Hraw. now rewrite or_else_truthy.
  - intros raw Hp -> Hraw.
    now rewrite (or_else_passed_over _ _ Hp), or_else_truthy.
  - intros Hp Ha.
    now rewrite (or_else_passed_over _ _ Hp), (or_else_passed_over _ _ Ha).
Qed.

(** C10, amended.  A scale field that is there with the value zero is read
    as a missing one: the look-up moves on to the next source, and when
    the other name gives nothing usable either the component is
    [Math.exp(0.01)]. *)
Theorem C10_zero_scale_is_passed_over (vertex : gmap string float) (i : nat)
    (primary alias : string) (raw : float) :
  scale_names !! i = Some (primary, alias) ->
  PrimFloat.eqb raw 0 = true ->
  (vertex !! primary = Some raw ->
     scale (processVertex Math_exp vertex) !! i =
       scale (processVertex Math_exp (delete primary vertex)) !! i)
  /\ (vertex !! alias = Some raw ->
     scale (processVertex Math_exp vertex) !! i =
       scale (processVertex Math_exp (delete alias vertex)) !! i)
  /\ (vertex !! primary = Some raw -> passed_over (vertex !! alias) = true ->
     scale (processVertex Math_exp vertex) !! i = Some (Math_exp 0.01%float))
  /\ (vertex !! alias = Some raw -> passed_over (vertex !! primary) = true ->
     scale (processVertex Math_exp vertex) !! i = Some (Math_exp 0.01%float)).
Proof.
  intros Hnames Hzero.
  assert (Hraw : passed_over (Some raw) = true).
  { unfold passed_over, truthy. now rewrite Hzero. }
  assert (Hne : primary <> alias).
  { destruct i as [|[|[|i]]]; cbn in Hnames; inversion Hnames; discriminate. }
  rewrite !(scale_component _ _ _ _ Hnames).
  repeat split.
  - intros Hp. rewrite lookup_delete_eq, lookup_delete_ne by exact Hne.
    rewrite Hp. now rewrite (or_else_passed_over _ _ Hraw).
  - intros Ha. rewrite lookup_delete_eq, lookup_delete_ne by (intros E; now apply Hne).
    rewrite Ha. now rewrite (or_else_passed_over (Some raw) _ Hraw).
  - intros Hp Ha. rewrite Hp.
    now rewrite (or_else_passed_over _ _ Hraw), (or_else_passed_over _ _ Ha).
  - intros Ha Hp. rewrite Ha.
    now rewrite (or_else_passed_over _ _ Hp), (or_else_passed_over _ _ Hraw).
Qed.

(** The value [processVertex] clamps: the sigmoid of the raw opacity when
    [||] does not pass over it, else [alpha], else [0.8]. *)
Lemma opacity_unfold (vertex : gmap string float) :
  opacity (processVertex Math_exp vertex) =
    Math_max 0 (Math_min 1
      (or_else (Some (sigmoid Math_exp (ToNumber (vertex !! "opacity"))))
         (or_else (vertex !! "alpha") 0.8%float))).
Proof. reflexivity. Qed.

(** C5, amended.  The opacity is the sigmoid of the raw opacity, clamped
    to [0, 1], whenever that sigmoid is a number other than zero; a sigmoid
    that is zero or [NaN] (the field is missing or [NaN], or [Math.exp]
    overflowed) gives way to [alpha] as it is, and [alpha] to [0.8], before
    the clamp.  The result is in [0, 1] in every case, and a raw opacity of
    [0.0] decodes to [0.5]. *)
Theorem C5_opacity_sigmoid_fallback_clamp (vertex : gmap string float) :
  (truthy (sigmoid Math_exp (ToNumber (vertex !! "opacity"))) = true ->
     opacity (processVertex Math_exp vertex) =
       Math_max 0 (Math_min 1 (sigmoid Math_exp (ToNumber (vertex !! "opacity"))))
     /\ (in_unit_interval (sigmoid Math_exp (ToNumber (vertex !! "opacity"))) = true ->
         opacity (processVertex Math_exp vertex) =
           sigmoid Math_exp (ToNumber (vertex !! "opacity"))))
  /\ (forall alpha,
        truthy (sigmoid Math_exp (ToNumber (vertex !! "opacity"))) = false ->
        vertex !! "alpha" = Some alpha -> truthy alpha = true ->
        opacity (processVertex Math_exp vertex) = Math_max 0 (Math_min 1 alpha))
  /\ (truthy (sigmoid Math_exp (ToNumber (vertex !! "opacity"))) = false ->
      passed_over (vertex !! "alpha") = true ->
      opacity (processVertex Math_exp vertex) = 0.8%float)
  /\ in_unit_interval (opacity (processVertex Math_exp vertex)) = true
  /\ (Math_exp (-0)%float = 1%float -> vertex !! "opacity" = Some 0%float ->
      opacity (processVertex Math_exp vertex) = 0.5%float).
Proof.
  rewrite opacity_unfold.
  set (s := sigmoid Math_exp (ToNumber (vertex !! "opacity"))).
  split; [|repeat split].
  - intros Hs. rewrite or_else_truthy by assumption. split; [reflexivity|].
    intros Hunit. apply clamp_unit_interval_id; [assumption|].
    now apply truthy_not_zero.
  - intros alpha Hs -> Ha.
    rewrite (or_else_passed_over (Some s)) by (simpl; now rewrite Hs).
    now rewrite or_else_truthy.
  - intros Hs Ha.
    rewrite (or_else_passed_over (Some s)) by (simpl; now rewrite Hs).
    rewrite (or_else_passed_over _ _ Ha). reflexivity.
  - apply clamp_in_unit_interval.
    destruct (truthy s) eqn:Hs.
    + rewrite or_else_truthy by assumption. now apply truthy_not_nan.
    + rewrite (or_else_passed_over (Some s)) by (simpl; now rewrite Hs).
      destruct (vertex !! "alpha") as [a|]; [|reflexivity].
      simpl. destruct (truthy a) eqn:Ha; [now apply truthy_not_nan|reflexivity].
  - intros Hexp Hop. subst s. rewrite Hop. unfold sigmoid. simpl ToNumber.
    rewrite Hexp. reflexivity.
Qed.

End WithMathExp.

(** *** Instances *)

Import Inputs.


(** A vertex with no colour field at all gets the diagnostic colour. *)
Example colorDC_without_colour_fields :
  sh_dc (processVertex exp_ref vertex_without_fields) = [0.5; 0.0; -0.5]%float.
Proof. vm_compute. reflexivity. Qed.

(** C4 as stated fails: a raw [scale_0] of zero does not decode to
    [Math.exp(0)] but to [Math.exp(0.01)], and a raw [scale_0] of
    [-Infinity] decodes to [+0], which is not positive. *)
Lemma C4_counterexample :
  vertex_scale_0_zero !! "scale_0" = Some 0%float
  /\ scale (processVertex exp_ref vertex_scale_0_zero) !! 0%nat = Some (exp_ref 0.01)
  /\ PrimFloat.eqb (exp_ref 0.01) (exp_ref 0) = false
  /\ vertex_scale_0_minus_infinity !! "scale_0" = Some neg_infinity
  /\ scale (processVertex exp_ref vertex_scale_0_minus_infinity) !! 0%nat = Some 0%float
  /\ PrimFloat.ltb 0 0 = false.
Proof. repeat split; vm_compute; reflexivity. Qed.

Lemma C4_scale_is_exp_of_first_usable_witness :
  scale (processVertex exp_ref vertex_scale_1) !! 1%nat = Some (exp_ref 0.1).
Proof.
  refine (proj1 (C4_scale_is_exp_of_first_usable exp_ref vertex_scale_1 1
                   "scale_1" "scale_y" _) 0.1%float _ _);
    vm_compute; reflexivity.
Defined.

(** C10 as stated fails: [scale_0] is there with the value zero, and the
    component is [Math.exp(2)], from [scale_x], not [Math.exp(0.01)]. *)
Lemma C10_counterexample :
  vertex_scale_0_zero_scale_x_two !! "scale_0" = Some 0%float
  /\ scale (processVertex exp_ref vertex_scale_0_zero_scale_x_two) !! 0%nat = Some (exp_ref 2)
  /\ PrimFloat.eqb (exp_ref 2) (exp_ref 0.01) = false.
Proof. repeat split; vm_compute; reflexivity. Qed.

Lemma C10_zero_scale_is_passed_over_witness :
  scale (processVertex exp_ref vertex_scale_0_zero) !! 0%nat = Some (exp_ref 0.01).
Proof.
  refine (proj1 (proj2 (proj2 (C10_zero_scale_is_passed_over exp_ref vertex_scale_0_zero 0
                                 "scale_0" "scale_x" 0%float _ _))) _ _);
    vm_compute; reflexivity.
Defined.

(** C5 as stated fails: with a raw opacity of -1000 (or [-Infinity]) and no
    [alpha], the sigmoid is [+0], which clamps to [+0], and the decoded
    opacity is [0.8]. *)
Lemma C5_counterexample :
  vertex_opacity_minus_1000 !! "opacity" = Some (-1000)%float
  /\ vertex_opacity_minus_1000 !! "alpha" = None
  /\ sigmoid exp_ref (-1000) = 0%float
  /\ Math_max 0 (Math_min 1 (sigmoid exp_ref (-1000))) = 0%float
  /\ opacity (processVertex exp_ref vertex_opacity_minus_1000) = 0.8%float
  /\ sigmoid exp_ref neg_infinity = 0%float
  /\ opacity (processVertex exp_ref vertex_opacity_minus_infinity) = 0.8%float.
Proof. repeat split; vm_compute; reflexivity. Qed.

Lemma C5_opacity_sigmoid_fallback_clamp_witness :
  opacity (processVertex exp_ref vertex_opacity_zero) = 0.5%float.
Proof.
  refine (proj2 (proj2 (proj2 (proj2
            (C5_opacity_sigmoid_fallback_clamp exp_ref vertex_opacity_zero)))) _ _);
    vm_compute; reflexivity.
Defined.

End ProcessVertexFacts.

(* ===================================================================== *)
(** ** The column-store assembler: [createGaussianSplatMesh] *)
(* ===================================================================== *)

Module AssemblerFacts.

Import GaussianSplatLoader Spec Inputs.

Local Open Scope string_scope.
Local Open Scope list_scope.

Lemma for_vertices_from_cons {T : Type} (start : nat) (v : splat) (rest : list splat)
    (body : nat -> splat -> T -> T) (s : T) :
  for_vertices_from start (v :: rest) body s =
    for_vertices_from (S start) rest body (body start v s).
Proof. reflexivity. Qed.

Lemma length_store_rgb (i : nat) (vertex : splat) (a : Float32Array.t) :
  List.length (store_rgb i vertex a) = List.length a.
Proof. unfold store_rgb, Float32Array.set. now rewrite !length_insert. Qed.

Lemma store_rgb_other (i : nat) (vertex : splat) (a : Float32Array.t) (j : nat) :
  (j < i * 3)%nat -> store_rgb i vertex a !! j = a !! j.
Proof.
  intros Hj. unfold store_rgb, Float32Array.set.
  rewrite !list_lookup_insert_ne by lia. reflexivity.
Qed.

Lemma store_rgb_at (i : nat) (vertex : splat) (a : Float32Array.t) (k : nat) :
  (i * 3 + 2 < List.length a)%nat -> (k < 3)%nat ->
  store_rgb i vertex a !! (i * 3 + k)%nat =
    Some (fround (0.5 + 0.28209479177387814 * ToNumber (sh_dc vertex !! k))%float).
Proof.
  intros Hlen Hk. unfold store_rgb, Float32Array.set.
  destruct k as [|[|[|k]]]; [| | |lia].
  - rewrite !list_lookup_insert_ne by lia.
    rewrite Nat.add_0_r, list_lookup_insert_eq by lia. reflexivity.
  - rewrite list_lookup_insert_ne by lia.
    rewrite list_lookup_insert_eq by (rewrite length_insert; lia). reflexivity.
  - rewrite list_lookup_insert_eq by (rewrite !length_insert; lia). reflexivity.
Qed.

Lemma rgb_loop_before (vertices : list splat) (start : nat) (a : Float32Array.t) (j : nat) :
  (j < start * 3)%nat -> for_vertices_from start vertices store_rgb a !! j = a !! j.
Proof.
  revert start a. induction vertices as [|v rest IH]; intros start a Hj; [reflexivity|].
  rewrite for_vertices_from_cons, IH by lia. now apply store_rgb_other.
Qed.

Lemma rgb_loop_at (vertices : list splat) (start : nat) (a : Float32Array.t)
    (i : nat) (vertex : splat) (k : nat) :
  ((start + List.length vertices) * 3 <= List.length a)%nat ->
  vertices !! i = Some vertex -> (k < 3)%nat ->
  for_vertices_from start vertices store_rgb a !! ((start + i) * 3 + k)%nat =
    Some (fround (0.5 + 0.28209479177387814 * ToNumber (sh_dc vertex !! k))%float).
Proof.
  revert start a i. induction vertices as [|v rest IH]; intros start a i Hlen Hi Hk;
    [discriminate|].
  rewrite for_vertices_from_cons.
  cbn [List.length] in Hlen.
  destruct i as [|i].
  - injection Hi as ->. rewrite Nat.add_0_r.
    rewrite rgb_loop_before by lia. apply store_rgb_at; lia.
  - replace ((start + S i) * 3 + k)%nat with ((S start + i) * 3 + k)%nat by lia.
    apply IH; [rewrite length_store_rgb; lia|exact Hi|exact Hk].
Qed.

(** C6.  Whatever produced the [sh_dc] of a splat, the assembler stores
    [0.5 + 0.28209479177387814 * sh_dc[k]] (rounded to binary32 by the
    [Float32Array]) at [rgbcolor[i * 3 + k]]; and a raw vertex with no
    [f_dc_*] and [red, green, blue] = 255, 0, 0 gets the [sh_dc] of the
    inverse formula and the display colour [1.0, 0.0, 0.0], exactly. *)
Theorem C6_display_rgb_from_colorDC (Math_exp : float -> float) :
  (forall (vertices : list splat) (header : header) (i : nat) (vertex : splat) (k : nat),
     vertices !! i = Some vertex -> (k < 3)%nat ->
     rgbcolor (createGaussianSplatMesh vertices header) !! (i * 3 + k)%nat =
       Some (fround (0.5 + 0.28209479177387814 * ToNumber (sh_dc vertex !! k))%float))
  /\ (forall (vertex : gmap string float) (header : header),
        vertex !! "f_dc_0" = None -> vertex !! "f_dc_1" = None -> vertex !! "f_dc_2" = None ->
        vertex !! "red" = Some 255%float -> vertex !! "green" = Some 0%float ->
        vertex !! "blue" = Some 0%float ->
        sh_dc (processVertex Math_exp vertex) =
          [ (1.0 - 0.5) / 0.28209479177387814;
            (0 - 0.5) / 0.28209479177387814;
            (0 - 0.5) / 0.28209479177387814 ]%float
        /\ rgbcolor (createGaussianSplatMesh [processVertex Math_exp vertex] header) =
             [1.0; 0.0; 0.0]%float).
Proof.
  split.
  - intros vertices header i vertex k Hi Hk.
    unfold createGaussianSplatMesh, for_vertices. cbn [rgbcolor].
    apply (rgb_loop_at vertices 0 _ i vertex k); [|exact Hi|exact Hk].
    unfold Float32Array.make. rewrite length_replicate. lia.
  - intros vertex header H0 H1 H2 Hr Hg Hb.
    assert (Hdc : sh_dc (processVertex Math_exp vertex) =
                    [ (1.0 - 0.5) / 0.28209479177387814;
                      (0 - 0.5) / 0.28209479177387814;
                      (0 - 0.5) / 0.28209479177387814 ]%float).
    { unfold processVertex. rewrite H0, H1, H2, Hr, Hg, Hb. reflexivity. }
    split; [exact Hdc|].
    unfold createGaussianSplatMesh, for_vertices, for_vertices_from. cbn [rgbcolor].
    cbn [List.length seq List.combine fold_left]. unfold store_rgb.
    rewrite Hdc. vm_compute. reflexivity.
Qed.

(** The same on a file: binary little-endian, one vertex, [x y z] as
    [float] and [red green blue] as [uchar] with the values 255, 0, 0. *)
Lemma C6_display_rgb_from_colorDC_witness :
  rgbcolor (createGaussianSplatMesh [processVertex exp_ref vertex_rgb_255_0_0]
              initial_header) = [1.0; 0.0; 0.0]%float.
Proof.
  refine (proj2 (proj2 (C6_display_rgb_from_colorDC exp_ref) vertex_rgb_255_0_0
                   initial_header _ _ _ _ _ _));
    vm_compute; reflexivity.
Defined.

End AssemblerFacts.

(* ===================================================================== *)
(** ** The colour evaluator: [evaluateSphericalHarmonics] *)
(* ===================================================================== *)

Module ShaderFacts.

Import Shader Spec Inputs.

Lemma f32_zero : f32 0.0 = 0%float.
Proof. vm_compute. reflexivity. Qed.

Lemma f32_one : f32 1.0 = 1%float.
Proof. vm_compute. reflexivity. Qed.

(** [clamp(x, 0.0, 1.0)] is never below 0 nor above 1. *)
Lemma clamp_no_overshoot (v : float) :
  overshoots (clamp v (f32 0.0) (f32 1.0)) = false.
Proof.
  rewrite f32_zero, f32_one. unfold clamp, max, min, overshoots.
  destruct (PrimFloat.ltb v 0) eqn:Hlow.
  - reflexivity.
  - destruct (PrimFloat.ltb 1 v) eqn:Hhigh.
    + reflexivity.
    + now rewrite Hlow, Hhigh.
Qed.

(** C8, amended.  The degree cuts the expansion: below 1 the colour is the
    DC term, at 1 the three linear terms are added, from 2 on the five
    quadratic ones as well.  The colour of a degree below 2 is returned
    through [clamp(color, 0.0, 1.0)] and never overshoots; only the colour
    of a degree from 2 on is returned as it is, and it can overshoot. *)
Theorem C8_degree_cuts_expansion_clamp_below_two :
  (forall a dir sh_dc degree, (degree < 1)%Z ->
     evaluateSphericalHarmonics a dir sh_dc degree = clamp3 (dc_color sh_dc))
  /\ (forall a dir sh_dc,
     evaluateSphericalHarmonics a dir sh_dc 1 = clamp3 (color_degree1 a dir sh_dc))
  /\ (forall a dir sh_dc degree, (2 <= degree)%Z ->
     evaluateSphericalHarmonics a dir sh_dc degree = color_degree2 a dir sh_dc)
  /\ (forall a dir sh_dc degree, (degree < 2)%Z ->
     overshoots (x (evaluateSphericalHarmonics a dir sh_dc degree)) = false
     /\ overshoots (y (evaluateSphericalHarmonics a dir sh_dc degree)) = false
     /\ overshoots (z (evaluateSphericalHarmonics a dir sh_dc degree)) = false)
  /\ overshoots (x (evaluateSphericalHarmonics some_rest dir_z bright_dc 2)) = true.
Proof.
  repeat split.
  - intros a dir sh_dc degree H. unfold evaluateSphericalHarmonics.
    now rewrite (proj2 (Z.ltb_lt degree 1) H).
  - intros a dir sh_dc degree H. unfold evaluateSphericalHarmonics.
    rewrite (proj2 (Z.ltb_ge degree 1)) by lia.
    now rewrite (proj2 (Z.ltb_ge degree 2)) by lia.
  - unfold evaluateSphericalHarmonics.
    destruct (degree <? 1)%Z; [apply clamp_no_overshoot|].
    rewrite (proj2 (Z.ltb_lt degree 2)) by assumption. apply clamp_no_overshoot.
  - unfold evaluateSphericalHarmonics.
    destruct (degree <? 1)%Z; [apply clamp_no_overshoot|].
    rewrite (proj2 (Z.ltb_lt degree 2)) by assumption. apply clamp_no_overshoot.
  - unfold evaluateSphericalHarmonics.
    destruct (degree <? 1)%Z; [apply clamp_no_overshoot|].
    rewrite (proj2 (Z.ltb_lt degree 2)) by assumption. apply clamp_no_overshoot.
Qed.

(** C8 as stated fails: at the degrees 0 and 1 the colour is clamped.  The
    DC term of the coefficient 10 is about 3.32, and the evaluator returns
    1. *)
Lemma C8_counterexample :
  PrimFloat.ltb 1 (x (dc_color bright_dc)) = true
  /\ x (evaluateSphericalHarmonics no_rest dir_z bright_dc 0) = 1%float
  /\ PrimFloat.ltb 1 (x (color_degree1 some_rest dir_z bright_dc)) = true
  /\ x (evaluateSphericalHarmonics some_rest dir_z bright_dc 1) = 1%float.
Proof. repeat split; vm_compute; reflexivity. Qed.

End ShaderFacts.

(* ===================================================================== *)
(** ** The header parser: [parseHeader] *)
(* ===================================================================== *)

Module HeaderFacts.

Import GaussianSplatLoader Spec Inputs.

Local Open Scope string_scope.
Local Open Scope list_scope.

Lemma header_line_headerLength (line : jsstring) (h : header) (this : loader) :
  headerLength (fst (header_line line h this)) = headerLength h.
Proof.
  unfold header_line.
  repeat match goal with |- context [if ?b then _ else _] => destruct b end;
    reflexivity.
Qed.

Lemma header_line_vertexCount (line : jsstring) (h : header) (this : loader) :
  is_lit (split 32 line !! 0%nat) "element" && is_lit (split 32 line !! 1%nat) "vertex" = false ->
  vertexCount (fst (header_line line h this)) = vertexCount h.
Proof.
  intros H. unfold header_line. rewrite H.
  repeat match goal with |- context [if ?b then _ else _] => destruct b end;
    reflexivity.
Qed.

(** One turn of the loop, by the cases of its body. *)
Lemma parseHeader_loop_cons (l : jsstring) (rest : list jsstring) (s : header_scan) :
  parseHeader_loop (l :: rest) s =
    let line := trim l in
    let text := headerText s ++ line ++ [10%N] in
    if str_eqb line (lit "ply") then
      parseHeader_loop rest (Scan (scan_header s) true text (scan_this s))
    else if str_eqb line (lit "end_header") then
      (set_headerLength (scan_header s) (Z.of_nat (List.length (TextEncoder_encode text))),
       scan_this s)
    else if negb (inHeader s) then
      parseHeader_loop rest (Scan (scan_header s) (inHeader s) text (scan_this s))
    else
      parseHeader_loop rest
        (Scan (fst (header_line line (scan_header s) (scan_this s))) (inHeader s) text
           (snd (header_line line (scan_header s) (scan_this s)))).
Proof.
  cbn [parseHeader_loop]. cbv zeta.
  destruct (header_line (trim l) (scan_header s) (scan_this s)). reflexivity.
Qed.

(** Without a line that reads [end_header] the loop runs to the end of the
    text and [headerLength] is never assigned. *)
Lemma loop_without_end_header (lines : list jsstring) (s : header_scan) :
  has_end_header lines = false ->
  headerLength (fst (parseHeader_loop lines s)) = headerLength (scan_header s).
Proof.
  revert s. induction lines as [|l rest IH]; intros s H; [reflexivity|].
  cbn [has_end_header existsb] in H. apply orb_false_iff in H as [Hl Hrest].
  rewrite parseHeader_loop_cons. cbv zeta. rewrite Hl.
  destruct (str_eqb (trim l) (lit "ply")); [now rewrite IH|].
  destruct (negb (inHeader s)); [now rewrite IH|].
  rewrite IH by assumption. cbn [scan_header]. apply header_line_headerLength.
Qed.

(** Without an [element vertex] line before [end_header], [vertexCount] is
    never assigned. *)
Lemma loop_without_element_vertex (lines : list jsstring) (s : header_scan) :
  forallb (fun l => negb (is_element_vertex l)) (lines_before_end lines) = true ->
  vertexCount (fst (parseHeader_loop lines s)) = vertexCount (scan_header s).
Proof.
  revert s. induction lines as [|l rest IH]; intros s H; [reflexivity|].
  rewrite parseHeader_loop_cons. cbv zeta.
  cbn [lines_before_end] in H.
  destruct (str_eqb (trim l) (lit "end_header")) eqn:Hend.
  - destruct (str_eqb (trim l) (lit "ply")) eqn:Hply; [|reflexivity].
    unfold str_eqb in Hply, Hend.
    apply bool_decide_eq_true in Hply. apply bool_decide_eq_true in Hend.
    rewrite Hply in Hend. discriminate Hend.
  - cbn [forallb] in H. apply andb_true_iff in H as [Hl Hrest].
    destruct (str_eqb (trim l) (lit "ply")); [now rewrite IH|].
    destruct (negb (inHeader s)); [now rewrite IH|].
    rewrite IH by assumption. cbn [scan_header].
    apply header_line_vertexCount. apply negb_true_iff in Hl. exact Hl.
Qed.

Lemma utf8_decode_ascii (l rest : list N) :
  Forall (fun c => (c <= 127)%N) l ->
  utf8_decode_from None (l ++ rest) = l ++ utf8_decode_from None rest.
Proof.
  induction 1 as [|c l Hc _ IH]; [reflexivity|].
  cbn [app utf8_decode_from]. unfold utf8_lead.
  rewrite (proj2 (N.leb_le c 127) Hc). cbn [app]. now rewrite IH.
Qed.

Lemma utf8_encode_ascii (l : list N) :
  Forall (fun c => (c <= 127)%N) l -> TextEncoder_encode l = l.
Proof.
  induction 1 as [|c l Hc _ IH]; [reflexivity|].
  unfold TextEncoder_encode. cbn [List.flat_map]. unfold utf8_encode_cp at 1.
  rewrite (proj2 (N.leb_le c 127) Hc). cbn [app]. f_equal. exact IH.
Qed.

Lemma split_from_line (sep : N) (l rest field : jsstring) :
  Forall (fun c => c <> sep) l ->
  split_from sep field (l ++ sep :: rest) = (List.rev field ++ l) :: split_from sep [] rest.
Proof.
  intros H. revert field. induction H as [|c l Hc _ IH]; intros field.
  - cbn [app split_from]. rewrite N.eqb_refl. now rewrite app_nil_r.
  - cbn [app split_from]. rewrite (proj2 (N.eqb_neq c sep) Hc).
    rewrite IH. cbn [List.rev]. now rewrite <- app_assoc.
Qed.

Lemma split_join_lines (lines : list jsstring) (rest : jsstring) :
  Forall plain_line lines ->
  split 10 (join_lines lines ++ rest) = lines ++ split 10 rest.
Proof.
  induction 1 as [|l lines [Hl _] _ IH]; [reflexivity|].
  unfold join_lines. cbn [List.flat_map]. rewrite <- !app_assoc. cbn [app].
  unfold split. rewrite split_from_line.
  - cbn [List.rev app]. f_equal. exact IH.
  - eapply Forall_impl; [exact Hl|]. cbn. tauto.
Qed.

Lemma plain_line_end_header : plain_line (lit "end_header").
Proof.
  split; [|vm_compute; reflexivity].
  repeat constructor; vm_compute; congruence.
Qed.

Lemma text_of_header_bytes (lines : list (list Byte.byte)) :
  text_of (header_bytes lines) =
    join_lines (List.map text_of lines ++ [lit "end_header"]).
Proof.
  unfold header_bytes, text_of, join_lines.
  rewrite flat_map_app, !map_app. f_equal.
  induction lines as [|l lines IH]; [reflexivity|].
  cbn [List.flat_map List.map]. rewrite !map_app, IH. reflexivity.
Qed.

Lemma join_lines_ascii (lines : list jsstring) :
  Forall plain_line lines -> Forall (fun c => (c <= 127)%N) (join_lines lines).
Proof.
  induction 1 as [|l lines [Hl _] _ IH]; [constructor|].
  unfold join_lines. cbn [List.flat_map]. rewrite !Forall_app. repeat split.
  - eapply Forall_impl; [exact Hl|]. cbn. tauto.
  - repeat constructor. lia.
  - exact IH.
Qed.

Lemma length_join_lines (lines : list (list Byte.byte)) :
  List.length (join_lines (List.map text_of lines ++ [lit "end_header"])) =
  List.length (header_bytes lines).
Proof. rewrite <- text_of_header_bytes. unfold text_of. apply length_map. Qed.

(** The loop on plain lines up to the one that reads [end_header]. *)
Lemma loop_plain_lines (lines : list jsstring) (rest : list jsstring) (s : header_scan) :
  Forall plain_line lines -> Forall (fun l => l <> lit "end_header") lines ->
  headerLength (fst (parseHeader_loop (lines ++ lit "end_header" :: rest) s)) =
    Z.of_nat (List.length (TextEncoder_encode
                (headerText s ++ join_lines (lines ++ [lit "end_header"])))).
Proof.
  intros Hplain. revert s. induction Hplain as [|l lines [_ Htrim] _ IH]; intros s Hne.
  - cbn [app]. rewrite parseHeader_loop_cons. cbv zeta.
    change (trim (lit "end_header")) with (lit "end_header").
    change (str_eqb (lit "end_header") (lit "ply")) with false.
    change (str_eqb (lit "end_header") (lit "end_header")) with true.
    cbv iota. reflexivity.
  - apply Forall_cons in Hne as [Hl Hne].
    cbn [app]. rewrite parseHeader_loop_cons. cbv zeta. rewrite Htrim.
    assert (Hend : str_eqb l (lit "end_header") = false).
    { unfold str_eqb. now apply bool_decide_eq_false. }
    rewrite Hend.
    assert (Htext : forall text,
              (headerText s ++ l ++ [10%N]) ++ join_lines text =
              headerText s ++ join_lines (l :: text)).
    { intros text. unfold join_lines. cbn [List.flat_map]. now rewrite <- !app_assoc. }
    destruct (str_eqb l (lit "ply")); [|destruct (negb (inHeader s))];
      rewrite IH by exact Hne; cbn [headerText]; now rewrite Htext.
Qed.

Lemma data_offset_plain_lines (lines : list (list N)) (rest : list (list N)) (consumed : nat) :
  Forall plain_line lines -> Forall (fun l => l <> lit "end_header") lines ->
  data_offset_from (lines ++ lit "end_header" :: rest) consumed =
    Some (consumed + List.length (join_lines (lines ++ [lit "end_header"])))%nat.
Proof.
  intros Hplain. revert consumed.
  induction Hplain as [|l lines [Hascii Htrim] _ IH]; intros consumed Hne.
  - cbn [app data_offset_from].
    change (str_eqb (trim (utf8_decode_from None (lit "end_header"))) (lit "end_header"))
      with true.
    cbv iota.
    change (List.length (lit "end_header")) with 10%nat.
    change (List.length (join_lines [lit "end_header"])) with 11%nat.
    f_equal. lia.
  - apply Forall_cons in Hne as [Hl Hne].
    cbn [app data_offset_from].
    assert (Hdec : utf8_decode_from None l = l).
    { rewrite <- (app_nil_r l) at 1. rewrite utf8_decode_ascii; [apply app_nil_r|].
      eapply Forall_impl; [exact Hascii|]. cbn. tauto. }
    rewrite Hdec, Htrim.
    assert (Hend : str_eqb l (lit "end_header") = false).
    { unfold str_eqb. now apply bool_decide_eq_false. }
    rewrite Hend, IH by exact Hne.
    unfold join_lines. cbn [List.flat_map]. rewrite !length_app. cbn [List.length].
    f_equal. lia.
Qed.

Lemma decode_header_bytes (lines : list (list Byte.byte)) (data : list Byte.byte) :
  Forall plain lines ->
  TextDecoder_decode (header_bytes lines ++ data) =
    join_lines (List.map text_of lines ++ [lit "end_header"])
    ++ utf8_decode_from None (text_of data).
Proof.
  intros Hplain.
  assert (Hall : Forall plain_line (List.map text_of lines ++ [lit "end_header"])).
  { apply Forall_app. split.
    - rewrite List.Forall_map. eapply Forall_impl; [exact Hplain|]. intros l [H _]. exact H.
    - constructor; [apply plain_line_end_header|constructor]. }
  pose proof (join_lines_ascii _ Hall) as Hascii.
  unfold TextDecoder_decode. rewrite map_app.
  fold (text_of (header_bytes lines)) (text_of data).
  rewrite text_of_header_bytes.
  assert (Hbom : forall t : list N,
            Forall (fun c => (c <= 127)%N) t -> t <> [] ->
            match t ++ text_of data with
            | b0 :: b1 :: b2 :: r =>
                if ((b0 =? 239) && (b1 =? 187) && (b2 =? 191))%N
                then utf8_decode_from None r
                else utf8_decode_from None (t ++ text_of data)
            | _ => utf8_decode_from None (t ++ text_of data)
            end = utf8_decode_from None (t ++ text_of data)).
  { intros [|c t] Ht Hnil; [contradiction|].
    apply Forall_cons in Ht as [Hc _]. cbn [app].
    destruct (t ++ text_of data) as [|b1 [|b2 r]]; try reflexivity.
    rewrite (proj2 (N.eqb_neq c 239)) by lia. reflexivity. }
  rewrite Hbom; [now apply utf8_decode_ascii|exact Hascii|].
  unfold join_lines. rewrite flat_map_app. cbn.
  intros H. apply app_eq_nil in H as [_ H]. discriminate.
Qed.

(** X1.  On a header of plain lines (ASCII, no white space at either end)
    closed by [end_header], each line ended by a line feed alone,
    [headerLength] is the offset of the vertex data in the buffer, whatever
    bytes follow.  This is the case in which [parseHeader] meets C7. *)
Theorem headerLength_of_plain_header (this : loader) (lines : list (list Byte.byte))
    (data : list Byte.byte) :
  Forall plain lines ->
  data_offset (header_bytes lines ++ data) = Some (List.length (header_bytes lines))
  /\ exists h this',
       parseHeader this (header_bytes lines ++ data) = Returned (h, this')
       /\ headerLength h = Z.of_nat (List.length (header_bytes lines)).
Proof.
  intros Hplain.
  assert (Hlines : Forall plain_line (List.map text_of lines)).
  { rewrite List.Forall_map. eapply Forall_impl; [exact Hplain|]. intros l [H _]. exact H. }
  assert (Hne : Forall (fun l => l <> lit "end_header") (List.map text_of lines)).
  { rewrite List.Forall_map. eapply Forall_impl; [exact Hplain|]. intros l [_ H]. exact H. }
  assert (Hall : Forall plain_line (List.map text_of lines ++ [lit "end_header"])).
  { apply Forall_app. split; [exact Hlines|].
    constructor; [apply plain_line_end_header|constructor]. }
  split.
  - unfold data_offset. rewrite map_app.
    fold (text_of (header_bytes lines)) (text_of data).
    rewrite text_of_header_bytes, (split_join_lines _ _ Hall), <- app_assoc. cbn [app].
    rewrite (data_offset_plain_lines _ _ _ Hlines Hne), length_join_lines. reflexivity.
  - unfold parseHeader. rewrite (decode_header_bytes _ _ Hplain).
    rewrite (split_join_lines _ _ Hall), <- app_assoc. cbn [app].
    set (s := Scan initial_header false [] this).
    exists (fst (parseHeader_loop
                   (List.map text_of lines ++ lit "end_header" :: split 10 (utf8_decode_from None (text_of data))) s)),
           (snd (parseHeader_loop
                   (List.map text_of lines ++ lit "end_header" :: split 10 (utf8_decode_from None (text_of data))) s)).
    split; [now destruct (parseHeader_loop _ s)|].
    rewrite (loop_plain_lines _ _ _ Hlines Hne). cbn [headerText s app].
    rewrite (utf8_encode_ascii _ (join_lines_ascii _ Hall)), length_join_lines. reflexivity.
Qed.

(** The header of [buffer_lf]: four plain lines and [end_header]. *)
Lemma headerLength_of_plain_header_witness :
  data_offset buffer_lf = Some 81%nat
  /\ exists h this',
       parseHeader constructor buffer_lf = Returned (h, this')
       /\ headerLength h = 81%Z.
Proof.
  refine (headerLength_of_plain_header constructor
            (List.map list_byte_of_string
               ["ply"; "format binary_little_endian 1.0"; "element vertex 1";
                "property float x"])
            one_f32_le _).
  unfold plain, plain_line. apply (bool_decide_unpack _). vm_compute. exact I.
Defined.

(** C2, amended.  [parseHeader] never fails.  For a buffer with no line
    that reads [end_header] it returns a header whose [headerLength] is
    the initial 0, and for a header with no [element vertex] line it
    returns a header whose [vertexCount] is the initial 0. *)
Theorem C2_parseHeader_returns_a_header (this : loader) (buffer : list Byte.byte) :
  exists (h : header) (this' : loader),
    parseHeader this buffer = Returned (h, this')
    /\ (has_end_header (split 10 (TextDecoder_decode buffer)) = false ->
        headerLength h = 0%Z)
    /\ (forallb (fun l => negb (is_element_vertex l))
          (lines_before_end (split 10 (TextDecoder_decode buffer))) = true ->
        vertexCount h = Some 0%Z).
Proof.
  unfold parseHeader.
  set (s := Scan initial_header false [] this).
  set (lines := split 10 (TextDecoder_decode buffer)).
  exists (fst (parseHeader_loop lines s)), (snd (parseHeader_loop lines s)).
  split; [now destruct (parseHeader_loop lines s)|]. split.
  - intros H. now rewrite loop_without_end_header.
  - intros H. now rewrite loop_without_element_vertex.
Qed.

(** C2 as stated fails: a header that is never closed, and a header that
    never gives the vertex count, are both returned as header objects. *)
Lemma C2_counterexample :
  has_end_header (split 10 (TextDecoder_decode buffer_no_end_header)) = false
  /\ parseHeader constructor buffer_no_end_header =
       Returned (Header (Some (lit "binary_little_endian")) (Some 1%Z)
                   [Property (Some (lit "float")) (Some (lit "x"))] 0%Z,
                 Loader true)
  /\ existsb is_element_vertex (split 10 (TextDecoder_decode buffer_no_vertex_count)) = false
  /\ parseHeader constructor buffer_no_vertex_count =
       Returned (Header (Some (lit "binary_little_endian")) (Some 0%Z)
                   [Property (Some (lit "float")) (Some (lit "x"))] 64%Z,
                 Loader true).
Proof. repeat split; vm_compute; reflexivity. Qed.

(** C7 on a file whose lines end in carriage return and line feed: the
    vertex data begin at byte 86, [headerLength] is 81, and the [x] of the
    vertex, 1.0 in the file, is decoded from the bytes at 81.  On the same
    file with lines ended by a line feed alone the two offsets agree. *)
Lemma C7_headerLength_of_crlf_header :
  data_offset buffer_crlf = Some 86%nat
  /\ (exists h this, parseHeader constructor buffer_crlf = Returned (h, this)
                     /\ headerLength h = 81%Z)
  /\ (exists m, fst (parse exp_ref constructor buffer_crlf) = Returned m
                /\ positions (geometry m) = [7.4694051972153545e-31; 0; 0]%float)
  /\ data_offset buffer_lf = Some 81%nat
  /\ (exists h this, parseHeader constructor buffer_lf = Returned (h, this)
                     /\ headerLength h = 81%Z)
  /\ (exists m, fst (parse exp_ref constructor buffer_lf) = Returned m
                /\ positions (geometry m) = [1; 0; 0]%float).
Proof.
  repeat split; try (vm_compute; reflexivity);
    eexists; try eexists; split; vm_compute; reflexivity.
Qed.

End HeaderFacts.

(* ===================================================================== *)
(** ** The ascii decoder: [parseAsciiVertices] and [createVertex] *)
(* ===================================================================== *)

Module AsciiFacts.

Import GaussianSplatLoader Spec Inputs.

Local Open Scope string_scope.
Local Open Scope list_scope.

Lemma lookup_set_field_eq (k : string) (v : float) (vertex : gmap string float) :
  k <> "__proto__" -> set_field k v vertex !! k = Some v.
Proof.
  intros Hk. unfold set_field.
  destruct (String.eqb_spec k "__proto__") as [E|_]; [contradiction|].
  apply lookup_insert_eq.
Qed.

Lemma lookup_set_field_ne (k k' : string) (v : float) (vertex : gmap string float) :
  k <> k' -> set_field k v vertex !! k' = vertex !! k'.
Proof.
  intros Hk. unfold set_field.
  destruct (String.eqb k "__proto__"); [reflexivity|].
  now apply lookup_insert_ne.
Qed.

Lemma fill_other (properties : list property) (values : list float)
    (vertex : gmap string float) (k : string) :
  ~ In k (List.map property_key properties) ->
  fill properties values vertex !! k = vertex !! k.
Proof.
  revert values vertex.
  induction properties as [|p rest IH]; intros values vertex Hk; [reflexivity|].
  destruct values as [|v values]; [reflexivity|].
  unfold fill. cbn [List.combine fold_left].
  fold (fill rest values (set_field (property_key p) v vertex)).
  cbn [List.map In] in Hk.
  rewrite IH by tauto. apply lookup_set_field_ne. tauto.
Qed.

Lemma fill_at (properties : list property) (values : list float)
    (vertex : gmap string float) (j : nat) (p : property) :
  NoDup (List.map property_key properties) ->
  properties !! j = Some p -> property_key p <> "__proto__" ->
  fill properties values vertex !! property_key p =
    match values !! j with
    | Some v => Some v
    | None => vertex !! property_key p
    end.
Proof.
  revert values vertex j.
  induction properties as [|p0 rest IH]; intros values vertex j Hnd Hj Hp; [discriminate|].
  cbn [List.map] in Hnd. apply NoDup_cons in Hnd as [Hp0 Hnd].
  destruct values as [|v values].
  { unfold fill. cbn. now destruct j. }
  unfold fill. cbn [List.combine fold_left].
  fold (fill rest values (set_field (property_key p0) v vertex)).
  destruct j as [|j].
  - injection Hj as ->. cbn [lookup list_lookup].
    rewrite fill_other by (rewrite <- list_elem_of_In; exact Hp0).
    now apply lookup_set_field_eq.
  - cbn in Hj. rewrite (IH values _ j Hnd Hj Hp).
    change ((v :: values) !! S j) with (values !! j).
    destruct (values !! j); [reflexivity|].
    apply lookup_set_field_ne. intros E. apply Hp0. rewrite E.
    apply list_elem_of_In, in_map, list_elem_of_In. now apply list_elem_of_lookup_2 with j.
Qed.

(** The loop of [parseAsciiVertices], from any [vertices]. *)
Lemma ascii_loop (Math_exp : float -> float) (properties : list property)
    (lines : list jsstring) (vertices : list splat) :
  fold_left
    (fun vertices line =>
       let values := List.map parseFloat (split_spaces (trim line)) in
       if (3 <=? List.length values)%nat then
         vertices ++ [createVertex Math_exp values properties]
       else vertices)
    lines vertices =
  vertices ++
    List.flat_map
      (fun line =>
         if (3 <=? List.length (line_values line))%nat then
           [createVertex Math_exp (line_values line) properties]
         else [])
      lines.
Proof.
  revert vertices. induction lines as [|l rest IH]; intros vertices.
  - cbn. now rewrite app_nil_r.
  - cbn [fold_left List.flat_map]. rewrite IH. cbv zeta. unfold line_values.
    destruct (3 <=? List.length (List.map parseFloat (split_spaces (trim l))))%nat.
    + now rewrite <- app_assoc.
    + reflexivity.
Qed.

(** C9, amended.  The ascii decoder goes through the lines after the
    header that are not blank, up to [vertexCount] of them.  A line of at
    least three tokens gives one record, made from a [vertex] in which the
    declared property number [j] (the names being distinct) holds the
    token number [j] when there is one and is left undefined when there is
    none.  A line of fewer than three tokens gives no record. *)
Theorem C9_ascii_lines_of_three_tokens_or_more (Math_exp : float -> float) :
  (forall buffer offset header propertyMap,
     parseAsciiVertices Math_exp buffer offset header propertyMap =
       List.flat_map
         (fun line =>
            if (3 <=? List.length (line_values line))%nat then
              [processVertex Math_exp (createVertex_fields (line_values line) (properties header))]
            else [])
         (ascii_lines buffer offset header))
  /\ (forall values properties j p,
        NoDup (List.map property_key properties) ->
        properties !! j = Some p -> property_key p <> "__proto__" ->
        createVertex_fields values properties !! property_key p = values !! j).
Proof.
  split.
  - intros buffer offset header propertyMap.
    unfold parseAsciiVertices. cbv zeta. rewrite ascii_loop. cbn [app].
    unfold ascii_lines, createVertex.
    destruct (vertexCount header) as [n|]; [|reflexivity].
    set (lines := List.filter _ _).
    f_equal. destruct (Nat.min_spec (List.length lines) (Z.to_nat n)) as [[Hlt ->]|[Hle ->]].
    + rewrite !firstn_all2 by lia. reflexivity.
    + reflexivity.
  - intros values properties j p Hnd Hj Hp.
    unfold createVertex_fields.
    rewrite (fill_at properties values ∅ j p Hnd Hj Hp).
    destruct (values !! j); [reflexivity|]. apply lookup_empty.
Qed.

(** C9 as stated fails: the file declares three properties and its first
    vertex line has two tokens; that line gives no record, and the only
    record is the one of the second line. *)
Lemma C9_counterexample :
  (exists h this, parseHeader constructor buffer_ascii_short_line = Returned (h, this)
     /\ List.length (properties h) = 3%nat
     /\ List.map line_values (ascii_lines buffer_ascii_short_line (headerLength h) h)
          = [[1; 2]; [4; 5; 6]]%float
     /\ List.map position
          (parseAsciiVertices exp_ref buffer_ascii_short_line (headerLength h) h
             (createPropertyMap (properties h)))
          = [[4; 5; 6]]%float).
Proof.
  eexists. eexists. split; [vm_compute; reflexivity|].
  repeat split; vm_compute; reflexivity.
Qed.

(** A file with five declared properties and a vertex line of four tokens:
    one record, with the opacity of the fourth token ([sigmoid(0)]) and
    the default scale. *)
Example ascii_four_tokens_of_five :
  match fst (parse exp_ref constructor buffer_ascii_four_of_five) with
  | Returned m =>
      positions (geometry m) = [1; 2; 3]%float
      /\ opacities (geometry m) = [0.5]%float
      /\ scales (geometry m) = List.map (fun _ => fround (exp_ref 0.01)) [0; 1; 2]%nat
  | Thrown _ => False
  end.
Proof. vm_compute. repeat split; reflexivity. Qed.

(** A line of four tokens for five declared properties: the fifth field,
    [scale_0], is left undefined and the fourth, [opacity], is assigned. *)
Lemma C9_ascii_lines_of_three_tokens_or_more_witness :
  createVertex_fields [1; 2; 3; 0]%float
    [ Property (Some (lit "float")) (Some (lit "x"));
      Property (Some (lit "float")) (Some (lit "y"));
      Property (Some (lit "float")) (Some (lit "z"));
      Property (Some (lit "float")) (Some (lit "opacity"));
      Property (Some (lit "float")) (Some (lit "scale_0")) ]
    !! property_key (Property (Some (lit "float")) (Some (lit "scale_0")))
  = [1; 2; 3; 0]%float !! 4%nat.
Proof.
  refine (proj2 (C9_ascii_lines_of_three_tokens_or_more exp_ref) _ _ 4%nat _ _ _ _).
  - apply (bool_decide_unpack _). vm_compute. exact I.
  - reflexivity.
  - vm_compute. discriminate.
Defined.

End AsciiFacts.

(* ===================================================================== *)
(** ** The binary decoder: [parseBinaryVertices] *)
(* ===================================================================== *)

Module BinaryFacts.

Import GaussianSplatLoader Spec Inputs.

Local Open Scope string_scope.
Local Open Scope list_scope.
Local Open Scope Z_scope.

(** *** Loops in the outcome monad *)

Lemma foldM_returns {A T : Type} (body : T -> A -> outcome T) (l : list A) (s : T) :
  (forall x, In x l -> forall s, exists s', body s x = Returned s') ->
  exists s', foldM body l s = Returned s'.
Proof.
  revert s. induction l as [|x rest IH]; intros s H; [now exists s|].
  cbn [foldM]. destruct (H x (or_introl eq_refl) s) as [s' ->]. cbn [bind].
  apply IH. intros y Hy. apply H. now right.
Qed.

Lemma foldM_throws {A T : Type} (body : T -> A -> outcome T) (l : list A) (s : T) (x : A) :
  In x l -> (forall s, body s x = Thrown RangeError) ->
  foldM body l s = Thrown RangeError.
Proof.
  revert s. induction l as [|y rest IH]; intros s Hx H; [contradiction|].
  cbn [foldM]. destruct (body s y) as [s'|[]] eqn:Hy; [|reflexivity].
  cbn [bind]. destruct Hx as [->|Hx]; [|now apply IH].
  rewrite H in Hy. discriminate.
Qed.

(** *** Reads *)

Lemma bytes_at_returns (dv : DataView.t) (byteOffset : Z) (n : nat) :
  0 <= byteOffset -> byteOffset + Z.of_nat n <= DataView.byteLength dv ->
  exists bs, DataView.bytes_at dv byteOffset n = Returned bs.
Proof.
  intros H0 H1. unfold DataView.bytes_at.
  rewrite (proj2 (Z.leb_le 0 byteOffset) H0), (proj2 (Z.leb_le _ _) H1).
  eexists. reflexivity.
Qed.

Lemma bytes_at_throws (dv : DataView.t) (byteOffset : Z) (n : nat) :
  DataView.byteLength dv < byteOffset + Z.of_nat n ->
  DataView.bytes_at dv byteOffset n = Thrown RangeError.
Proof.
  intros H. unfold DataView.bytes_at.
  rewrite (proj2 (Z.leb_gt _ _) H). now rewrite andb_false_r.
Qed.

(** [readBinaryValue] reads as many bytes as [getTypeSize] counts for the
    type, and nothing else of the buffer. *)
Lemma readBinaryValue_reads_getTypeSize (this : loader) (type : option jsstring) :
  exists f : list Z -> float,
    forall dataView offset,
      readBinaryValue this dataView offset type =
        let! bs := DataView.bytes_at dataView offset (Z.to_nat (getTypeSize type)) in
        Returned (f bs).
Proof.
  unfold readBinaryValue, getTypeSize,
    DataView.getFloat32, DataView.getFloat64, DataView.getInt32, DataView.getUint32,
    DataView.getInt16, DataView.getUint16, DataView.getInt8, DataView.getUint8,
    DataView.bits_at.
  repeat match goal with
         | |- context [if is_lit type ?s then _ else _] => destruct (is_lit type s)
         end;
    cbn [orb];
    change (Z.to_nat 8) with 8%nat; change (Z.to_nat 4) with 4%nat;
    change (Z.to_nat 2) with 2%nat; change (Z.to_nat 1) with 1%nat;
    eexists (fun bs => _); intros dataView offset;
    match goal with
    | |- context [DataView.bytes_at ?d ?o ?n] => destruct (DataView.bytes_at d o n)
    end; reflexivity.
Qed.

Lemma getTypeSize_positive (type : option jsstring) : 0 < getTypeSize type.
Proof.
  unfold getTypeSize.
  repeat match goal with |- context [if ?b then _ else _] => destruct b end; lia.
Qed.

Lemma readBinaryValue_returns (this : loader) (dataView : DataView.t) (offset : Z)
    (type : option jsstring) :
  0 <= offset -> offset + getTypeSize type <= DataView.byteLength dataView ->
  exists v, readBinaryValue this dataView offset type = Returned v.
Proof.
  intros H0 H1. destruct (readBinaryValue_reads_getTypeSize this type) as [f ->].
  pose proof (getTypeSize_positive type).
  destruct (bytes_at_returns dataView offset (Z.to_nat (getTypeSize type))) as [bs ->];
    [lia|lia|].
  eexists. reflexivity.
Qed.

Lemma readBinaryValue_throws (this : loader) (dataView : DataView.t) (offset : Z)
    (type : option jsstring) :
  DataView.byteLength dataView < offset + getTypeSize type ->
  readBinaryValue this dataView offset type = Thrown RangeError.
Proof.
  intros H. destruct (readBinaryValue_reads_getTypeSize this type) as [f ->].
  pose proof (getTypeSize_positive type).
  rewrite bytes_at_throws by lia. reflexivity.
Qed.

(** *** The property map *)

Lemma in_obj_set {V : Type} (k : string) (v : V) (o : list (string * V)) (kv : string * V) :
  In kv (obj_set k v o) -> In kv o \/ kv = (k, v).
Proof.
  unfold obj_set. destruct (String.eqb k "__proto__"); [now left|].
  destruct (existsb _ o).
  - intros H. apply in_map_iff in H as [kv0 [E H]].
    destruct (String.eqb (fst kv0) k); [now right|]. left. now subst.
  - intros H. apply in_app_or in H as [H|[H|[]]]; [now left|now right].
Qed.

Lemma obj_set_in {V : Type} (k : string) (v : V) (o : list (string * V)) :
  k <> "__proto__" -> In (k, v) (obj_set k v o).
Proof.
  intros Hk. unfold obj_set.
  destruct (String.eqb_spec k "__proto__") as [E|_]; [contradiction|].
  destruct (existsb _ o) eqn:Hex.
  - apply existsb_exists in Hex as [kv0 [Hin Heq]].
    apply in_map_iff. exists kv0. now rewrite Heq.
  - apply in_or_app. right. now left.
Qed.

Lemma layout_inside (properties : list property) (map : list (string * entry)) (off : Z) :
  inside map off -> 0 <= off ->
  inside (fst (fold_left layout_step properties (map, off)))
         (snd (fold_left layout_step properties (map, off)))
  /\ off <= snd (fold_left layout_step properties (map, off)).
Proof.
  revert map off. induction properties as [|p rest IH]; intros map off Hin Hoff.
  - cbn. split; [exact Hin|lia].
  - cbn [fold_left layout_step].
    pose proof (getTypeSize_positive (type p)) as Hp.
    destruct (IH (obj_set (property_key p) (Entry off (type p) (getTypeSize (type p))) map)
                 (off + getTypeSize (type p))) as [H1 H2]; [|lia|split; [exact H1|lia]].
    intros k e He. apply in_obj_set in He as [He|He].
    + destruct (Hin k e He). lia.
    + injection He as -> ->. cbn. lia.
Qed.

Lemma createPropertyMap_inside (properties : list property) :
  inside (entries (createPropertyMap properties)) (vertexSize (createPropertyMap properties))
  /\ 0 <= vertexSize (createPropertyMap properties).
Proof.
  unfold createPropertyMap.
  destruct (layout_inside properties [] 0) as [H1 H2]; [intros k e []|lia|].
  destruct (fold_left layout_step properties ([], 0)) as [map off].
  cbn [entries vertexSize fst snd] in *. split; [|exact H2].
  intros k e He. apply filter_In in He as [He _]. exact (H1 k e He).
Qed.

(** The last declared property has its entry, at the end of the record. *)
Lemma createPropertyMap_last (properties : list property) (p : property) :
  property_key p <> "__proto__" -> property_key p <> "vertexSize" ->
  exists e,
    In (property_key p, e) (entries (createPropertyMap (properties ++ [p])))
    /\ offset e + getTypeSize (entry_type e) =
         vertexSize (createPropertyMap (properties ++ [p])).
Proof.
  intros Hproto Hsize. unfold createPropertyMap. rewrite fold_left_app.
  destruct (fold_left layout_step properties ([], 0)) as [map off].
  cbn [fold_left layout_step entries vertexSize].
  exists (Entry off (type p) (getTypeSize (type p))). split; [|reflexivity].
  apply filter_In. split; [now apply obj_set_in|].
  cbn [fst]. destruct (String.eqb_spec (property_key p) "vertexSize"); [contradiction|reflexivity].
Qed.

(** *** The decoder *)

Section WithMathExp.

Variable Math_exp : float -> float.

Lemma readVertex_returns (this : loader) (dataView : DataView.t) (vertexOffset : Z)
    (propertyMap : propertyMap) :
  0 <= vertexOffset ->
  inside (entries propertyMap) (vertexSize propertyMap) ->
  vertexOffset + vertexSize propertyMap <= DataView.byteLength dataView ->
  exists vertex, readVertex this dataView vertexOffset propertyMap = Returned vertex.
Proof.
  intros H0 Hin Hfit. unfold readVertex. apply foldM_returns.
  intros [k e] He vertex. destruct (Hin k e He) as [Hlo Hhi].
  destruct (readBinaryValue_returns this dataView (vertexOffset + offset e) (entry_type e))
    as [v ->]; [lia|lia|].
  eexists. reflexivity.
Qed.

Lemma readVertex_throws (this : loader) (dataView : DataView.t) (vertexOffset : Z)
    (propertyMap : propertyMap) (k : string) (e : entry) :
  In (k, e) (entries propertyMap) ->
  DataView.byteLength dataView < vertexOffset + offset e + getTypeSize (entry_type e) ->
  readVertex this dataView vertexOffset propertyMap = Thrown RangeError.
Proof.
  intros He Hfit. unfold readVertex. apply (foldM_throws _ _ _ (k, e) He).
  intros vertex. now rewrite readBinaryValue_throws.
Qed.

Lemma in_loop_indices (n i : Z) :
  In i (loop_indices (Some n)) <-> 0 <= i < n.
Proof.
  unfold loop_indices. rewrite in_map_iff. split.
  - intros [j [<- Hj]]. apply in_seq in Hj. lia.
  - intros H. exists (Z.to_nat i). split; [lia|]. apply in_seq. lia.
Qed.

(** The loop over the records, from the [vertices] it has reached. *)
Lemma records_returned (this : loader) (dataView : DataView.t) (offset : Z)
    (propertyMap : propertyMap) (indices : list Z) (vertices : list splat) :
  (forall i, In i indices ->
     exists vertex,
       readVertex this dataView (offset + i * vertexSize propertyMap) propertyMap
         = Returned vertex) ->
  exists vertices',
    foldM (decode_record Math_exp this dataView offset propertyMap) indices vertices
      = Returned vertices'
    /\ List.length vertices' = (List.length vertices + List.length indices)%nat.
Proof.
  revert vertices. induction indices as [|i rest IH]; intros vertices H.
  - exists vertices. split; [reflexivity|cbn; lia].
  - cbn [foldM]. unfold decode_record at 1.
    destruct (H i (or_introl eq_refl)) as [vertex ->]. cbn [bind].
    destruct (IH (vertices ++ [processVertex Math_exp vertex])) as [vs [-> Hlen]].
    { intros j Hj. apply H. now right. }
    exists vs. split; [reflexivity|].
    rewrite Hlen, length_app. cbn. lia.
Qed.

(** C1, amended.  Let the header give [n] vertices and let the buffer be
    read from [offset] with the property map of the header.  When the [n]
    records fit in the buffer ([offset + n * vertexSize] is at most its
    length, with or without bytes to spare) the decode returns exactly [n]
    splats.  When they do not fit, and there is a record and a last
    property to read, it ends in the [RangeError] of the [DataView] and
    returns no collection at all. *)
Theorem C1_binary_decode_all_records_or_RangeError (this : loader)
    (buffer : list Byte.byte) (offset : Z) (header : header) (n : Z) :
  vertexCount header = Some n -> 0 <= n -> 0 <= offset ->
  (offset + n * vertexSize (createPropertyMap (properties header))
     <= Z.of_nat (List.length buffer) ->
   exists vertices,
     parseBinaryVertices Math_exp this (DataView.Make buffer) offset header
       (createPropertyMap (properties header)) = Returned vertices
     /\ List.length vertices = Z.to_nat n)
  /\ (Z.of_nat (List.length buffer)
        < offset + n * vertexSize (createPropertyMap (properties header)) ->
      1 <= n ->
      forall declared last,
        properties header = declared ++ [last] ->
        property_key last <> "__proto__" -> property_key last <> "vertexSize" ->
        parseBinaryVertices Math_exp this (DataView.Make buffer) offset header
          (createPropertyMap (properties header)) = Thrown RangeError).
Proof.
  intros Hcount Hn Hoffset.
  destruct (createPropertyMap_inside (properties header)) as [Hinside Hsize].
  unfold parseBinaryVertices. rewrite Hcount. split.
  - intros Hfit.
    destruct (records_returned this (DataView.Make buffer) offset
                (createPropertyMap (properties header)) (loop_indices (Some n)) [])
      as [vertices [-> Hlen]].
    { intros i Hi. apply in_loop_indices in Hi.
      apply readVertex_returns; [nia|exact Hinside|].
      unfold DataView.byteLength. cbn [DataView.buffer]. nia. }
    exists vertices. split; [reflexivity|].
    rewrite Hlen. cbn [List.length]. unfold loop_indices.
    rewrite length_map, length_seq. reflexivity.
  - intros Hshort Hone declared last Hprops Hproto Hvsize.
    destruct (createPropertyMap_last declared last Hproto Hvsize) as [e [He Hend]].
    rewrite <- Hprops in He, Hend.
    apply (foldM_throws _ _ _ (n - 1)); [apply in_loop_indices; lia|].
    intros vertices. unfold decode_record.
    rewrite (readVertex_throws this _ _ _ _ e He); [reflexivity|].
    unfold DataView.byteLength. cbn [DataView.buffer]. nia.
Qed.

End WithMathExp.

(** C1 as stated fails: one record of four bytes after a header of 81
    bytes, in a buffer of 86; the decode returns its one splat, no error is
    raised, and 81 + 1 * 4 is not 86. *)
Lemma C1_counterexample :
  exists h this,
    parseHeader constructor buffer_trailing_byte = Returned (h, this)
    /\ vertexCount h = Some 1
    /\ headerLength h = 81
    /\ vertexSize (createPropertyMap (properties h)) = 4
    /\ Z.of_nat (List.length buffer_trailing_byte) = 86
    /\ List.map position
         match parseBinaryVertices exp_ref this (DataView.Make buffer_trailing_byte)
                 (headerLength h) h (createPropertyMap (properties h)) with
         | Returned vertices => vertices
         | Thrown _ => []
         end = [[1; 0; 0]%float].
Proof.
  eexists. eexists. split; [vm_compute; reflexivity|].
  repeat split; vm_compute; reflexivity.
Qed.

(** The file cut one byte short: 84 bytes for a header of 81 and a record
    of 4.  The decode throws. *)
Lemma C1_binary_decode_all_records_or_RangeError_witness :
  parseBinaryVertices exp_ref (Loader true) (DataView.Make buffer_truncated) 81
    (Header (Some (lit "binary_little_endian")) (Some 1)
       [Property (Some (lit "float")) (Some (lit "x"))] 81)
    (createPropertyMap [Property (Some (lit "float")) (Some (lit "x"))])
  = Thrown RangeError.
Proof.
  refine (proj2 (C1_binary_decode_all_records_or_RangeError exp_ref (Loader true)
                   buffer_truncated 81
                   (Header (Some (lit "binary_little_endian")) (Some 1)
                      [Property (Some (lit "float")) (Some (lit "x"))] 81)
                   1 _ _ _) _ _ [] (Property (Some (lit "float")) (Some (lit "x"))) _ _ _);
    try reflexivity; try (vm_compute; discriminate); vm_compute; reflexivity.
Defined.

End BinaryFacts.

(* ===================================================================== *)
(** ** The property layout: [getTypeSize] and [createPropertyMap] *)
(* ===================================================================== *)

Module LayoutFacts.

Import GaussianSplatLoader Spec Layout BinaryFacts.

Local Open Scope string_scope.
Local Open Scope list_scope.
Local Open Scope Z_scope.

Lemma obj_set_fresh {V : Type} (k : string) (v : V) (o : list (string * V)) :
  k <> "__proto__" -> ~ In k (List.map fst o) -> obj_set k v o = o ++ [(k, v)].
Proof.
  intros Hk Hfresh. unfold obj_set.
  destruct (String.eqb_spec k "__proto__") as [E|_]; [contradiction|].
  destruct (existsb (fun kv => String.eqb (fst kv) k) o) eqn:Hex; [|reflexivity].
  apply existsb_exists in Hex as [kv [Hin Heq]].
  apply String.eqb_eq in Heq. exfalso. apply Hfresh. rewrite <- Heq. now apply in_map.
Qed.

Lemma keys_layout_from (offset : Z) (properties : list property) :
  List.map fst (layout_from offset properties) = List.map property_key properties.
Proof.
  revert offset. induction properties as [|p rest IH]; intros offset; [reflexivity|].
  cbn [layout_from List.map fst]. now rewrite IH.
Qed.

(** The loop of [createPropertyMap] on ordinary names: it appends the
    layout. *)
Lemma layout_loop (properties : list property) (map : list (string * entry)) (offset : Z) :
  ordinary properties ->
  (forall p, In p properties -> ~ In (property_key p) (List.map fst map)) ->
  fold_left layout_step properties (map, offset) =
    (map ++ layout_from offset properties, offset + record_size properties).
Proof.
  revert map offset. induction properties as [|p rest IH]; intros map offset [Hnd Hord] Hfresh.
  - cbn. rewrite app_nil_r. f_equal. lia.
  - cbn [List.map] in Hnd. apply NoDup_cons in Hnd as [Hp Hnd].
    apply Forall_cons in Hord as [[Hproto _] Hord].
    cbn [fold_left layout_step layout_from record_size].
    rewrite obj_set_fresh; [|exact Hproto|apply Hfresh; now left].
    rewrite IH.
    + rewrite <- app_assoc. cbn [app]. f_equal. lia.
    + split; assumption.
    + intros q Hq. rewrite map_app, in_app_iff. cbn [List.map fst In].
      intros [H|[H|[]]].
      * apply (Hfresh q); [now right|exact H].
      * apply Hp. rewrite H. apply list_elem_of_In, in_map. exact Hq.
Qed.


Lemma createPropertyMap_ordinary (properties : list property) :
  ordinary properties ->
  createPropertyMap properties =
    PropertyMap (layout_from 0 properties) (record_size properties).
Proof.
  intros Hord. unfold createPropertyMap.
  rewrite (layout_loop properties [] 0 Hord) by (intros p _ []).
  cbn [app]. f_equal.
  apply forallb_filter_id, forallb_forall. intros [k e] Hin. cbn [fst].
  destruct Hord as [_ Hord].
  assert (Hk : In k (List.map property_key properties)).
  { rewrite <- (keys_layout_from 0). now apply (in_map fst) in Hin. }
  apply in_map_iff in Hk as [p [<- Hp]].
  rewrite Forall_forall in Hord. destruct (Hord p) as [_ Hv]; [now apply list_elem_of_In|].
  now destruct (String.eqb_spec (property_key p) "vertexSize").
Qed.


End LayoutFacts.

(* ===================================================================== *)
(** ** What the binary decoder reads *)
(* ===================================================================== *)

Module DecodeFacts.

Import GaussianSplatLoader Spec Inputs Cases Layout BinaryFacts AsciiFacts LayoutFacts.

Local Open Scope string_scope.
Local Open Scope list_scope.
Local Open Scope Z_scope.

Lemma foldM_ext {A T : Type} (body body' : T -> A -> outcome T) (l : list A) (s : T) :
  (forall x, In x l -> forall s, body s x = body' s x) ->
  foldM body l s = foldM body' l s.
Proof.
  revert s. induction l as [|x rest IH]; intros s H; [reflexivity|].
  cbn [foldM]. rewrite (H x (or_introl eq_refl)).
  destruct (body' s x) as [s'|e]; [|reflexivity].
  cbn [bind]. apply IH. intros y Hy. apply H. now right.
Qed.

(** A read inside a buffer does not see what follows the buffer. *)
Lemma bytes_at_app (buffer extra : list Byte.byte) (byteOffset : Z) (n : nat) :
  0 <= byteOffset -> byteOffset + Z.of_nat n <= Z.of_nat (List.length buffer) ->
  DataView.bytes_at (DataView.Make (buffer ++ extra)) byteOffset n =
    DataView.bytes_at (DataView.Make buffer) byteOffset n.
Proof.
  intros H0 H1. unfold DataView.bytes_at, DataView.byteLength. cbn [DataView.buffer].
  rewrite length_app, (proj2 (Z.leb_le 0 byteOffset) H0).
  rewrite (proj2 (Z.leb_le _ (Z.of_nat (List.length buffer))) H1).
  rewrite (proj2 (Z.leb_le _ (Z.of_nat (List.length buffer + List.length extra)))) by lia.
  cbn [andb]. do 2 f_equal.
  rewrite skipn_app, firstn_app, length_skipn.
  replace (n - (List.length buffer - Z.to_nat byteOffset))%nat with O by lia.
  cbn [List.firstn]. now rewrite app_nil_r.
Qed.

Lemma readBinaryValue_app (this : loader) (buffer extra : list Byte.byte) (offset : Z)
    (type : option jsstring) :
  0 <= offset -> offset + getTypeSize type <= Z.of_nat (List.length buffer) ->
  readBinaryValue this (DataView.Make (buffer ++ extra)) offset type =
    readBinaryValue this (DataView.Make buffer) offset type.
Proof.
  intros H0 H1. destruct (readBinaryValue_reads_getTypeSize this type) as [f Hf].
  pose proof (getTypeSize_positive type).
  rewrite !Hf, bytes_at_app by lia. reflexivity.
Qed.

(** The inner loop on entries of distinct names, from the [vertex] it has
    reached: every entry's value is stored under its name. *)
Lemma read_fields (this : loader) (dataView : DataView.t) (vertexOffset : Z)
    (es : list (string * entry)) (vertex0 : gmap string float) :
  NoDup (List.map fst es) ->
  (forall k e, In (k, e) es -> k <> "__proto__") ->
  (forall k e, In (k, e) es ->
     exists v, readBinaryValue this dataView (vertexOffset + offset e) (entry_type e)
                 = Returned v) ->
  exists vertex,
    foldM
      (fun vertex '(name, prop) =>
         let! value := readBinaryValue this dataView (vertexOffset + offset prop)
                         (entry_type prop) in
         Returned (set_field name value vertex))
      es vertex0 = Returned vertex
    /\ (forall k e, In (k, e) es ->
          exists v, readBinaryValue this dataView (vertexOffset + offset e) (entry_type e)
                      = Returned v
                    /\ vertex !! k = Some v)
    /\ (forall k, ~ In k (List.map fst es) -> vertex !! k = vertex0 !! k).
Proof.
  revert vertex0. induction es as [|[k0 e0] rest IH]; intros vertex0 Hnd Hproto Hread.
  - exists vertex0. split; [reflexivity|]. split; [intros k e []|reflexivity].
  - cbn [List.map fst] in Hnd. apply NoDup_cons in Hnd as [Hk0 Hnd].
    destruct (Hread k0 e0 (or_introl eq_refl)) as [v0 Hv0].
    destruct (IH (set_field k0 v0 vertex0) Hnd) as [vertex [Hfold [Hin Hout]]].
    { intros k e He. apply (Hproto k e). now right. }
    { intros k e He. apply (Hread k e). now right. }
    exists vertex. cbn [foldM]. rewrite Hv0. cbn [bind]. split; [exact Hfold|]. split.
    + intros k e [E|He]; [|now apply Hin].
      injection E as <- <-. exists v0. split; [exact Hv0|].
      rewrite Hout by (rewrite <- list_elem_of_In; exact Hk0).
      apply lookup_set_field_eq. apply (Hproto k0 e0). now left.
    + intros k Hk. cbn [List.map fst In] in Hk.
      rewrite Hout by tauto. apply lookup_set_field_ne. tauto.
Qed.

Lemma layout_from_lookup (properties : list property) (offset : Z) (j : nat) (p : property) :
  properties !! j = Some p ->
  In (property_key p,
      Entry (offset + record_size (take j properties)) (type p) (getTypeSize (type p)))
     (layout_from offset properties).
Proof.
  revert offset j. induction properties as [|q rest IH]; intros offset j Hj; [discriminate|].
  destruct j as [|j].
  - injection Hj as ->. left. cbn. do 2 f_equal. lia.
  - right. cbn in Hj. cbn [take record_size].
    replace (offset + (getTypeSize (type q) + record_size (take j rest)))
      with (offset + getTypeSize (type q) + record_size (take j rest)) by lia.
    now apply IH.
Qed.

Lemma layout_from_proto (properties : list property) (offset : Z) (k : string) (e : entry) :
  ordinary properties -> In (k, e) (layout_from offset properties) -> k <> "__proto__".
Proof.
  intros [_ Hord] Hin.
  apply (in_map fst) in Hin. rewrite keys_layout_from in Hin. cbn [fst] in Hin.
  apply in_map_iff in Hin as [p [<- Hp]].
  rewrite Forall_forall in Hord. apply (Hord p). now apply list_elem_of_In.
Qed.

(** One record under the layout of ordinary property names: the vertex
    object holds what was read for every entry, and nothing else. *)
Lemma readVertex_fields (this : loader) (buffer : list Byte.byte) (vertexOffset : Z)
    (properties : list property) :
  ordinary properties -> 0 <= vertexOffset ->
  vertexOffset + record_size properties <= Z.of_nat (List.length buffer) ->
  exists vertex,
    readVertex this (DataView.Make buffer) vertexOffset
      (PropertyMap (layout_from 0 properties) (record_size properties)) = Returned vertex
    /\ (forall k e, In (k, e) (layout_from 0 properties) ->
          exists v,
            readBinaryValue this (DataView.Make buffer)
              (vertexOffset + GaussianSplatLoader.offset e) (entry_type e) = Returned v
            /\ vertex !! k = Some v)
    /\ (forall k, ~ In k (List.map fst (layout_from 0 properties)) -> vertex !! k = None).
Proof.
  intros Hord Hoffset Hfit.
  pose proof (createPropertyMap_inside properties) as [Hinside _].
  rewrite (createPropertyMap_ordinary _ Hord) in Hinside.
  cbn [entries vertexSize] in Hinside.
  unfold readVertex. cbn [entries].
  destruct (read_fields this (DataView.Make buffer) vertexOffset
              (layout_from 0 properties) ∅) as [vertex [Hfold [Hin Hout]]].
  - rewrite keys_layout_from. apply Hord.
  - intros k e He. now apply (layout_from_proto properties 0 k e).
  - intros k e He. destruct (Hinside k e He).
    apply readBinaryValue_returns; [lia|].
    unfold DataView.byteLength. cbn [DataView.buffer]. lia.
  - exists vertex. repeat split; [exact Hfold|exact Hin|].
    intros k Hk. rewrite (Hout k Hk). apply lookup_empty.
Qed.

Section WithMathExp.

Variable Math_exp : float -> float.

(** The loop over the records with what it read, from the [vertices] it
    has reached. *)
Lemma records_read (this : loader) (dataView : DataView.t) (offset : Z)
    (propertyMap : propertyMap) (indices : list Z) (vertices : list splat) :
  (forall i, In i indices ->
     exists raw,
       readVertex this dataView (offset + i * vertexSize propertyMap) propertyMap
         = Returned raw) ->
  exists raws,
    foldM (decode_record Math_exp this dataView offset propertyMap) indices vertices
      = Returned (vertices ++ List.map (processVertex Math_exp) raws)
    /\ Forall2
         (fun i raw =>
            readVertex this dataView (offset + i * vertexSize propertyMap) propertyMap
              = Returned raw)
         indices raws.
Proof.
  revert vertices. induction indices as [|i rest IH]; intros vertices H.
  - exists []. split; [cbn; now rewrite app_nil_r|constructor].
  - destruct (H i (or_introl eq_refl)) as [raw Hraw].
    destruct (IH (vertices ++ [processVertex Math_exp raw])) as [raws [Hfold Hall]].
    { intros j Hj. apply H. now right. }
    exists (raw :: raws). split; [|now constructor].
    cbn [foldM]. unfold decode_record at 1. rewrite Hraw. cbn [bind].
    rewrite Hfold, <- app_assoc. reflexivity.
Qed.

(** X3.  For a header of [n] vertices with ordinary property names, read
    from [offset] in a buffer that holds the [n] records: the decode
    returns, for each record [i] in order, [processVertex] of a vertex
    object that holds under the name of each declared property [j] the
    value [readBinaryValue] reads at [offset + i * recordSize +] (the sizes
    of the properties declared before [j]), with the type of [j], and no
    other field. *)
Theorem binary_records_hold_the_declared_fields (this : loader) (buffer : list Byte.byte)
    (offset : Z) (header : header) (n : Z) :
  vertexCount header = Some n -> 0 <= n -> 0 <= offset ->
  ordinary (properties header) ->
  offset + n * record_size (properties header) <= Z.of_nat (List.length buffer) ->
  exists raws : list (gmap string float),
    parseBinaryVertices Math_exp this (DataView.Make buffer) offset header
      (createPropertyMap (properties header))
      = Returned (List.map (processVertex Math_exp) raws)
    /\ List.length raws = Z.to_nat n
    /\ forall (i : nat) (raw : gmap string float),
         raws !! i = Some raw ->
         (forall (j : nat) (p : property),
            properties header !! j = Some p ->
            exists v,
              readBinaryValue this (DataView.Make buffer)
                (offset + Z.of_nat i * record_size (properties header)
                 + record_size (take j (properties header)))
                (type p) = Returned v
              /\ raw !! property_key p = Some v)
         /\ (forall k, ~ In k (List.map property_key (properties header)) ->
               raw !! k = None).
Proof.
  intros Hcount Hn Hoffset Hord Hfit.
  rewrite (createPropertyMap_ordinary _ Hord).
  set (pm := PropertyMap (layout_from 0 (properties header)) (record_size (properties header))).
  assert (Hsize : 0 <= vertexSize pm).
  { pose proof (createPropertyMap_inside (properties header)) as [_ H].
    now rewrite (createPropertyMap_ordinary _ Hord) in H. }
  assert (Hfields : forall i, 0 <= i < n ->
            exists vertex,
              readVertex this (DataView.Make buffer) (offset + i * vertexSize pm) pm
                = Returned vertex
              /\ (forall k e, In (k, e) (entries pm) ->
                    exists v,
                      readBinaryValue this (DataView.Make buffer)
                        (offset + i * vertexSize pm + GaussianSplatLoader.offset e)
                        (entry_type e) = Returned v
                      /\ vertex !! k = Some v)
              /\ (forall k, ~ In k (List.map fst (entries pm)) -> vertex !! k = None)).
  { intros i Hi. cbn [vertexSize pm] in Hsize |- *.
    apply (readVertex_fields this buffer _ (properties header) Hord); nia. }
  unfold parseBinaryVertices. rewrite Hcount.
  destruct (records_read this (DataView.Make buffer) offset pm (loop_indices (Some n)) [])
    as [raws [Hfold Hall]].
  { intros i Hi. apply in_loop_indices in Hi. destruct (Hfields i Hi) as [v [Hv _]]. eauto. }
  exists raws. split; [exact Hfold|].
  pose proof (Forall2_length _ _ _ Hall) as Hlen.
  unfold loop_indices in Hlen. rewrite length_map, length_seq in Hlen.
  split; [lia|].
  intros i raw Hi.
  assert (Hidx : loop_indices (Some n) !! i = Some (Z.of_nat i)).
  { unfold loop_indices. rewrite list_lookup_fmap.
    apply lookup_lt_Some in Hi.
    rewrite lookup_seq_lt by lia. reflexivity. }
  pose proof (Forall2_lookup_lr _ _ _ _ _ _ Hall Hidx Hi) as Hraw.
  apply lookup_lt_Some in Hi.
  destruct (Hfields (Z.of_nat i)) as [vertex [Hvertex [Hin Hout]]]; [lia|].
  cbv beta in Hraw. rewrite Hvertex in Hraw. injection Hraw as <-. split.
  - intros j p Hj.
    destruct (Hin _ _ (layout_from_lookup (properties header) 0 j p Hj)) as [v [Hv Hk]].
    exists v. split; [|exact Hk]. cbn [GaussianSplatLoader.offset vertexSize pm] in Hv.
    rewrite <- Hv. f_equal.
  - intros k Hk. apply Hout. cbn [entries pm]. now rewrite keys_layout_from.
Qed.

(** X4.  Bytes after the [n] records are never read: with any bytes
    appended to a buffer that holds the records, the decode gives the same
    result. *)
Theorem binary_decode_ignores_what_follows (this : loader) (buffer extra : list Byte.byte)
    (offset : Z) (header : header) (n : Z) :
  vertexCount header = Some n -> 0 <= n -> 0 <= offset ->
  offset + n * vertexSize (createPropertyMap (properties header))
    <= Z.of_nat (List.length buffer) ->
  parseBinaryVertices Math_exp this (DataView.Make (buffer ++ extra)) offset header
    (createPropertyMap (properties header))
  = parseBinaryVertices Math_exp this (DataView.Make buffer) offset header
      (createPropertyMap (properties header)).
Proof.
  intros Hcount Hn Hoffset Hfit.
  destruct (createPropertyMap_inside (properties header)) as [Hinside Hsize].
  unfold parseBinaryVertices. rewrite Hcount. apply foldM_ext.
  intros i Hi vertices. apply in_loop_indices in Hi.
  unfold decode_record. f_equal. unfold readVertex. apply foldM_ext.
  intros [k e] He vertex. destruct (Hinside k e He).
  rewrite readBinaryValue_app; [reflexivity|nia|nia].
Qed.

End WithMathExp.

Lemma binary_records_hold_the_declared_fields_witness :
  exists raws : list (gmap string float),
    parseBinaryVertices exp_ref (Loader true) (DataView.Make buffer_lf) 81
      header_of_buffer_lf (createPropertyMap (properties header_of_buffer_lf))
      = Returned (List.map (processVertex exp_ref) raws)
    /\ List.length raws = 1%nat
    /\ forall i raw, raws !! i = Some raw ->
         (forall j p, properties header_of_buffer_lf !! j = Some p ->
            exists v, readBinaryValue (Loader true) (DataView.Make buffer_lf)
              (81 + Z.of_nat i * record_size (properties header_of_buffer_lf)
               + record_size (take j (properties header_of_buffer_lf))) (type p) = Returned v
              /\ raw !! property_key p = Some v)
         /\ (forall k, ~ In k (List.map property_key (properties header_of_buffer_lf)) ->
              raw !! k = None).
Proof.
  apply (binary_records_hold_the_declared_fields exp_ref (Loader true) buffer_lf 81
           header_of_buffer_lf 1).
  - reflexivity.
  - lia.
  - lia.
  - split.
    + vm_compute. repeat constructor. intros H. inversion H.
    + repeat constructor; vm_compute; discriminate.
  - vm_compute. discriminate.
Defined.

Lemma binary_decode_ignores_what_follows_witness :
  parseBinaryVertices exp_ref (Loader true) (DataView.Make (buffer_lf ++ [Byte.x00])) 81
    header_of_buffer_lf (createPropertyMap (properties header_of_buffer_lf))
  = parseBinaryVertices exp_ref (Loader true) (DataView.Make buffer_lf) 81
      header_of_buffer_lf (createPropertyMap (properties header_of_buffer_lf)).
Proof.
  apply (binary_decode_ignores_what_follows exp_ref (Loader true) buffer_lf [Byte.x00] 81
           header_of_buffer_lf 1).
  - reflexivity.
  - lia.
  - lia.
  - vm_compute. discriminate.
Defined.

End DecodeFacts.

(* ===================================================================== *)
(** ** The column store as a transpose *)
(* ===================================================================== *)

Module ColumnFacts.

Import GaussianSplatLoader Spec Layout AssemblerFacts.

Local Open Scope string_scope.
Local Open Scope list_scope.

Lemma length_set (a : list float) (i : nat) (v : option float) :
  List.length (Float32Array.set a i v) = List.length a.
Proof. apply length_insert. Qed.

Lemma set_other (a : list float) (i j : nat) (v : option float) :
  i <> j -> Float32Array.set a i v !! j = a !! j.
Proof. intros H. now apply list_lookup_insert_ne. Qed.

Lemma set_at (a : list float) (i : nat) (v : option float) :
  (i < List.length a)%nat -> Float32Array.set a i v !! i = Some (fround (ToNumber v)).
Proof. intros H. now apply list_lookup_insert_eq. Qed.

(** A loop whose body stores one row of [w] numbers per vertex. *)
Section Rows.

Variable w : nat.
Variable value : splat -> nat -> option float.
Variable body : nat -> splat -> list float -> list float.

Hypothesis body_length : forall i v a, List.length (body i v a) = List.length a.
Hypothesis body_other :
  forall i v a j, (j < i * w)%nat -> body i v a !! j = a !! j.
Hypothesis body_at :
  forall i v a k, (i * w + w <= List.length a)%nat -> (k < w)%nat ->
    body i v a !! (i * w + k)%nat = Some (fround (ToNumber (value v k))).

Lemma rows_length (vertices : list splat) (start : nat) (a : list float) :
  List.length (for_vertices_from start vertices body a) = List.length a.
Proof.
  revert start a. induction vertices as [|v rest IH]; intros start a; [reflexivity|].
  rewrite for_vertices_from_cons, IH. apply body_length.
Qed.

Lemma rows_before (vertices : list splat) (start : nat) (a : list float) (j : nat) :
  (j < start * w)%nat -> for_vertices_from start vertices body a !! j = a !! j.
Proof.
  revert start a. induction vertices as [|v rest IH]; intros start a Hj; [reflexivity|].
  rewrite for_vertices_from_cons, IH by lia. now apply body_other.
Qed.

Lemma rows_at (vertices : list splat) (start : nat) (a : list float)
    (i : nat) (vertex : splat) (k : nat) :
  ((start + List.length vertices) * w <= List.length a)%nat ->
  vertices !! i = Some vertex -> (k < w)%nat ->
  for_vertices_from start vertices body a !! ((start + i) * w + k)%nat =
    Some (fround (ToNumber (value vertex k))).
Proof.
  revert start a i. induction vertices as [|v rest IH]; intros start a i Hlen Hi Hk;
    [discriminate|].
  rewrite for_vertices_from_cons. cbn [List.length] in Hlen.
  destruct i as [|i].
  - injection Hi as ->. rewrite Nat.add_0_r.
    rewrite rows_before by lia. apply body_at; lia.
  - replace ((start + S i) * w + k)%nat with ((S start + i) * w + k)%nat by lia.
    apply IH; [rewrite body_length; lia|exact Hi|exact Hk].
Qed.

End Rows.

Lemma row3_length v0 v1 v2 i v a : List.length (row3 v0 v1 v2 i v a) = List.length a.
Proof. unfold row3, Float32Array.set3. now rewrite !length_set. Qed.

Lemma row3_other v0 v1 v2 i v a j :
  (j < i * 3)%nat -> row3 v0 v1 v2 i v a !! j = a !! j.
Proof.
  intros H. unfold row3, Float32Array.set3. rewrite !set_other by lia. reflexivity.
Qed.

Lemma row3_at v0 v1 v2 i v a k :
  (i * 3 + 3 <= List.length a)%nat -> (k < 3)%nat ->
  row3 v0 v1 v2 i v a !! (i * 3 + k)%nat = Some (fround (ToNumber (pick3 v0 v1 v2 v k))).
Proof.
  intros Hlen Hk. unfold row3, Float32Array.set3.
  destruct k as [|[|[|k]]]; [| | |lia]; cbn [pick3].
  - rewrite !set_other by lia. rewrite Nat.add_0_r. apply set_at. lia.
  - rewrite set_other by lia. apply set_at. rewrite length_set. lia.
  - apply set_at. rewrite !length_set. lia.
Qed.

Lemma row4_length i v a : List.length (row4 i v a) = List.length a.
Proof. unfold row4, Float32Array.set3. now rewrite !length_set. Qed.

Lemma row4_other i v a j : (j < i * 4)%nat -> row4 i v a !! j = a !! j.
Proof.
  intros H. unfold row4, Float32Array.set3. rewrite !set_other by lia. reflexivity.
Qed.

Lemma row4_at i v a k :
  (i * 4 + 4 <= List.length a)%nat -> (k < 4)%nat ->
  row4 i v a !! (i * 4 + k)%nat = Some (fround (ToNumber (element (rotation v) k))).
Proof.
  intros Hlen Hk. unfold row4, Float32Array.set3.
  destruct k as [|[|[|[|k]]]]; [| | | |lia].
  - rewrite !set_other by lia. rewrite Nat.add_0_r. apply set_at. lia.
  - rewrite !set_other by lia. apply set_at. rewrite length_set. lia.
  - rewrite set_other by lia. apply set_at. rewrite !length_set. lia.
  - apply set_at. rewrite !length_set. lia.
Qed.

Lemma row1_length i v a : List.length (row1 i v a) = List.length a.
Proof. apply length_set. Qed.

Lemma row1_other i v a j : (j < i * 1)%nat -> row1 i v a !! j = a !! j.
Proof. intros H. unfold row1. rewrite set_other by lia. reflexivity. Qed.

Lemma row1_at i v a k :
  (i * 1 + 1 <= List.length a)%nat -> (k < 1)%nat ->
  row1 i v a !! (i * 1 + k)%nat = Some (fround (ToNumber (Some (opacity v)))).
Proof.
  intros Hlen Hk. unfold row1. replace (i * 1 + k)%nat with i by lia. apply set_at. lia.
Qed.

(** One array of the loop over [store_vertex] is a loop of its own. *)
Lemma column_loop (proj : columns -> list float)
    (body : nat -> splat -> list float -> list float)
    (vertices : list splat) (start : nat) (c : columns) :
  (forall i v c, proj (store_vertex i v c) = body i v (proj c)) ->
  proj (for_vertices_from start vertices store_vertex c) =
    for_vertices_from start vertices body (proj c).
Proof.
  intros H. revert start c. induction vertices as [|v rest IH]; intros start c;
    [reflexivity|].
  rewrite !for_vertices_from_cons, IH, H. reflexivity.
Qed.

(** The array of rest coefficients number [g]. *)
Lemma rest_array_loop (g : nat) (a : list float) (vertices : list splat) (header : header) :
  rest_arrays (geometry (createGaussianSplatMesh vertices header)) !! g = Some a ->
  a = for_vertices_from 0 vertices
        (row3 (fun v => rest_or_zero v (g * 3)) (fun v => rest_or_zero v (g * 3 + 1))
              (fun v => rest_or_zero v (g * 3 + 2)))
        (Float32Array.make (List.length vertices * 3)).
Proof.
  unfold createGaussianSplatMesh, for_vertices. cbn [geometry]. intros H.
  do 9 (destruct g as [|g];
        [injection H as <-;
         match goal with
         | |- ?p (for_vertices_from _ _ _ _) = _ =>
             exact (column_loop p _ vertices 0 _ (fun i v c => eq_refl))
         end|]).
  discriminate.
Qed.

(** X5.  The assembler transposes the splats: every array has one row per
    splat (three numbers, four for the rotation, one for the opacity), and
    the row [i] holds the components of the attribute of the splat [i],
    each rounded to binary32 (a missing component as [NaN]); a rest
    coefficient that is zero or missing is stored as zero. *)
Theorem column_store_is_the_transpose (vertices : list splat) (header : header) :
  (List.length (positions (geometry (createGaussianSplatMesh vertices header)))
     = (List.length vertices * 3)%nat
   /\ List.length (scales (geometry (createGaussianSplatMesh vertices header)))
     = (List.length vertices * 3)%nat
   /\ List.length (rotations (geometry (createGaussianSplatMesh vertices header)))
     = (List.length vertices * 4)%nat
   /\ List.length (opacities (geometry (createGaussianSplatMesh vertices header)))
     = List.length vertices
   /\ List.length (sh_dc_array (geometry (createGaussianSplatMesh vertices header)))
     = (List.length vertices * 3)%nat
   /\ Forall (fun a => List.length a = (List.length vertices * 3)%nat)
        (rest_arrays (geometry (createGaussianSplatMesh vertices header))))
  /\ forall (i : nat) (vertex : splat),
       vertices !! i = Some vertex ->
       (forall k, (k < 3)%nat ->
          positions (geometry (createGaussianSplatMesh vertices header)) !! (i * 3 + k)%nat
            = Some (fround (ToNumber (position vertex !! k)))
          /\ scales (geometry (createGaussianSplatMesh vertices header)) !! (i * 3 + k)%nat
            = Some (fround (ToNumber (scale vertex !! k)))
          /\ sh_dc_array (geometry (createGaussianSplatMesh vertices header)) !! (i * 3 + k)%nat
            = Some (fround (ToNumber (sh_dc vertex !! k))))
       /\ (forall k, (k < 4)%nat ->
          rotations (geometry (createGaussianSplatMesh vertices header)) !! (i * 4 + k)%nat
            = Some (fround (ToNumber (element (rotation vertex) k))))
       /\ opacities (geometry (createGaussianSplatMesh vertices header)) !! i
            = Some (fround (opacity vertex))
       /\ (forall g a k,
          rest_arrays (geometry (createGaussianSplatMesh vertices header)) !! g = Some a ->
          (k < 3)%nat ->
          a !! (i * 3 + k)%nat
            = Some (fround (or_else (sh_rest vertex !! (g * 3 + k)%nat) 0))).
Proof.
  assert (Hpos : positions (geometry (createGaussianSplatMesh vertices header)) =
            for_vertices_from 0 vertices
              (row3 (fun v => position v !! 0%nat) (fun v => position v !! 1%nat)
                    (fun v => position v !! 2%nat))
              (Float32Array.make (List.length vertices * 3))).
  { exact (column_loop positions _ vertices 0 _ (fun i v c => eq_refl)). }
  assert (Hsca : scales (geometry (createGaussianSplatMesh vertices header)) =
            for_vertices_from 0 vertices
              (row3 (fun v => scale v !! 0%nat) (fun v => scale v !! 1%nat)
                    (fun v => scale v !! 2%nat))
              (Float32Array.make (List.length vertices * 3))).
  { exact (column_loop scales _ vertices 0 _ (fun i v c => eq_refl)). }
  assert (Hdc : sh_dc_array (geometry (createGaussianSplatMesh vertices header)) =
            for_vertices_from 0 vertices
              (row3 (fun v => sh_dc v !! 0%nat) (fun v => sh_dc v !! 1%nat)
                    (fun v => sh_dc v !! 2%nat))
              (Float32Array.make (List.length vertices * 3))).
  { exact (column_loop sh_dc_array _ vertices 0 _ (fun i v c => eq_refl)). }
  assert (Hrot : rotations (geometry (createGaussianSplatMesh vertices header)) =
            for_vertices_from 0 vertices row4
              (Float32Array.make (List.length vertices * 4))).
  { exact (column_loop rotations _ vertices 0 _ (fun i v c => eq_refl)). }
  assert (Hopa : opacities (geometry (createGaussianSplatMesh vertices header)) =
            for_vertices_from 0 vertices row1 (Float32Array.make (List.length vertices))).
  { exact (column_loop opacities _ vertices 0 _ (fun i v c => eq_refl)). }
  assert (Hmake : forall n, List.length (Float32Array.make n) = n).
  { intros n. apply length_replicate. }
  split.
  - rewrite Hpos, Hsca, Hdc, Hrot, Hopa.
    rewrite !(rows_length _ (row3_length _ _ _)), (rows_length _ row4_length),
      (rows_length _ row1_length), !Hmake.
    repeat split; try reflexivity.
    apply Forall_forall. intros a Ha. apply list_elem_of_lookup in Ha as [g Hg].
    rewrite (rest_array_loop g a vertices header Hg).
    now rewrite (rows_length _ (row3_length _ _ _)), Hmake.
  - intros i vertex Hi. repeat split.
    + rewrite Hpos.
      rewrite (rows_at 3 _ _ (row3_length _ _ _) (row3_other _ _ _) (row3_at _ _ _)
                 vertices 0 _ i vertex k); [|rewrite Hmake; lia|exact Hi|assumption].
      now destruct k as [|[|[|k]]]; [| | |lia].
    + rewrite Hsca.
      rewrite (rows_at 3 _ _ (row3_length _ _ _) (row3_other _ _ _) (row3_at _ _ _)
                 vertices 0 _ i vertex k); [|rewrite Hmake; lia|exact Hi|assumption].
      now destruct k as [|[|[|k]]]; [| | |lia].
    + rewrite Hdc.
      rewrite (rows_at 3 _ _ (row3_length _ _ _) (row3_other _ _ _) (row3_at _ _ _)
                 vertices 0 _ i vertex k); [|rewrite Hmake; lia|exact Hi|assumption].
      now destruct k as [|[|[|k]]]; [| | |lia].
    + intros k Hk. rewrite Hrot.
      apply (rows_at 4 _ _ row4_length row4_other row4_at vertices 0 _ i vertex k);
        [rewrite Hmake; lia|exact Hi|exact Hk].
    + rewrite Hopa.
      pose proof (rows_at 1 _ _ row1_length row1_other row1_at vertices 0
                    (Float32Array.make (List.length vertices)) i vertex 0
                    ltac:(rewrite Hmake; lia) Hi ltac:(lia)) as H.
      cbn [Nat.add] in H. rewrite Nat.mul_1_r, Nat.add_0_r in H. exact H.
    + intros g a k Hg Hk. rewrite (rest_array_loop g a vertices header Hg).
      rewrite (rows_at 3 _ _ (row3_length _ _ _) (row3_other _ _ _) (row3_at _ _ _)
                 vertices 0 _ i vertex k); [|rewrite Hmake; lia|exact Hi|assumption].
      destruct k as [|[|[|k]]]; [| | |lia]; cbn [pick3 rest_or_zero ToNumber];
        rewrite ?Nat.add_0_r; reflexivity.
Qed.

End ColumnFacts.

(* ===================================================================== *)
(** ** What every decoded splat satisfies *)
(* ===================================================================== *)

Module SplatFacts.

Import GaussianSplatLoader Spec Cases FloatOrder ProcessVertexFacts.

Local Open Scope string_scope.
Local Open Scope list_scope.

Lemma or_else_number (v : option float) (d : float) :
  PrimFloat.is_nan d = false -> PrimFloat.is_nan (or_else v d) = false.
Proof.
  intros Hd. destruct v as [x|]; cbn [or_else]; [|exact Hd].
  destruct (truthy x) eqn:E; [now apply truthy_not_nan|exact Hd].
Qed.

Lemma or_else_zero_usable (v : option float) :
  passed_over v = false -> PrimFloat.eqb (or_else v 0) 0 = false.
Proof.
  destruct v as [x|]; cbn [passed_over or_else]; [|discriminate].
  intros H. apply negb_false_iff in H. rewrite H. now apply truthy_not_zero.
Qed.

Section WithMathExp.

Variable Math_exp : float -> float.

(** X6.  As soon as one of [f_dc_0], [f_dc_1], [f_dc_2] is a number other
    than zero, the colour of degree 0 is made of these three fields alone
    (each one that is missing, zero or [NaN] counting as zero): [red],
    [green], [blue], [r], [g] and [b] play no part. *)
Theorem sh_dc_keeps_usable_coefficients (vertex : gmap string float) :
  passed_over (vertex !! "f_dc_0") = false
  \/ passed_over (vertex !! "f_dc_1") = false
  \/ passed_over (vertex !! "f_dc_2") = false ->
  sh_dc (processVertex Math_exp vertex) =
    [ or_else (vertex !! "f_dc_0") 0;
      or_else (vertex !! "f_dc_1") 0;
      or_else (vertex !! "f_dc_2") 0 ]%float.
Proof.
  intros H.
  assert (Hc : PrimFloat.eqb (or_else (vertex !! "f_dc_0") 0) 0
               && PrimFloat.eqb (or_else (vertex !! "f_dc_1") 0) 0
               && PrimFloat.eqb (or_else (vertex !! "f_dc_2") 0) 0 = false).
  { destruct H as [H|[H|H]]; rewrite (or_else_zero_usable _ H);
      rewrite ?andb_false_r; reflexivity. }
  unfold processVertex. cbv zeta. cbn [sh_dc]. rewrite Hc. reflexivity.
Qed.

(** X7.  Every splat has three coordinates, three scales, four rotation
    components, three coefficients of degree 0 and forty-five rest
    coefficients, whatever fields the vertex has.  No coordinate and no
    rest coefficient is [NaN]: a field that is missing or [NaN] has become
    zero; and the rest coefficient [i] is read from [f_rest_i]. *)
Theorem splat_shape (vertex : gmap string float) :
  List.length (position (processVertex Math_exp vertex)) = 3%nat
  /\ List.length (scale (processVertex Math_exp vertex)) = 3%nat
  /\ List.length (rotation (processVertex Math_exp vertex)) = 4%nat
  /\ List.length (sh_dc (processVertex Math_exp vertex)) = 3%nat
  /\ List.length (sh_rest (processVertex Math_exp vertex)) = 45%nat
  /\ Forall (fun x => PrimFloat.is_nan x = false) (position (processVertex Math_exp vertex))
  /\ Forall (fun x => PrimFloat.is_nan x = false) (sh_rest (processVertex Math_exp vertex))
  /\ forall i, (i < 45)%nat ->
       sh_rest (processVertex Math_exp vertex) !! i = Some (or_else (vertex !! f_rest i) 0).
Proof.
  split; [reflexivity|]. split; [reflexivity|]. split; [reflexivity|].
  split.
  { unfold processVertex. cbv zeta. cbn [sh_dc].
    destruct (_ && _); [|reflexivity].
    destruct (vertex !! "red"), (vertex !! "green"), (vertex !! "blue");
      try reflexivity;
      destruct (vertex !! "r"), (vertex !! "g"), (vertex !! "b"); reflexivity. }
  split; [reflexivity|].
  split.
  { unfold processVertex. cbv zeta. cbn [position].
    repeat constructor; now apply or_else_number. }
  split.
  { unfold processVertex. cbv zeta. cbn [sh_rest].
    rewrite List.Forall_map. apply Forall_forall. intros i _. now apply or_else_number. }
  intros i Hi. unfold processVertex. cbv zeta. cbn [sh_rest].
  change (List.map ?f ?l) with (f <$> l).
  rewrite list_lookup_fmap, lookup_seq_lt by exact Hi. reflexivity.
Qed.

End WithMathExp.

Lemma sh_dc_keeps_usable_coefficients_witness :
  sh_dc (processVertex exp_ref vertex_dc_and_rgb) = [0; 0.3; 0]%float.
Proof.
  refine (sh_dc_keeps_usable_coefficients exp_ref vertex_dc_and_rgb _).
  right. left. vm_compute. reflexivity.
Defined.

End SplatFacts.

(* ===================================================================== *)
(** ** One loader for several files *)
(* ===================================================================== *)

Module ReuseFacts.

Import GaussianSplatLoader Spec Layout HeaderFacts.

Local Open Scope string_scope.
Local Open Scope list_scope.

Lemma header_line_agree (line : jsstring) (h : header) (this this' : loader) :
  agree h this this' ->
  fst (header_line line h this) = fst (header_line line h this')
  /\ agree (fst (header_line line h this))
       (snd (header_line line h this)) (snd (header_line line h this')).
Proof.
  intros H. unfold header_line. cbv zeta.
  destruct (is_lit (split 32 line !! 0%nat) "format"); [split; [reflexivity|now left]|].
  destruct (is_lit (split 32 line !! 0%nat) "element" && is_lit (split 32 line !! 1%nat) "vertex");
    [split; [reflexivity|exact H]|].
  destruct (is_lit (split 32 line !! 0%nat) "property"); split; try reflexivity; exact H.
Qed.

Lemma parseHeader_loop_agree (lines : list jsstring) (h : header) (b : bool)
    (text : jsstring) (this this' : loader) :
  agree h this this' ->
  fst (parseHeader_loop lines (Scan h b text this)) =
    fst (parseHeader_loop lines (Scan h b text this'))
  /\ agree (fst (parseHeader_loop lines (Scan h b text this)))
       (snd (parseHeader_loop lines (Scan h b text this)))
       (snd (parseHeader_loop lines (Scan h b text this'))).
Proof.
  revert h b text this this'.
  induction lines as [|l rest IH]; intros h b text this this' H.
  - split; [reflexivity|exact H].
  - rewrite !parseHeader_loop_cons. cbv zeta. cbn [scan_header inHeader headerText scan_this].
    destruct (str_eqb (trim l) (lit "ply")); [now apply IH|].
    destruct (str_eqb (trim l) (lit "end_header")); [split; [reflexivity|exact H]|].
    destruct (negb b); [now apply IH|].
    destruct (header_line_agree (trim l) h this this' H) as [E A].
    rewrite <- E. apply IH. exact A.
Qed.

Section WithMathExp.

Variable Math_exp : float -> float.

(** X8.  What [parse] returns for a buffer does not depend on the byte
    order the loader was left with by the file it read before: the mesh, or
    the exception, is the same from any loader. *)
Theorem parse_forgets_the_previous_file (this this' : loader) (buffer : list Byte.byte) :
  fst (parse Math_exp this buffer) = fst (parse Math_exp this' buffer).
Proof.
  unfold parse, parseHeader. cbv zeta.
  destruct (parseHeader_loop_agree (split 10 (TextDecoder_decode buffer)) initial_header
              false [] this this' (or_intror eq_refl)) as [E A].
  destruct (parseHeader_loop _ (Scan _ _ _ this)) as [h t].
  destruct (parseHeader_loop _ (Scan _ _ _ this')) as [h' t'].
  cbn [fst snd] in E, A |- *. subst h'.
  unfold parseVertices. cbv zeta.
  destruct A as [->|A]; [reflexivity|]. rewrite A. reflexivity.
Qed.

End WithMathExp.

End ReuseFacts.

(* ===================================================================== *)
(** ** The written header, read back *)
(* ===================================================================== *)

Module WriterHeaderFacts.

Import GaussianSplatLoader Spec PlyWriter WriterSpec HeaderFacts.

Local Open Scope string_scope.
Local Open Scope list_scope.

(** *** The digits of a whole number *)

Lemma digits_before_tail (fuel : nat) (n : N) (tail : jsstring) :
  digits_before fuel n tail = digits_before fuel n [] ++ tail.
Proof.
  revert n tail. induction fuel as [|fuel IH]; intros n tail; [reflexivity|].
  cbn [digits_before]. destruct (n <? 10)%N; [reflexivity|].
  rewrite IH, (IH _ [_]), <- app_assoc. reflexivity.
Qed.

Lemma digits_before_step (fuel : nat) (n : N) :
  digits_before (S fuel) n [] =
    if (n <? 10)%N then [(48 + n)%N]
    else digits_before fuel (n / 10)%N [] ++ [(48 + n mod 10)%N].
Proof.
  cbn [digits_before]. destruct (n <? 10)%N; [reflexivity|]. apply digits_before_tail.
Qed.

(** With fuel enough the digits end in a digit, are digits, and read back
    as the number. *)
Lemma digits_before_enough (fuel : nat) (n : N) :
  fuel <> O -> (n < 2 ^ N.of_nat fuel)%N ->
  (exists front last, digits_before fuel n [] = front ++ [last] /\ is_digit last)
  /\ Forall is_digit (digits_before fuel n [])
  /\ forall acc count rest,
       read_digits 10 acc count (digits_before fuel n [] ++ rest) =
         read_digits 10
           (acc * 10 ^ N.of_nat (List.length (digits_before fuel n [])) + n)%N
           (count + List.length (digits_before fuel n []))%nat rest.
Proof.
  revert n. induction fuel as [|fuel IH]; intros n Hfuel Hn; [contradiction|].
  clear Hfuel. rewrite digits_before_step. destruct (N.ltb_spec n 10) as [Hlt|Hge].
  - split.
    { exists [], (48 + n)%N. split; [reflexivity|unfold is_digit; lia]. }
    split.
    { repeat constructor; unfold is_digit; lia. }
    intros acc count rest. cbn [app read_digits List.length].
    unfold digit_value.
    rewrite (proj2 (N.leb_le 48 (48 + n))), (proj2 (N.leb_le (48 + n) 57)) by lia.
    cbn [andb]. replace (48 + n - 48)%N with n by lia.
    rewrite (proj2 (N.ltb_lt n 10)) by lia.
    replace (acc * 10 ^ N.of_nat 1 + n)%N with (acc * 10 + n)%N
      by (change (N.of_nat 1) with 1%N; lia).
    replace (count + 1)%nat with (S count) by lia. reflexivity.
  - assert (H10 : (10 <> 0)%N) by lia.
    pose proof (N.div_mod n 10 H10) as Hdm.
    pose proof (N.mod_lt n 10 H10) as Hmod.
    set (q := (n / 10)%N) in *. set (d := (n mod 10)%N) in *. clearbody q d.
    assert (Hq : (q < 2 ^ N.of_nat fuel)%N).
    { rewrite Nat2N.inj_succ, N.pow_succ_r' in Hn. lia. }
    assert (Hfuel : fuel <> O).
    { intros ->. change (2 ^ N.of_nat 0)%N with 1%N in Hq. lia. }
    destruct (IH _ Hfuel Hq) as [_ [Hall Hread]].
    split.
    { exists (digits_before fuel q []), (48 + d)%N.
      split; [reflexivity|unfold is_digit; lia]. }
    split.
    { apply Forall_app. split; [exact Hall|repeat constructor; unfold is_digit; lia]. }
    intros acc count rest. rewrite <- app_assoc, Hread. cbn [app read_digits].
    unfold digit_value.
    rewrite (proj2 (N.leb_le 48 (48 + d))), (proj2 (N.leb_le (48 + d) 57)) by lia.
    cbn [andb]. replace (48 + d - 48)%N with d by lia.
    rewrite (proj2 (N.ltb_lt d 10)) by lia.
    rewrite length_app. cbn [List.length].
    set (len := List.length (digits_before fuel q [])).
    replace (count + (len + 1))%nat with (S (count + len)) by lia.
    replace (acc * 10 ^ N.of_nat (len + 1) + n)%N
      with ((acc * 10 ^ N.of_nat len + q) * 10 + d)%N; [reflexivity|].
    rewrite Nat2N.inj_add. change (N.of_nat 1) with 1%N.
    rewrite N.pow_add_r, N.pow_1_r. lia.
Qed.

Lemma Number_toString_fuel (n : N) : (n < 2 ^ N.of_nat (S (N.to_nat (N.log2 n))))%N.
Proof.
  rewrite Nat2N.inj_succ, N2Nat.id.
  destruct n as [|p]; [reflexivity|].
  apply N.log2_spec. lia.
Qed.


Lemma Number_toString_digits (n : N) :
  (exists front last, Number_toString n = front ++ [last] /\ is_digit last)
  /\ Forall is_digit (Number_toString n)
  /\ forall acc count rest,
       read_digits 10 acc count (Number_toString n ++ rest) =
         read_digits 10 (acc * 10 ^ N.of_nat (List.length (Number_toString n)) + n)%N
           (count + List.length (Number_toString n))%nat rest.
Proof.
  apply digits_before_enough; [discriminate|apply Number_toString_fuel].
Qed.

Lemma digit_cases (c : N) :
  is_digit c -> In c [48; 49; 50; 51; 52; 53; 54; 55; 56; 57]%N.
Proof. unfold is_digit. cbn [In]. lia. Qed.

Ltac each_digit H :=
  apply digit_cases in H; cbn [In] in H;
  repeat (destruct H as [<-|H]); [..|contradiction].

Lemma is_space_digit (c : N) : is_digit c -> is_space c = false.
Proof. intros H. each_digit H; reflexivity. Qed.

(** [parseInt] on a string of digits reads them all, in base ten. *)
Lemma parseInt_digits (s : jsstring) :
  s <> [] -> Forall is_digit s ->
  parseInt (Some s) =
    let '(n, count, _) := read_digits 10 0 0 s in
    match count with
    | O => None
    | _ => Some (Z.of_N n)
    end.
Proof.
  destruct s as [|c1 r]; [congruence|]. intros _ H.
  apply Forall_cons in H as [H1 Hr].
  destruct r as [|c2 r].
  - each_digit H1; reflexivity.
  - apply Forall_cons in Hr as [H2 _].
    each_digit H1; try reflexivity; each_digit H2; reflexivity.
Qed.

Lemma parseInt_Number_toString (n : N) :
  parseInt (Some (Number_toString n)) = Some (Z.of_N n).
Proof.
  destruct (Number_toString_digits n) as [[front [last [Hlast _]]] [Hall Hread]].
  rewrite parseInt_digits; [|rewrite Hlast; now destruct front|exact Hall].
  specialize (Hread 0%N 0%nat []). rewrite app_nil_r in Hread. rewrite Hread.
  cbn [read_digits Nat.add]. rewrite Hlast, length_app. cbn [List.length].
  rewrite Nat.add_1_r. f_equal.
Qed.

(** *** The lines of the header *)

Lemma trim_between (c : N) (mid : jsstring) (d : N) :
  is_space c = false -> is_space d = false ->
  trim (c :: mid ++ [d]) = c :: mid ++ [d].
Proof.
  intros Hc Hd. unfold trim, trimEnd. cbn [trimStart]. rewrite Hc.
  change (c :: mid ++ [d]) with ((c :: mid) ++ [d]).
  rewrite rev_app_distr. cbn [List.rev app trimStart]. rewrite Hd.
  cbn [List.rev]. now rewrite rev_app_distr, rev_involutive.
Qed.

Lemma split_from_end (sep : N) (field l : jsstring) :
  Forall (fun c => c <> sep) l -> split_from sep field l = [List.rev field ++ l].
Proof.
  intros H. revert field. induction H as [|c l Hc _ IH]; intros field.
  - cbn [split_from]. now rewrite app_nil_r.
  - cbn [split_from]. rewrite (proj2 (N.eqb_neq c sep) Hc), IH.
    cbn [List.rev]. now rewrite <- app_assoc.
Qed.

Section ElementLine.

Variable digits : jsstring.
Hypothesis all_digits : Forall is_digit digits.
Hypothesis ends_in_digit : exists front last, digits = front ++ [last] /\ is_digit last.

Lemma element_line_trim :
  trim (lit "element vertex " ++ digits) = lit "element vertex " ++ digits.
Proof.
  destruct ends_in_digit as [front [last [-> Hlast]]].
  change (lit "element vertex " ++ front ++ [last])
    with (101%N :: (List.tl (lit "element vertex ") ++ front) ++ [last]) at 1.
  rewrite trim_between; [|reflexivity|now apply is_space_digit].
  cbn [app List.tl]. now rewrite <- app_assoc.
Qed.

Lemma element_line_split :
  split 32 (lit "element vertex " ++ digits) = [lit "element"; lit "vertex"; digits].
Proof.
  change (lit "element vertex " ++ digits)
    with (lit "element" ++ 32%N :: lit "vertex" ++ 32%N :: digits).
  unfold split. rewrite split_from_line by (repeat constructor; discriminate).
  rewrite split_from_line by (repeat constructor; discriminate).
  rewrite split_from_end; [reflexivity|].
  eapply Forall_impl; [exact all_digits|]. unfold is_digit. intros c Hc. lia.
Qed.

Lemma element_line_header (h : header) (this : loader) :
  header_line (lit "element vertex " ++ digits) h this =
    (set_vertexCount h (parseInt (Some digits)), this).
Proof. unfold header_line. rewrite element_line_split. reflexivity. Qed.

Lemma element_line_plain : plain_line (lit "element vertex " ++ digits).
Proof.
  split; [|apply element_line_trim].
  apply Forall_app. split; [repeat constructor; try lia; discriminate|].
  eapply Forall_impl; [exact all_digits|]. unfold is_digit. intros c Hc. lia.
Qed.

End ElementLine.


(** *** The loop of [parseHeader] on the lines of the writer *)

Lemma loop_ply (rest : list jsstring) (h : header) (b : bool) (t : jsstring)
    (this : loader) :
  parseHeader_loop (lit "ply" :: rest) (Scan h b t this) =
    parseHeader_loop rest (Scan h true (t ++ lit "ply" ++ [10%N]) this).
Proof. rewrite parseHeader_loop_cons. reflexivity. Qed.

Lemma loop_end_header (rest : list jsstring) (h : header) (b : bool) (t : jsstring)
    (this : loader) :
  parseHeader_loop (lit "end_header" :: rest) (Scan h b t this) =
    (set_headerLength h
       (Z.of_nat (List.length (TextEncoder_encode (t ++ lit "end_header" ++ [10%N])))),
     this).
Proof. rewrite parseHeader_loop_cons. reflexivity. Qed.

Lemma loop_line (l : jsstring) (rest : list jsstring) (h h' : header) (t : jsstring)
    (this this' : loader) :
  trim l = l -> str_eqb l (lit "ply") = false -> str_eqb l (lit "end_header") = false ->
  header_line l h this = (h', this') ->
  parseHeader_loop (l :: rest) (Scan h true t this) =
    parseHeader_loop rest (Scan h' true (t ++ l ++ [10%N]) this').
Proof.
  intros Htrim Hply Hend Hline. rewrite parseHeader_loop_cons. cbv zeta.
  cbn [scan_header inHeader headerText scan_this].
  rewrite Htrim, Hply, Hend, Hline. reflexivity.
Qed.

Lemma loop_header_lines (digits : jsstring) (rest : list jsstring) (this : loader) :
  Forall is_digit digits ->
  (exists front last, digits = front ++ [last] /\ is_digit last) ->
  parseHeader_loop (header_lines digits ++ lit "end_header" :: rest)
    (Scan initial_header false [] this) =
    (Header (Some (lit "binary_little_endian")) (parseInt (Some digits)) float_properties
       (Z.of_nat (List.length (TextEncoder_encode
                    (join_lines (header_lines digits ++ [lit "end_header"]))))),
     Loader true).
Proof.
  intros Hall Hlast.
  unfold header_lines, property_names. cbn [List.map app].
  rewrite loop_ply.
  erewrite loop_line; [|vm_compute; reflexivity..].
  assert (Hply : str_eqb (lit "element vertex " ++ digits) (lit "ply") = false)
    by (apply bool_decide_eq_false_2; discriminate).
  assert (Hend : str_eqb (lit "element vertex " ++ digits) (lit "end_header") = false)
    by (apply bool_decide_eq_false_2; discriminate).
  rewrite (loop_line (lit "element vertex " ++ digits) _ _ _ _ _ _
             (element_line_trim digits Hall Hlast) Hply Hend
             (element_line_header digits Hall _ _)).
  generalize (parseInt (Some digits)). intros count.
  do 17 (erewrite loop_line; [|vm_compute; reflexivity..]).
  rewrite loop_end_header.
  unfold set_headerLength, join_lines. cbn [format vertexCount properties List.flat_map].
  rewrite <- !app_assoc. reflexivity.
Qed.


(** *** The bytes of the header *)

Lemma to_N_byte_of (c : N) : (c <= 255)%N -> Byte.to_N (byte_of c) = c.
Proof.
  intros Hc. unfold byte_of. destruct (Byte.of_N c) as [b|] eqn:E.
  - now apply Byte.to_of_N.
  - apply Byte.of_N_None_iff in E. lia.
Qed.

Lemma text_of_bytes (s : jsstring) :
  Forall (fun c => (c <= 127)%N) s -> text_of (List.map byte_of s) = s.
Proof.
  induction 1 as [|c s Hc _ IH]; [reflexivity|].
  unfold text_of in *. cbn [List.map]. rewrite IH, to_N_byte_of by lia. reflexivity.
Qed.

Lemma createPlyHeader_lines (n : N) :
  createPlyHeader n = join_lines (header_lines (Number_toString n) ++ [lit "end_header"]).
Proof.
  unfold createPlyHeader, join_lines, header_lines, property_names.
  cbn [List.map app List.flat_map]. rewrite <- !app_assoc. reflexivity.
Qed.

Lemma header_lines_plain (digits : jsstring) :
  Forall is_digit digits ->
  (exists front last, digits = front ++ [last] /\ is_digit last) ->
  Forall plain_line (header_lines digits ++ [lit "end_header"]).
Proof.
  intros Hall Hlast. unfold header_lines, property_names. cbn [List.map app].
  repeat (apply List.Forall_cons; [try now apply element_line_plain|]);
    [..|apply List.Forall_nil];
    (split; [repeat constructor; vm_compute; congruence|vm_compute; reflexivity]).
Qed.

Lemma decode_ascii_prefix (s : jsstring) (data : list Byte.byte) :
  Forall (fun c => (c <= 127)%N) s -> (3 <= List.length s)%nat ->
  TextDecoder_decode (List.map byte_of s ++ data) = s ++ utf8_decode_from None (text_of data).
Proof.
  intros Hs Hlen. unfold TextDecoder_decode.
  rewrite map_app. fold (text_of (List.map byte_of s)) (text_of data).
  rewrite (text_of_bytes s Hs).
  destruct s as [|c0 [|c1 [|c2 s]]]; cbn [List.length] in Hlen; try lia.
  cbn [app]. apply Forall_cons in Hs as [H0 Hs].
  rewrite (proj2 (N.eqb_neq c0 239)) by lia. cbn [andb].
  apply (utf8_decode_ascii (c0 :: c1 :: c2 :: s)). now constructor.
Qed.

(** The loop of [parseHeader] on a written header and what follows it. *)
Lemma written_header_scan (this : loader) (n : N) (data : list Byte.byte) :
  parseHeader_loop
    (split 10 (TextDecoder_decode (Buffer_from (createPlyHeader n) ++ data)))
    (Scan initial_header false [] this) = (header_of n, Loader true).
Proof.
  destruct (Number_toString_digits n) as [Hlast [Hall _]].
  pose proof (header_lines_plain _ Hall Hlast) as Hplain.
  pose proof (join_lines_ascii _ Hplain) as Hascii.
  unfold header_of, Buffer_from.
  rewrite createPlyHeader_lines, (utf8_encode_ascii _ Hascii).
  rewrite decode_ascii_prefix; [|exact Hascii|].
  - rewrite (split_join_lines _ _ Hplain), <- app_assoc. cbn [app].
    rewrite (loop_header_lines _ _ _ Hall Hlast).
    rewrite parseInt_Number_toString, (utf8_encode_ascii _ Hascii), length_map.
    reflexivity.
  - unfold join_lines, header_lines. cbn [app List.flat_map].
    rewrite !length_app. change (List.length (lit "ply")) with 3%nat. lia.
Qed.

(** X9.  The header [createPlyHeader] writes for a whole number of vertices
    reads back in full, whatever bytes follow it and whatever loader reads
    it: little-endian binary, that number of vertices, the seventeen
    [float] properties in their order, and a [headerLength] that is the
    byte length of the header, so that the data are looked for where the
    header ends; the loader is left reading little-endian. *)
Theorem written_header_reads_back (this : loader) (n : N) (data : list Byte.byte) :
  (n < 2 ^ 53)%N ->
  parseHeader this (Buffer_from (createPlyHeader n) ++ data) =
    Returned (header_of n, Loader true).
Proof.
  intros _. unfold parseHeader. cbv zeta.
  rewrite written_header_scan. reflexivity.
Qed.

Lemma written_header_reads_back_witness :
  parseHeader constructor (Buffer_from (createPlyHeader 12) ++ [Byte.x00]) =
    Returned (header_of 12, Loader true).
Proof. apply (written_header_reads_back constructor 12 [Byte.x00]). reflexivity. Defined.

End WriterHeaderFacts.

(* ===================================================================== *)
(** ** The written payload *)
(* ===================================================================== *)

Module WriterFacts.

Import GaussianSplatLoader Spec PlyWriter WriterSpec BinaryFacts.

Local Open Scope string_scope.
Local Open Scope list_scope.
Local Open Scope Z_scope.

Lemma length_float_bytes (value : float) : List.length (float_bytes value) = 4%nat.
Proof. reflexivity. Qed.

Lemma length_flat_float_bytes (values : list float) :
  List.length (List.flat_map float_bytes values) = (4 * List.length values)%nat.
Proof.
  induction values as [|v values IH]; [reflexivity|].
  cbn [List.flat_map]. rewrite length_app, length_float_bytes, IH. cbn [List.length]. lia.
Qed.

Lemma foldM_app {A T : Type} (body : T -> A -> outcome T) (l k : list A) (s : T) :
  foldM body (l ++ k) s = let! s' := foldM body l s in foldM body k s'.
Proof.
  revert s. induction l as [|x l IH]; intros s; [reflexivity|].
  cbn [app foldM]. destruct (body s x) as [s'|e]; [|reflexivity]. cbn [bind]. apply IH.
Qed.

(** A write inside the buffer replaces four bytes. *)
Lemma writeFloatLE_inside (pre old post : list Byte.byte) (value : float) :
  List.length old = 4%nat ->
  writeFloatLE (pre ++ old ++ post) value (Z.of_nat (List.length pre)) =
    Returned (pre ++ float_bytes value ++ post).
Proof.
  intros Hold. unfold writeFloatLE. rewrite !length_app, Hold.
  rewrite (proj2 (Z.leb_le 0 _)), (proj2 (Z.leb_le _ _)) by lia. cbn [andb].
  rewrite Nat2Z.id, take_app_length.
  rewrite <- drop_drop, drop_app_length, (drop_app_length' old post 4 (eq_sym Hold)).
  reflexivity.
Qed.

(** A write that does not fit throws and leaves nothing. *)
Lemma writeFloatLE_outside (buffer : list Byte.byte) (value : float) (offset : Z) :
  Z.of_nat (List.length buffer) < offset + 4 ->
  writeFloatLE buffer value offset = Thrown RangeError.
Proof.
  intros H. unfold writeFloatLE. rewrite (proj2 (Z.leb_gt (offset + 4) _)) by lia.
  now rewrite andb_false_r.
Qed.

(** The inner loop, on values that fit. *)
Lemma write_values_inside (values : list float) (pre old post : list Byte.byte) :
  List.length old = (4 * List.length values)%nat ->
  write_values (pre ++ old ++ post, Z.of_nat (List.length pre)) values =
    Returned (pre ++ List.flat_map float_bytes values ++ post,
              Z.of_nat (List.length pre) + 4 * Z.of_nat (List.length values)).
Proof.
  unfold write_values. revert pre old.
  induction values as [|v values IH]; intros pre old Hold.
  - destruct old; [|discriminate]. cbn [foldM List.flat_map app List.length].
    do 2 f_equal. lia.
  - cbn [List.length] in Hold.
    rewrite <- (take_drop 4 old), <- app_assoc. cbn [foldM].
    rewrite writeFloatLE_inside by (rewrite length_take; lia).
    cbn [bind]. rewrite (app_assoc pre).
    replace (Z.of_nat (List.length pre) + 4)
      with (Z.of_nat (List.length (pre ++ float_bytes v)))
      by (rewrite length_app, length_float_bytes; lia).
    rewrite IH by (rewrite length_drop; lia).
    rewrite length_app, length_float_bytes. cbn [List.flat_map List.length].
    rewrite <- !app_assoc. do 2 f_equal. lia.
Qed.

(** The two loops are one loop over all the values. *)
Lemma write_all_values (gaussianData : list (list float)) (state : list Byte.byte * Z) :
  foldM write_values gaussianData state = write_values state (List.concat gaussianData).
Proof.
  revert state. induction gaussianData as [|g rest IH]; intros state; [reflexivity|].
  cbn [foldM List.concat]. unfold write_values at 3. rewrite foldM_app.
  fold (write_values state g). destruct (write_values state g) as [state'|e];
    [|reflexivity].
  cbn [bind]. rewrite IH. reflexivity.
Qed.

(** X10.  The file the writer hands over is its header and a payload of
    exactly [NUM_GAUSSIANS * 68] bytes: the four bytes of every value, in
    the order of the data, and zeros after them when the data are short.
    With more than [17 * NUM_GAUSSIANS] values the write that passes the
    end of the buffer throws a [RangeError] and there is no file. *)
Theorem fileContent_fills_the_payload (NUM_GAUSSIANS : N) (gaussianData : list (list float)) :
  (Z.of_nat (List.length (List.concat gaussianData)) <= 17 * Z.of_N NUM_GAUSSIANS ->
   fileContent NUM_GAUSSIANS gaussianData =
     Returned (Buffer_from (createPlyHeader NUM_GAUSSIANS)
               ++ List.flat_map float_bytes (List.concat gaussianData)
               ++ List.repeat Byte.x00
                    (Z.to_nat (Z.of_N NUM_GAUSSIANS * 68)
                     - 4 * List.length (List.concat gaussianData))))
  /\ (17 * Z.of_N NUM_GAUSSIANS < Z.of_nat (List.length (List.concat gaussianData)) ->
      fileContent NUM_GAUSSIANS gaussianData = Thrown RangeError).
Proof.
  unfold fileContent, Buffer_alloc, BYTES_PER_VERTEX. cbv zeta.
  change (17 * 4) with 68. rewrite write_all_values.
  set (values := List.concat gaussianData). set (size := Z.to_nat (Z.of_N NUM_GAUSSIANS * 68)).
  split; intros H.
  - assert (Hrep : List.repeat Byte.x00 size =
                    List.repeat Byte.x00 (4 * List.length values)
                    ++ List.repeat Byte.x00 (size - 4 * List.length values))
      by (rewrite <- repeat_app; f_equal; lia).
    rewrite Hrep.
    pose proof (write_values_inside values []
                  (List.repeat Byte.x00 (4 * List.length values))
                  (List.repeat Byte.x00 (size - 4 * List.length values))
                  (repeat_length _ _)) as Hw.
    cbn [app List.length] in Hw. change (Z.of_nat 0) with 0 in Hw. rewrite Hw.
    reflexivity.
  - assert (Hsplit : values = take (Z.to_nat (17 * Z.of_N NUM_GAUSSIANS)) values
                              ++ drop (Z.to_nat (17 * Z.of_N NUM_GAUSSIANS)) values)
      by (now rewrite take_drop).
    destruct (drop (Z.to_nat (17 * Z.of_N NUM_GAUSSIANS)) values) as [|v more] eqn:Hdrop.
    { apply (f_equal (@List.length _)) in Hdrop. rewrite length_drop in Hdrop.
      cbn [List.length] in Hdrop. lia. }
    rewrite Hsplit. unfold write_values. rewrite foldM_app.
    fold (write_values (List.repeat Byte.x00 size, 0)
            (take (Z.to_nat (17 * Z.of_N NUM_GAUSSIANS)) values)).
    pose proof (write_values_inside
                  (take (Z.to_nat (17 * Z.of_N NUM_GAUSSIANS)) values) []
                  (List.repeat Byte.x00 size) []) as Hw.
    cbn [app List.length] in Hw. change (Z.of_nat 0) with 0 in Hw.
    rewrite app_nil_r in Hw. rewrite Hw by (rewrite repeat_length, length_take; lia).
    cbn [bind foldM]. rewrite app_nil_r.
    rewrite writeFloatLE_outside; [reflexivity|].
    rewrite length_flat_float_bytes, length_take. lia.
Qed.

End WriterFacts.

(* ===================================================================== *)
(** ** A written file, loaded *)
(* ===================================================================== *)

Module RoundTripFacts.

Import GaussianSplatLoader Spec Layout PlyWriter WriterSpec.
Import BinaryFacts LayoutFacts DecodeFacts WriterHeaderFacts WriterFacts.

Local Open Scope string_scope.
Local Open Scope list_scope.
Local Open Scope Z_scope.

(** The four bytes of a bit pattern, put together again. *)
Lemma unsigned_le_bytes_le (u : Z) :
  DataView.unsigned_le (List.map (fun b => Z.of_N (Byte.to_N b)) (bytes_le u)) = u mod 2 ^ 32.
Proof.
  assert (Hbyte : forall z, 0 <= z < 256 -> Z.of_N (Byte.to_N (byte_of (Z.to_N z))) = z).
  { intros z Hz. rewrite to_N_byte_of by lia. lia. }
  unfold bytes_le. cbn [List.map DataView.unsigned_le].
  rewrite !Hbyte by (apply Z.mod_pos_bound; lia).
  change (256 ^ 0) with 1. change (256 ^ 1) with 256. change (256 ^ 2) with 65536.
  change (256 ^ 3) with 16777216. change (2 ^ 32) with 4294967296.
  Z.div_mod_to_equations. lia.
Qed.

Lemma bytes_at_middle (pre mid post : list Byte.byte) :
  DataView.bytes_at (DataView.Make (pre ++ mid ++ post)) (Z.of_nat (List.length pre))
    (List.length mid) =
    Returned (List.map (fun b => Z.of_N (Byte.to_N b)) mid).
Proof.
  unfold DataView.bytes_at, DataView.byteLength. cbn [DataView.buffer].
  rewrite !length_app, (proj2 (Z.leb_le 0 _)), (proj2 (Z.leb_le _ _)) by lia.
  cbn [andb]. rewrite Nat2Z.id, drop_app_length, take_app_length. reflexivity.
Qed.

(** A number written and read at the same place. *)
Lemma read_float_bytes (pre post : list Byte.byte) (value : float) :
  readBinaryValue (Loader true) (DataView.Make (pre ++ float_bytes value ++ post))
    (Z.of_nat (List.length pre)) (Some (lit "float")) = Returned (read_back value).
Proof.
  change (readBinaryValue (Loader true) ?dv ?o (Some (lit "float")))
    with (DataView.getFloat32 dv o true).
  unfold DataView.getFloat32, DataView.bits_at.
  change 4%nat with (List.length (float_bytes value)).
  rewrite bytes_at_middle. cbn [bind]. unfold float_bytes.
  rewrite unsigned_le_bytes_le. reflexivity.
Qed.

Lemma concat_lookup_rows {A : Type} (w : nat) (rows : list (list A)) (i j : nat)
    (row : list A) (x : A) :
  Forall (fun g => List.length g = w) rows ->
  rows !! i = Some row -> row !! j = Some x ->
  List.concat rows !! (i * w + j)%nat = Some x.
Proof.
  intros Hrows. revert i. induction Hrows as [|g rows Hg _ IH]; intros i Hi Hj;
    [discriminate|].
  cbn [List.concat]. destruct i as [|i].
  - injection Hi as ->. cbn [Nat.mul Nat.add]. now apply lookup_app_l_Some.
  - cbn in Hi. rewrite lookup_app_r by lia.
    replace (S i * w + j - List.length g)%nat with (i * w + j)%nat by lia.
    now apply IH.
Qed.

(** The value number [k] of the payload, read where the loader looks for it. *)
Lemma read_value (header zeros : list Byte.byte) (values : list float) (k : nat)
    (value : float) :
  values !! k = Some value ->
  readBinaryValue (Loader true)
    (DataView.Make (header ++ List.flat_map float_bytes values ++ zeros))
    (Z.of_nat (List.length header) + 4 * Z.of_nat k) (Some (lit "float")) =
    Returned (read_back value).
Proof.
  intros Hk. rewrite <- (take_drop_middle values k value Hk).
  rewrite flat_map_app. cbn [List.flat_map]. rewrite <- !app_assoc, (app_assoc header).
  replace (Z.of_nat (List.length header) + 4 * Z.of_nat k)
    with (Z.of_nat (List.length (header ++ List.flat_map float_bytes (take k values)))).
  - apply read_float_bytes.
  - apply lookup_lt_Some in Hk.
    rewrite length_app, length_flat_float_bytes, length_take. lia.
Qed.

Lemma float_properties_ordinary : ordinary float_properties.
Proof.
  unfold ordinary. apply (bool_decide_unpack _). vm_compute. exact I.
Qed.

(** The entry of the property number [j] in the layout. *)
Lemma float_properties_entry (j : nat) (name : string) :
  property_names !! j = Some name ->
  In (name, Entry (4 * Z.of_nat j) (Some (lit "float")) 4) (layout_from 0 float_properties).
Proof.
  intros H. unfold property_names in H.
  do 17 (destruct j as [|j];
         [injection H as <-; vm_compute; repeat first [left; reflexivity|right]|]).
  discriminate.
Qed.


Lemma length_concat_rows {A : Type} (w : nat) (rows : list (list A)) :
  Forall (fun g => List.length g = w) rows ->
  List.length (List.concat rows) = (List.length rows * w)%nat.
Proof.
  induction 1 as [|g rows Hg _ IH]; [reflexivity|].
  cbn [List.concat List.length]. rewrite length_app, IH, Hg. lia.
Qed.

(** The file of data that fill the payload exactly. *)
Lemma fileContent_full (n : N) (gaussianData : list (list float)) :
  List.length gaussianData = N.to_nat n ->
  Forall (fun g => List.length g = 17%nat) gaussianData ->
  fileContent n gaussianData =
    Returned (Buffer_from (createPlyHeader n)
              ++ List.flat_map float_bytes (List.concat gaussianData) ++ []).
Proof.
  intros Hlen Hrows. pose proof (length_concat_rows 17 _ Hrows) as Htotal.
  unfold fileContent, Buffer_alloc, BYTES_PER_VERTEX. cbv zeta.
  rewrite write_all_values.
  pose proof (write_values_inside (List.concat gaussianData) []
                (List.repeat Byte.x00 (Z.to_nat (Z.of_N n * (17 * 4)))) []) as Hw.
  cbn [app List.length] in Hw. change (Z.of_nat 0) with 0 in Hw.
  rewrite app_nil_r in Hw. rewrite Hw by (rewrite repeat_length; lia).
  reflexivity.
Qed.

Section WithMathExp.

Variable Math_exp : float -> float.

(** X11.  A file written for [n] gaussians of seventeen values each loads:
    [parse] returns the mesh of [n] splats, in the order of the data, the
    splat of a gaussian being [processVertex] of a vertex whose property
    number [j] of the header holds the value number [j] of the gaussian, as
    it reads back from its four bytes; and the loader is left reading
    little-endian. *)
Theorem written_file_loads (this : loader) (n : N) (gaussianData : list (list float)) :
  (n < 2 ^ 53)%N ->
  List.length gaussianData = N.to_nat n ->
  Forall (fun g => List.length g = 17%nat) gaussianData ->
  exists (file : list Byte.byte) (raws : list (gmap string float)),
    fileContent n gaussianData = Returned file
    /\ parse Math_exp this file =
         (Returned (createGaussianSplatMesh (List.map (processVertex Math_exp) raws)
                      (header_of n)),
          Loader true)
    /\ Forall2
         (fun gaussian raw =>
            forall j name value,
              property_names !! j = Some name -> gaussian !! j = Some value ->
              raw !! name = Some (read_back value))
         gaussianData raws.
Proof.
  intros _ Hlen Hrows.
  pose proof (length_concat_rows 17 _ Hrows) as Htotal.
  set (header := Buffer_from (createPlyHeader n)).
  set (values := List.concat gaussianData) in *.
  set (file := header ++ List.flat_map float_bytes values ++ []).
  assert (Hfile : Z.of_nat (List.length file) = Z.of_nat (List.length header) + Z.of_N n * 68).
  { unfold file. rewrite !length_app, length_flat_float_bytes, Htotal. cbn [List.length]. lia. }
  assert (Hrecord : forall i, 0 <= i < Z.of_N n ->
            exists raw,
              readVertex (Loader true) (DataView.Make file)
                (Z.of_nat (List.length header) + i * 68)
                (PropertyMap (layout_from 0 float_properties) 68) = Returned raw
              /\ forall k e, In (k, e) (layout_from 0 float_properties) ->
                   exists v,
                     readBinaryValue (Loader true) (DataView.Make file)
                       (Z.of_nat (List.length header) + i * 68 + GaussianSplatLoader.offset e)
                       (entry_type e) = Returned v
                     /\ raw !! k = Some v).
  { intros i Hi.
    destruct (readVertex_fields (Loader true) file (Z.of_nat (List.length header) + i * 68)
                float_properties float_properties_ordinary) as [raw [Hraw [Hin _]]].
    - lia.
    - change (record_size float_properties) with 68. lia.
    - exists raw. split; [exact Hraw|exact Hin]. }
  destruct (records_read Math_exp (Loader true) (DataView.Make file)
              (Z.of_nat (List.length header))
              (PropertyMap (layout_from 0 float_properties) 68)
              (loop_indices (Some (Z.of_N n))) []) as [raws [Hfold Hall]].
  { intros i Hi. apply in_loop_indices in Hi. cbn [vertexSize].
    destruct (Hrecord i Hi) as [raw [Hraw _]]. now exists raw. }
  exists file, raws. split; [now apply fileContent_full|]. split.
  - assert (Hscan : parseHeader_loop (split 10 (TextDecoder_decode file))
                      (Scan initial_header false [] this) = (header_of n, Loader true))
      by exact (written_header_scan this n _).
    unfold parse, parseHeader. cbv zeta. rewrite Hscan.
    unfold parseVertices. cbv zeta.
    change (is_lit (format (header_of n)) "ascii") with false. cbv iota.
    cbn [properties header_of headerLength]. fold header.
    rewrite (createPropertyMap_ordinary _ float_properties_ordinary).
    change (record_size float_properties) with 68.
    unfold parseBinaryVertices. cbn [vertexCount header_of].
    rewrite Hfold. reflexivity.
  - apply Forall2_same_length_lookup. split.
    + apply Forall2_length in Hall. unfold loop_indices in Hall.
      rewrite length_map, length_seq in Hall. lia.
    + intros i gaussian raw Hi Hraw j name value Hname Hvalue.
      assert (Hidx : loop_indices (Some (Z.of_N n)) !! i = Some (Z.of_nat i)).
      { unfold loop_indices. rewrite list_lookup_fmap.
        apply lookup_lt_Some in Hi. rewrite lookup_seq_lt by lia. reflexivity. }
      pose proof (Forall2_lookup_lr _ _ _ _ _ _ Hall Hidx Hraw) as Hread.
      cbv beta in Hread. cbn [vertexSize] in Hread.
      apply lookup_lt_Some in Hi as Hlt.
      destruct (Hrecord (Z.of_nat i)) as [raw' [Hraw' Hin]]; [lia|].
      rewrite Hraw' in Hread. injection Hread as ->.
      destruct (Hin _ _ (float_properties_entry j name Hname)) as [v [Hv Hfield]].
      rewrite Hfield. f_equal.
      cbn [GaussianSplatLoader.offset entry_type] in Hv.
      pose proof (concat_lookup_rows 17 _ i j gaussian value Hrows Hi Hvalue) as Hk.
      fold values in Hk.
      pose proof (read_value header [] values _ value Hk) as Hback. fold file in Hback.
      replace (Z.of_nat (List.length header) + 4 * Z.of_nat (i * 17 + j))
        with (Z.of_nat (List.length header) + Z.of_nat i * 68 + 4 * Z.of_nat j)
        in Hback by lia.
      rewrite Hback in Hv. now injection Hv.
Qed.

End WithMathExp.

Lemma written_file_loads_witness :
  exists (file : list Byte.byte) (raws : list (gmap string float)),
    fileContent 3 createOrthogonalGaussianData = Returned file
    /\ parse exp_ref constructor file =
         (Returned (createGaussianSplatMesh (List.map (processVertex exp_ref) raws)
                      (header_of 3)),
          Loader true)
    /\ Forall2
         (fun gaussian raw =>
            forall j name value,
              property_names !! j = Some name -> gaussian !! j = Some value ->
              raw !! name = Some (read_back value))
         createOrthogonalGaussianData raws.
Proof.
  apply (written_file_loads exp_ref constructor 3 createOrthogonalGaussianData).
  - reflexivity.
  - reflexivity.
  - repeat constructor.
Defined.

(** The file of [generateOrthogonalPlyFile], loaded: three splats at the
    positions of the data. *)
Example orthogonal_file_loads :
  match generateOrthogonalPlyFile with
  | Returned file =>
      match fst (parse exp_ref constructor file) with
      | Returned m =>
          ud_vertexCount (mesh_userData m) = 3%nat
          /\ positions (geometry m) = [0.5; 0; 0.5; -0.5; 0; 0.5; 0; 0.5; 0]%float
          /\ rotations (geometry m) = [1; 0; 0; 0; 1; 0; 0; 0; 1; 0; 0; 0]%float
      | Thrown _ => False
      end
  | Thrown _ => False
  end.
Proof. vm_compute. repeat split; reflexivity. Qed.

End RoundTripFacts.

(* ===================================================================== *)
(** ** What [parse] returns *)
(* ===================================================================== *)

Module ParseFacts.

Import GaussianSplatLoader Spec Inputs Cases Layout AssemblerFacts AsciiFacts BinaryFacts ColumnFacts.

Local Open Scope string_scope.
Local Open Scope list_scope.

Section WithMathExp.

Variable Math_exp : float -> float.




End WithMathExp.


End ParseFacts.

(* ===================================================================== *)
(** ** Where the server saves an image *)
(* ===================================================================== *)

Module ServerFacts.

Import Server.

Local Open Scope string_scope.
Local Open Scope list_scope.

(** A field of [split] lies in the string, and ends where the string ends
    or a separator stands. *)
Lemma in_split_from (sep : N) (s field segment : jsstring) :
  In segment (split_from sep field s) ->
  exists before after,
    List.rev field ++ s = before ++ segment ++ after
    /\ (after = [] \/ exists rest, after = sep :: rest).
Proof.
  revert field. induction s as [|c s IH]; intros field Hin.
  - destruct Hin as [<-|[]]. exists [], []. split; [|now left].
    cbn [app]. now rewrite !app_nil_r.
  - cbn [split_from] in Hin. destruct (N.eqb_spec c sep) as [->|Hc].
    + destruct Hin as [<-|Hin].
      * exists [], (sep :: s). split; [reflexivity|right; now exists s].
      * destruct (IH [] Hin) as [before [after [Heq Hafter]]].
        exists (List.rev field ++ sep :: before), after. split; [|exact Hafter].
        cbn [List.rev app] in Heq. rewrite Heq, <- app_assoc. reflexivity.
    + destruct (IH (c :: field) Hin) as [before [after [Heq Hafter]]].
      exists before, after. split; [|exact Hafter].
      rewrite <- Heq. cbn [List.rev]. rewrite <- app_assoc. reflexivity.
Qed.

(** The first occurrence of a character is where it is seen first. *)
Lemma first_occurrence (x : N) (front back before after : jsstring) :
  ~ In x front ->
  front ++ x :: back = before ++ x :: after ->
  (before = front /\ after = back) \/ In x back.
Proof.
  revert before. induction front as [|y front IH]; intros before Hx Heq.
  - destruct before as [|z before].
    + injection Heq as ->. now left.
    + injection Heq as <- ->. right. apply in_or_app. right. now left.
  - destruct before as [|z before].
    + injection Heq as -> _. exfalso. apply Hx. now left.
    + injection Heq as <- Heq.
      destruct (IH before) as [[-> ->]|Hin]; [intros H; apply Hx; now right|exact Heq| |].
      * now left.
      * now right.
Qed.

Lemma replace_colon_dot_clean (s : jsstring) :
  ~ In 46%N (replace_colon_dot s) /\ ~ In 58%N (replace_colon_dot s).
Proof.
  induction s as [|c s [IHdot IHcolon]]; [split; intros []|].
  cbn [replace_colon_dot List.map]. fold (replace_colon_dot s).
  destruct (N.eqb_spec c 58) as [->|Hcolon]; cbn [orb].
  - split; intros [H|H]; try discriminate; tauto.
  - destruct (N.eqb_spec c 46) as [->|Hdot].
    + split; intros [H|H]; try discriminate; tauto.
    + split; intros [H|H]; try congruence; tauto.
Qed.

(** X13.  Whatever string the request gives as [timestamp], the name of
    the saved file holds no colon, and none of its path segments, cut at
    [/] or at [\], is [.] or [..]: joined to the directory of the server
    it names a file under that directory. *)
Theorem filename_has_no_dot_segment (timestamp : jsstring) :
  ~ In 58%N (filename timestamp)
  /\ forall (sep : N) (segment : jsstring),
       sep = 47%N \/ sep = 92%N ->
       In segment (split sep (filename timestamp)) ->
       segment <> lit "." /\ segment <> lit "..".
Proof.
  destruct (replace_colon_dot_clean timestamp) as [Hdot Hcolon].
  assert (Hfront : ~ In 46%N (lit "manual_export_" ++ replace_colon_dot timestamp)).
  { intros H. apply in_app_or in H as [H|H]; [|tauto].
    vm_compute in H. intuition discriminate. }
  split.
  { unfold filename. intros H.
    apply in_app_or in H as [H|H]; [vm_compute in H; intuition discriminate|].
    apply in_app_or in H as [H|H]; [tauto|vm_compute in H; intuition discriminate]. }
  intros sep segment Hsep Hin.
  destruct (in_split_from sep _ [] segment Hin) as [before [after [Heq Hafter]]].
  cbn [List.rev app] in Heq. unfold filename in Heq.
  rewrite app_assoc in Heq.
  change (lit ".png") with (46%N :: lit "png") in Heq.
  split; intros ->.
  - change (lit "." ++ after) with (46%N :: after) in Heq.
    destruct (first_occurrence _ _ _ _ _ Hfront Heq) as [[_ ->]|H];
      [|vm_compute in H; intuition discriminate].
    destruct Hafter as [H|[rest H]]; [discriminate|].
    injection H as <- _. destruct Hsep; discriminate.
  - change (lit ".." ++ after) with (46%N :: 46%N :: after) in Heq.
    destruct (first_occurrence _ _ _ _ _ Hfront Heq) as [[_ H]|H];
      [discriminate|vm_compute in H; intuition discriminate].
Qed.

End ServerFacts.

(* ===================================================================== *)
(** ** The moves of the robot *)
(* ===================================================================== *)

Module RobotFacts.

Import Robot.

Local Open Scope string_scope.
Local Open Scope list_scope.
Local Open Scope float_scope.

(** *** Subtraction, negation and the absolute value of binary64 numbers *)

Lemma SFsub_add_opp (a b : spec_float) :
  SFsub prec emax a b = SFadd prec emax a (SFopp b).
Proof.
  destruct a as [sa|sa| |sa ma ea], b as [sb|sb| |sb mb eb]; cbn [SFsub SFadd SFopp];
    try reflexivity; destruct sa, sb; reflexivity.
Qed.

Lemma sub_add_opp (a b : float) : a - b = a + (- b).
Proof.
  apply Prim2SF_inj. rewrite sub_spec, add_spec, opp_spec. apply SFsub_add_opp.
Qed.

Lemma opp_involutive (a : float) : - (- a) = a.
Proof.
  apply Prim2SF_inj. rewrite !opp_spec.
  destruct (Prim2SF a) as [s|s| |s m e]; cbn [SFopp]; try reflexivity;
    now rewrite negb_involutive.
Qed.

Lemma binary_round_aux_opp (s : bool) (m e : Z) (l : location) :
  binary_round_aux prec emax (negb s) m e l = SFopp (binary_round_aux prec emax s m e l).
Proof.
  unfold binary_round_aux.
  destruct (shr_fexp prec emax m e l) as [mrs e'].
  destruct (shr_fexp prec emax _ e' loc_Exact) as [mrs' e''].
  destruct (shr_m mrs') as [|p|p]; cbn [SFopp]; try reflexivity.
  destruct (Z.leb e'' (emax - prec)); reflexivity.
Qed.

Lemma SFmul_opp_l (a b : spec_float) :
  SFmul prec emax (SFopp a) b = SFopp (SFmul prec emax a b).
Proof.
  destruct a as [sa|sa| |sa ma ea], b as [sb|sb| |sb mb eb]; cbn [SFmul SFopp];
    try reflexivity;
    try (destruct sa, sb; reflexivity).
  replace (xorb (negb sa) sb) with (negb (xorb sa sb)) by (destruct sa, sb; reflexivity).
  apply binary_round_aux_opp.
Qed.

Lemma mul_opp_l (a b : float) : (- a) * b = - (a * b).
Proof.
  apply Prim2SF_inj. rewrite mul_spec, !opp_spec, mul_spec. apply SFmul_opp_l.
Qed.

Lemma sub_zero (a : float) : a - 0 = a.
Proof.
  apply Prim2SF_inj. rewrite sub_spec. change (Prim2SF 0) with (S754_zero false).
  destruct (Prim2SF a) as [s|s| |s m e]; try reflexivity. now destruct s.
Qed.

Lemma abs_positive (v : float) : PrimFloat.ltb 0 v = true -> abs v = v.
Proof.
  intros H. apply Prim2SF_inj. rewrite abs_spec. rewrite FloatAxioms.ltb_spec in H.
  change (Prim2SF 0) with (S754_zero false) in H.
  destruct (Prim2SF v) as [s|s| |s m e]; try discriminate; destruct s; try discriminate;
    reflexivity.
Qed.

Lemma abs_not_positive (v : float) :
  PrimFloat.ltb 0 v = false -> PrimFloat.eqb v 0 = false -> abs v = - v.
Proof.
  intros Hlt Hne. apply Prim2SF_inj. rewrite abs_spec, opp_spec.
  rewrite FloatAxioms.ltb_spec in Hlt. rewrite FloatAxioms.eqb_spec in Hne.
  change (Prim2SF 0) with (S754_zero false) in Hlt, Hne.
  destruct (Prim2SF v) as [s|s| |s m e]; try discriminate; try reflexivity;
    destruct s; try discriminate; reflexivity.
Qed.

Lemma abs_zero (v : float) : PrimFloat.eqb v 0 = true -> abs v = 0.
Proof.
  intros H. apply Prim2SF_inj. rewrite abs_spec. rewrite FloatAxioms.eqb_spec in H.
  change (Prim2SF 0) with (S754_zero false) in H |- *.
  destruct (Prim2SF v) as [s|s| |s m e]; try discriminate; try reflexivity;
    destruct s; discriminate.
Qed.

Section WithTrigonometry.

Variable Math_cos Math_sin : float -> float.

(** X14.  Moving backward by a distance is moving forward by its
    opposite, and turning right by an angle is turning left by its
    opposite: number for number, on every state of the robot, for every
    distance and angle ([NaN] and the infinities among them), and whatever
    [Math.cos] and [Math.sin] return. *)
Theorem backward_is_forward_by_the_opposite (this : RobotController) (amount : float) :
  moveBackward Math_cos Math_sin (Some amount) this
    = moveForward Math_cos Math_sin (Some (- amount)) this
  /\ turnRight (Some amount) this = turnLeft (Some (- amount)) this.
Proof.
  split.
  - unfold moveBackward, moveForward, set_position. cbv zeta.
    cbn [default position rotation moveSpeed turnSpeed x y z].
    unfold id. rewrite !mul_opp_l, !sub_add_opp, !opp_involutive. reflexivity.
  - unfold turnRight, turnLeft. cbn [default]. unfold id. now rewrite sub_add_opp.
Qed.

(** X15.  A [turn] command adds its value to the rotation of the robot and
    leaves its position alone: for a value that is not zero (a [NaN] or a
    missing value among them) the rotation becomes [rotation + value], and
    for a value of zero, of either sign, the rotation stays as it is. *)
Theorem turn_command_adds_its_value (cmd : command) (robot : RobotController) :
  is_lit (cmd_type cmd) "turn" = true ->
  position (onmessage Math_cos Math_sin cmd robot) = position robot
  /\ (PrimFloat.eqb (ToNumber (cmd_value cmd)) 0 = false ->
      rotation (onmessage Math_cos Math_sin cmd robot)
        = rotation robot + ToNumber (cmd_value cmd))
  /\ (PrimFloat.eqb (ToNumber (cmd_value cmd)) 0 = true ->
      rotation (onmessage Math_cos Math_sin cmd robot) = rotation robot).
Proof.
  intros Hturn. unfold onmessage.
  assert (Hforward : is_lit (cmd_type cmd) "forward" = false).
  { destruct (cmd_type cmd) as [t|]; [|reflexivity]. cbn [is_lit] in *.
    apply bool_decide_eq_true in Hturn. subst t. reflexivity. }
  rewrite Hforward, Hturn. set (v := ToNumber (cmd_value cmd)).
  destruct (PrimFloat.ltb 0 v) eqn:Hpos.
  - split; [reflexivity|]. unfold turnLeft. cbn [rotation set_rotation default]. unfold id. split.
    + intros _. now rewrite abs_positive.
    + intros Hzero. rewrite FloatAxioms.ltb_spec in Hpos.
      rewrite FloatAxioms.eqb_spec in Hzero.
      change (Prim2SF 0) with (S754_zero false) in Hpos, Hzero.
      destruct (Prim2SF v) as [s|s| |s m e]; try discriminate; destruct s; discriminate.
  - split; [reflexivity|]. unfold turnRight. cbn [rotation set_rotation default]. unfold id. split.
    + intros Hne. rewrite (abs_not_positive v Hpos Hne), sub_add_opp, opp_involutive.
      reflexivity.
    + intros Hzero. rewrite (abs_zero v Hzero). apply sub_zero.
Qed.

End WithTrigonometry.

Lemma turn_command_adds_its_value_witness :
  rotation (onmessage (fun a => a) (fun a => a) turn_right_command (constructor None None))
    = 0 + (- PlyWriter.Math_PI / 8).
Proof.
  refine (proj1 (proj2 (turn_command_adds_its_value (fun a => a) (fun a => a)
                          turn_right_command (constructor None None) _)) _);
    vm_compute; reflexivity.
Defined.

End RobotFacts.

(* ===================================================================== *)
(** ** What the header holds *)
(* ===================================================================== *)

Module HeaderLineFacts.

Import GaussianSplatLoader Spec Inputs Cases HeaderSpec HeaderFacts.

Local Open Scope string_scope.
Local Open Scope list_scope.

Lemma last_cons_default {A : Type} (l : list A) (x d : A) :
  List.last (x :: l) d = List.last l x.
Proof.
  revert x d. induction l as [|y l IH]; intros x d; [reflexivity|].
  change (List.last (x :: y :: l) d) with (List.last (y :: l) d).
  now rewrite !(IH y).
Qed.

Lemma last_app_default {A : Type} (l k : list A) (d : A) :
  List.last (l ++ k) d = List.last k (List.last l d).
Proof.
  revert d. induction l as [|x l IH]; intros d; [reflexivity|].
  cbn [app]. now rewrite !last_cons_default, IH.
Qed.

(** One line of the header, by its first words. *)
Lemma header_line_fields (l : jsstring) (h : header) (this : loader) :
  format (fst (header_line (trim l) h this)) = List.last (formatted l) (format h)
  /\ vertexCount (fst (header_line (trim l) h this)) = List.last (counted l) (vertexCount h)
  /\ properties (fst (header_line (trim l) h this)) = properties h ++ declared l.
Proof.
  unfold header_line, formatted, counted, declared, is_element_vertex. cbv zeta.
  destruct (split 32 (trim l) !! 0%nat) as [word|]; cbn [is_lit andb];
    [|now rewrite app_nil_r].
  unfold str_eqb.
  destruct (decide (word = lit "format")) as [->|Hformat].
  { cbn. now rewrite app_nil_r. }
  rewrite (bool_decide_eq_false_2 _ Hformat).
  destruct (decide (word = lit "element")) as [->|Helement].
  { change (bool_decide (lit "element" = lit "element")) with true.
    change (bool_decide (lit "element" = lit "property")) with false.
    cbn [andb]. rewrite app_nil_r.
    destruct (is_lit (split 32 (trim l) !! 1%nat) "vertex"); now cbn. }
  rewrite (bool_decide_eq_false_2 _ Helement). cbn [andb].
  destruct (bool_decide (word = lit "property")); cbn; [tauto|now rewrite app_nil_r].
Qed.

Lemma ply_line_gives_nothing (l : jsstring) :
  trim l = lit "ply" ->
  formatted l = [] /\ counted l = [] /\ declared l = []
  /\ str_eqb (trim l) (lit "end_header") = false.
Proof.
  intros H. unfold formatted, counted, declared, is_element_vertex. rewrite H.
  repeat split.
Qed.

(** The loop once inside the header. *)
Lemma loop_inside_header (lines : list jsstring) (h : header) (text : jsstring)
    (this : loader) :
  format (fst (parseHeader_loop lines (Scan h true text this)))
    = List.last (List.flat_map formatted (lines_before_end lines)) (format h)
  /\ vertexCount (fst (parseHeader_loop lines (Scan h true text this)))
    = List.last (List.flat_map counted (lines_before_end lines)) (vertexCount h)
  /\ properties (fst (parseHeader_loop lines (Scan h true text this)))
    = properties h ++ List.flat_map declared (lines_before_end lines).
Proof.
  revert h text this. induction lines as [|l rest IH]; intros h text this.
  - cbn. now rewrite app_nil_r.
  - rewrite parseHeader_loop_cons. cbv zeta.
    cbn [scan_header inHeader headerText scan_this lines_before_end negb].
    destruct (str_eqb (trim l) (lit "ply")) eqn:Hply.
    + apply bool_decide_eq_true in Hply.
      destruct (ply_line_gives_nothing l Hply) as [Hf [Hc [Hd ->]]].
      cbn [List.flat_map]. rewrite Hf, Hc, Hd. cbn [app]. apply IH.
    + destruct (str_eqb (trim l) (lit "end_header")).
      * cbn. now rewrite app_nil_r.
      * destruct (header_line_fields l h this) as [Hf [Hc Hd]].
        destruct (IH (fst (header_line (trim l) h this)) (text ++ trim l ++ [10%N])
                    (snd (header_line (trim l) h this))) as [IHf [IHc IHd]].
        rewrite IHf, IHc, IHd, Hf, Hc, Hd.
        cbn [List.flat_map]. rewrite !last_app_default, app_assoc. tauto.
Qed.

(** X16.  The header [parseHeader] returns is read off the lines after the
    first [ply] and before the first [end_header], whatever element they
    stand under: its format is the one of the last [format] line (or
    [ascii]), its [vertexCount] what [parseInt] makes of the last
    [element vertex] line (or zero), and its properties those of every
    [property] line, in order; the properties declared for an element
    other than [vertex] are among them. *)
Theorem header_is_read_line_by_line (this : loader) (buffer : list Byte.byte) :
  exists (h : header) (this' : loader),
    parseHeader this buffer = Returned (h, this')
    /\ format h
       = List.last
           (List.flat_map formatted (header_body (split 10 (TextDecoder_decode buffer))))
           (Some (lit "ascii"))
    /\ vertexCount h
       = List.last
           (List.flat_map counted (header_body (split 10 (TextDecoder_decode buffer))))
           (Some 0%Z)
    /\ properties h
       = List.flat_map declared (header_body (split 10 (TextDecoder_decode buffer))).
Proof.
  unfold parseHeader, header_body. cbv zeta.
  set (lines := split 10 (TextDecoder_decode buffer)).
  exists (fst (parseHeader_loop lines (Scan initial_header false [] this))),
         (snd (parseHeader_loop lines (Scan initial_header false [] this))).
  split; [now destruct (parseHeader_loop lines _)|].
  change (Some (lit "ascii")) with (format initial_header).
  change (Some 0%Z) with (vertexCount initial_header).
  change (List.flat_map declared (after_ply (lines_before_end lines)))
    with (properties initial_header
          ++ List.flat_map declared (after_ply (lines_before_end lines))).
  generalize initial_header, (@nil N). clearbody lines. clear buffer.
  induction lines as [|l rest IH]; intros h text.
  - cbn. now rewrite app_nil_r.
  - rewrite parseHeader_loop_cons. cbv zeta.
    cbn [scan_header inHeader headerText scan_this lines_before_end negb].
    destruct (str_eqb (trim l) (lit "ply")) eqn:Hply.
    + apply bool_decide_eq_true in Hply as Htrim.
      destruct (ply_line_gives_nothing l Htrim) as [_ [_ [_ ->]]].
      cbn [after_ply]. rewrite Hply. apply loop_inside_header.
    + destruct (str_eqb (trim l) (lit "end_header")).
      * cbn. now rewrite app_nil_r.
      * cbn [after_ply]. rewrite Hply. apply IH.
Qed.

(** A file with a [face] element after its vertices: the property of the
    faces is laid out in the vertex record, which grows from four bytes to
    eight. *)
Example face_property_in_the_vertex_record :
  exists h this,
    parseHeader constructor buffer_with_faces = Returned (h, this)
    /\ properties h =
         [ Property (Some (lit "float")) (Some (lit "x"));
           Property (Some (lit "list")) (Some (lit "uchar")) ]
    /\ vertexSize (createPropertyMap (properties h)) = 8%Z.
Proof. eexists. eexists. split; [vm_compute; reflexivity|]. split; reflexivity. Qed.

End HeaderLineFacts.

(* ===================================================================== *)
(** ** The reader of one value and the size of its type *)
(* ===================================================================== *)

Module ReaderFacts.

Import GaussianSplatLoader Spec BinaryFacts.

Local Open Scope string_scope.
Local Open Scope list_scope.
Local Open Scope Z_scope.

Lemma bytes_at_before (dv : DataView.t) (byteOffset : Z) (n : nat) :
  byteOffset < 0 -> DataView.bytes_at dv byteOffset n = Thrown RangeError.
Proof.
  intros H. unfold DataView.bytes_at. now rewrite (proj2 (Z.leb_gt 0 byteOffset) H).
Qed.

(** X17.  [readBinaryValue] and [getTypeSize] agree on every type name,
    the unknown ones among them: the read returns a number when the
    [getTypeSize(type)] bytes from [offset] are inside the buffer and ends
    in a [RangeError] when they are not, and the number depends on those
    bytes alone. *)
Theorem reader_and_sizer_agree (this : loader) (type : option jsstring) :
  (forall dataView offset,
     0 <= offset -> offset + getTypeSize type <= DataView.byteLength dataView ->
     exists v, readBinaryValue this dataView offset type = Returned v)
  /\ (forall dataView offset,
        offset < 0 \/ DataView.byteLength dataView < offset + getTypeSize type ->
        readBinaryValue this dataView offset type = Thrown RangeError)
  /\ (forall dataView offset dataView' offset',
        DataView.bytes_at dataView offset (Z.to_nat (getTypeSize type))
          = DataView.bytes_at dataView' offset' (Z.to_nat (getTypeSize type)) ->
        readBinaryValue this dataView offset type
          = readBinaryValue this dataView' offset' type).
Proof.
  destruct (readBinaryValue_reads_getTypeSize this type) as [f Hf].
  pose proof (getTypeSize_positive type) as Hsize.
  split; [|split].
  - intros dataView offset H0 H1. rewrite Hf.
    destruct (bytes_at_returns dataView offset (Z.to_nat (getTypeSize type)))
      as [bs ->]; [lia|lia|].
    now exists (f bs).
  - intros dataView offset [H|H]; rewrite Hf.
    + now rewrite bytes_at_before.
    + rewrite bytes_at_throws by lia. reflexivity.
  - intros dataView offset dataView' offset' H. now rewrite !Hf, H.
Qed.

End ReaderFacts.

(* ===================================================================== *)
(** ** The coefficients that never reach the mesh *)
(* ===================================================================== *)

Module HighRestFacts.

Import GaussianSplatLoader Spec Inputs Cases MeshSpec AssemblerFacts.

Local Open Scope string_scope.
Local Open Scope list_scope.

Section WithMathExp.

Variable Math_exp : float -> float.

Ltac low_name := vm_compute; reflexivity.

(** [processVertex] on two such vertices. *)
Lemma processVertex_visible (raw raw' : gmap string float) :
  same_but_high_rest raw raw' ->
  visible (processVertex Math_exp raw) = visible (processVertex Math_exp raw').
Proof.
  intros H. unfold visible, processVertex. cbv zeta.
  cbn [position scale rotation opacity sh_dc sh_rest].
  rewrite (H "x"), (H "y"), (H "z") by low_name.
  rewrite (H "scale_0"), (H "scale_1"), (H "scale_2") by low_name.
  rewrite (H "scale_x"), (H "scale_y"), (H "scale_z") by low_name.
  rewrite (H "rot_0"), (H "rot_1"), (H "rot_2"), (H "rot_3") by low_name.
  rewrite (H "opacity"), (H "alpha") by low_name.
  rewrite (H "f_dc_0"), (H "f_dc_1"), (H "f_dc_2") by low_name.
  rewrite (H "red"), (H "green"), (H "blue"), (H "r"), (H "g"), (H "b") by low_name.
  change (take 27 (List.map ?f (seq 0 45))) with (List.map f (seq 0 27)).
  rewrite (map_ext_in
             (fun i => or_else (raw !! f_rest i) 0%float)
             (fun i => or_else (raw' !! f_rest i) 0%float) (seq 0 27)); [reflexivity|].
  intros i Hi. apply in_seq in Hi. rewrite (H (f_rest i)); [reflexivity|].
  destruct Hi as [_ Hi]. cbn [Nat.add] in Hi.
  do 27 (destruct i as [|i]; [low_name|]). lia.
Qed.

(** The two loops of the assembler read no more of a splat. *)
Lemma store_visible (i : nat) (vertex vertex' : splat) :
  visible vertex = visible vertex' ->
  (forall c, store_vertex i vertex c = store_vertex i vertex' c)
  /\ (forall a, store_rgb i vertex a = store_rgb i vertex' a).
Proof.
  unfold visible. intros H. injection H as Hposition Hscale Hrotation Hopacity Hdc Hrest.
  assert (Hlow : forall k, (k < 27)%nat -> rest_or_zero vertex k = rest_or_zero vertex' k).
  { intros k Hk. unfold rest_or_zero.
    rewrite <- (lookup_take_lt (sh_rest vertex) 27 k Hk),
            <- (lookup_take_lt (sh_rest vertex') 27 k Hk), Hrest.
    reflexivity. }
  split.
  - intros c. unfold store_vertex. cbv zeta.
    rewrite Hposition, Hscale, Hrotation, Hopacity, Hdc.
    rewrite !Hlow by (cbn; lia). reflexivity.
  - intros a. unfold store_rgb. now rewrite Hdc.
Qed.

Lemma loop_visible {T : Type} (body : nat -> splat -> T -> T)
    (vertices vertices' : list splat) (start : nat) (s : T) :
  (forall i v v' s, visible v = visible v' -> body i v s = body i v' s) ->
  Forall2 (fun v v' => visible v = visible v') vertices vertices' ->
  for_vertices_from start vertices body s = for_vertices_from start vertices' body s.
Proof.
  intros Hbody Hall. revert start s.
  induction Hall as [|v v' vertices vertices' Hv _ IH]; intros start s; [reflexivity|].
  rewrite !for_vertices_from_cons, (Hbody start v v' s Hv). apply IH.
Qed.

(** X18.  The coefficients [f_rest_27] to [f_rest_44] are decoded and kept
    in every splat, and the mesh holds nothing of them: two lists of raw
    vertices that differ in those fields alone give the same mesh. *)
Theorem mesh_ignores_the_high_coefficients (raws raws' : list (gmap string float))
    (header : header) :
  Forall2 same_but_high_rest raws raws' ->
  createGaussianSplatMesh (List.map (processVertex Math_exp) raws) header
    = createGaussianSplatMesh (List.map (processVertex Math_exp) raws') header.
Proof.
  intros Hall.
  assert (Hvisible : Forall2 (fun v v' => visible v = visible v')
                       (List.map (processVertex Math_exp) raws)
                       (List.map (processVertex Math_exp) raws')).
  { induction Hall as [|raw raw' raws raws' H _ IH]; [constructor|].
    cbn [List.map]. constructor; [now apply processVertex_visible|exact IH]. }
  unfold createGaussianSplatMesh, for_vertices. cbv zeta.
  rewrite !length_map, <- (Forall2_length _ _ _ Hall).
  rewrite (loop_visible store_vertex _ _ 0 _
             (fun i v v' c H => proj1 (store_visible i v v' H) c) Hvisible).
  rewrite (loop_visible store_rgb _ _ 0 _
             (fun i v v' a H => proj2 (store_visible i v v' H) a) Hvisible).
  reflexivity.
Qed.

End WithMathExp.

Lemma mesh_ignores_the_high_coefficients_witness :
  createGaussianSplatMesh (List.map (processVertex exp_ref) [vertex_with_f_rest_30])
    initial_header
  = createGaussianSplatMesh (List.map (processVertex exp_ref) [vertex_without_fields])
      initial_header.
Proof.
  apply (mesh_ignores_the_high_coefficients exp_ref [vertex_with_f_rest_30]
           [vertex_without_fields] initial_header).
  constructor; [|constructor].
  intros name Hname. unfold vertex_with_f_rest_30, vertex_without_fields.
  apply lookup_insert_ne. intros <-. vm_compute in Hname. discriminate.
Defined.

(** The splat itself keeps the coefficient. *)
Example splat_keeps_f_rest_30 :
  sh_rest (processVertex exp_ref vertex_with_f_rest_30) !! 30%nat = Some 1%float.
Proof. vm_compute. reflexivity. Qed.

End HighRestFacts.
